(** * TaskFlow: gateway, entity containers and the local task list

    A shallow embedding of the data-access layer of the TaskFlow front end:
    - [utils/apperClient.js], [services/taskService.js],
      [services/projectService.js], [services/userService.js]: the remote
      entity gateway over the external record store;
    - [context/TaskContext.jsx], [context/ProjectContext.jsx]: the entity
      state containers;
    - [pages/Home.jsx], [components/MainFeature.jsx]: the local-only task
      list and its form.

    Asynchronous functions are run to completion one at a time: an [await]
    is a call to the awaited function, a rejected promise is the [Rejected]
    outcome of the effect monad below.  Where the order in which promises
    settle matters, an operation is also given in two halves, cut at its
    [await]. *)

From Stdlib Require Import ZArith Ascii String.
From stdpp Require Import base strings gmap list pretty sorting.

Local Open Scope Z_scope.

(** ** JavaScript data *)

(** Primitive values held in record fields and passed as identifiers. *)
Inductive value :=
| VUndefined
| VNull
| VBool (b : bool)
| VNum (n : Z)
| VStr (s : string).

#[global] Instance value_eq_dec : EqDecision value.
Proof. solve_decision. Defined.

(** A record of the external store: a plain object keyed by field name. *)
Abbreviation obj := (gmap string value).

(** Property read [o[f]]: a missing property reads as [undefined]. *)
Definition get (o : obj) (f : string) : value := default VUndefined (o !! f).

(** Template-literal conversion [`${v}`]. *)
Definition to_string (v : value) : string :=
  match v with
  | VUndefined => "undefined"
  | VNull => "null"
  | VBool true => "true"
  | VBool false => "false"
  | VNum n => pretty n
  | VStr s => s
  end.

(** What a function hands back: a primitive, one record, or an array. *)
Inductive jsval :=
| Prim (v : value)
| Object (o : obj)
| Array (l : list obj).

(** A thrown value, which is also what a promise rejects with.  [Error]
    stands for an object, of whatever class: an [Error] of the program, an
    error of the SDK, a [SyntaxError] or [TypeError] of the engine; its
    argument is the [message] property when that is a string, as it is for
    error objects.  [Primitive] is a value that is not an object, [null]
    and [undefined] among them: a promise may reject with any value. *)
Inductive exn :=
| Error (message : option string)
| Primitive (v : value).

(** The [TypeError] the engine throws when the property [p] of [v], which
    is [null] or [undefined], is read.  The message is in the wording of
    V8. *)
Definition TypeError_reading (p : string) (v : value) : exn :=
  Error (Some ("Cannot read properties of " +:+ to_string v
                 +:+ " (reading '" +:+ p +:+ "')")).

(** [m || fallback] on a message: the empty string and [undefined] are falsy. *)
Definition or_else (m : option string) (fallback : string) : string :=
  match m with
  | Some s => if decide (s = "") then fallback else s
  | None => fallback
  end.

(** ** Effects: state passing with rejection *)

Inductive result (A : Type) :=
| Resolved (a : A)
| Rejected (e : exn).
Arguments Resolved {A} a.
Arguments Rejected {A} e.

Definition Eff (St A : Type) : Type := St → result A * St.

Section eff.
Context {St : Type}.

Definition eret {A} (a : A) : Eff St A := λ s, (Resolved a, s).

Definition ebind {A B} (k : A → Eff St B) (m : Eff St A) : Eff St B :=
  λ s, match m s with
       | (Resolved a, s') => k a s'
       | (Rejected e, s') => (Rejected e, s')
       end.

(** [throw e] *)
Definition throw {A} (e : exn) : Eff St A := λ s, (Rejected e, s).

(** [try { m } catch (err) { h err }] *)
Definition try_catch {A} (m : Eff St A) (h : exn → Eff St A) : Eff St A :=
  λ s, match m s with
       | (Resolved a, s') => (Resolved a, s')
       | (Rejected e, s') => h e s'
       end.

(** [try { m } finally { f }]: [f] runs on both paths and the outcome of
    [m] is kept unless [f] itself throws. *)
Definition finally {A} (m : Eff St A) (f : Eff St ()) : Eff St A :=
  λ s, let '(r, s') := m s in
       match f s' with
       | (Resolved _, s'') => (r, s'')
       | (Rejected e, s'') => (Rejected e, s'')
       end.

Definition modify (f : St → St) : Eff St () := λ s, (Resolved (), f s).
Definition gets {A} (f : St → A) : Eff St A := λ s, (Resolved (f s), s).
End eff.

#[global] Instance Eff_ret {St} : MRet (Eff St) := λ A, @eret St A.
#[global] Instance Eff_bind {St} : MBind (Eff St) := λ A B, @ebind St A B.
#[global] Instance Eff_fmap {St} : FMap (Eff St) :=
  λ A B f m, ebind (λ a, eret (f a)) m.

(** [err.message] on a caught value: reading a property of [null] or of
    [undefined] throws, and a primitive of another type has no [message]. *)
Definition message {St} (err : exn) : Eff St (option string) :=
  match err with
  | Error message => mret message
  | Primitive VNull => throw (TypeError_reading "message" VNull)
  | Primitive VUndefined => throw (TypeError_reading "message" VUndefined)
  | Primitive _ => mret None
  end.

(** ** utils/apperClient.js and the external record store *)

(** A filter condition on one field: equality with a value, or membership
    [{ $in: [...] }]. *)
Inductive cond :=
| CEq (v : value)
| CIn (vs : list value).

Record order_spec := { field : string; direction : string }.
Record paging := { limit : value; offset : value }.

(** The [params] object of [fetchRecords]; [pagingInfo] and [orderBy] are
    absent from some calls. *)
Record fetch_params := {
  fields : list string;
  pagingInfo : option paging;
  orderBy : option (list order_spec);
  filters : gmap string cond
}.

(** The [params] object of [createRecord] and [updateRecord]. *)
Record record_params := { record : obj }.

Record response (D : Type) := { data : D }.
Arguments data {D} r.

(** The client object of the external SDK.  Each method answers a request
    by resolving with a response or by rejecting.  [fetchRecords] resolves
    with [data] an array of records or with [data] absent. *)
Record ApperClient := {
  canvasId : string;
  fetchRecords : string → fetch_params → result (response (option (list obj)));
  createRecord : string → record_params → result (response obj);
  updateRecord : string → value → record_params → result (response obj);
  deleteRecord : string → value → result (response value)
}.

(** [window.ApperSDK], when the SDK script is loaded: the client
    constructor. *)
Record ApperSDK := { new_ApperClient : string → ApperClient }.

(** One request sent to the external store. *)
Inductive net_call :=
| NetFetch (tableName : string) (params : fetch_params)
| NetCreate (tableName : string) (params : record_params)
| NetUpdate (tableName : string) (id : value) (params : record_params)
| NetDelete (tableName : string) (id : value).

(** The state the gateway functions run in: the module variable
    [apperClient], the global [window.ApperSDK], and two traces, the
    requests sent to the store and the lines written by [console.error]. *)
Record gateway_state := {
  apperClient : option ApperClient;
  window_ApperSDK : option ApperSDK;
  net : list net_call;
  console : list string
}.

Definition set_apperClient (c : option ApperClient) (s : gateway_state) :=
  {| apperClient := c; window_ApperSDK := window_ApperSDK s;
     net := net s; console := console s |}.
Definition send (r : net_call) (s : gateway_state) :=
  {| apperClient := apperClient s; window_ApperSDK := window_ApperSDK s;
     net := net s ++ [r]; console := console s |}.
Definition console_error (line : string) : Eff gateway_state () :=
  modify (λ s, {| apperClient := apperClient s; window_ApperSDK := window_ApperSDK s;
                  net := net s; console := console s ++ [line] |}).

(** [await apperClient.fetchRecords(tableName, params)] and its siblings:
    the request is recorded, then the store's answer is the outcome. *)
Definition await_fetchRecords (c : ApperClient) (t : string) (p : fetch_params)
  : Eff gateway_state (response (option (list obj))) :=
  λ s, (fetchRecords c t p, send (NetFetch t p) s).
Definition await_createRecord (c : ApperClient) (t : string) (p : record_params)
  : Eff gateway_state (response obj) :=
  λ s, (createRecord c t p, send (NetCreate t p) s).
Definition await_updateRecord (c : ApperClient) (t : string) (id : value) (p : record_params)
  : Eff gateway_state (response obj) :=
  λ s, (updateRecord c t id p, send (NetUpdate t id p) s).
Definition await_deleteRecord (c : ApperClient) (t : string) (id : value)
  : Eff gateway_state (response value) :=
  λ s, (deleteRecord c t id, send (NetDelete t id) s).

Definition CANVAS_ID : string := "8ac1bf2d6b3b4f9d9d32321e648b406a".

(** [getApperClient]: builds the singleton on first use when the SDK is
    loaded, and returns the module variable, which stays [null] otherwise. *)
Definition getApperClient : Eff gateway_state (option ApperClient) :=
  λ s, match apperClient s, window_ApperSDK s with
       | None, Some sdk =>
           let c := new_ApperClient sdk CANVAS_ID in
           (Resolved (Some c), set_apperClient (Some c) s)
       | _, _ => (Resolved (apperClient s), s)
       end.

Module TableNames.
Definition TASK : string := "task1".
Definition PROJECT : string := "project1".
Definition USER : string := "User1".
Definition TASK_PROJECT : string := "task_project".
End TableNames.

Module FieldNames.
Module TASK.
Definition ID : string := "Id".
Definition NAME : string := "Name".
Definition TITLE : string := "title".
Definition DESCRIPTION : string := "description".
Definition DUE_DATE : string := "due_date".
Definition STATUS : string := "status".
Definition PRIORITY : string := "priority".
Definition ASSIGNED_TO : string := "assigned_to".
(** [Object.values(FieldNames.TASK)] *)
Definition values : list string :=
  [ID; NAME; TITLE; DESCRIPTION; DUE_DATE; STATUS; PRIORITY; ASSIGNED_TO].
End TASK.
Module PROJECT.
Definition ID : string := "Id".
Definition NAME : string := "Name".
Definition DESCRIPTION : string := "description".
Definition START_DATE : string := "start_date".
Definition END_DATE : string := "end_date".
Definition STATUS : string := "status".
Definition values : list string :=
  [ID; NAME; DESCRIPTION; START_DATE; END_DATE; STATUS].
End PROJECT.
Module USER.
Definition ID : string := "Id".
Definition NAME : string := "Name".
Definition EMAIL : string := "email".
Definition ROLE : string := "role".
Definition values : list string := [ID; NAME; EMAIL; ROLE].
End USER.
Module TASK_PROJECT.
Definition ID : string := "Id".
Definition NAME : string := "Name".
Definition TASK_ID : string := "task_id".
Definition PROJECT_ID : string := "project_id".
End TASK_PROJECT.
End FieldNames.

(** [new Error("ApperClient not initialized")] *)
Definition not_initialized : exn := Error (Some "ApperClient not initialized").

(** The [options] argument of the list functions; every property may be
    missing, and a missing one takes the default of the destructuring. *)
Record options := {
  opt_filters : option (gmap string cond);
  opt_limit : option value;
  opt_offset : option value;
  opt_orderBy : option (list order_spec)
}.

(** [options = {}] *)
Definition no_options : options :=
  {| opt_filters := None; opt_limit := None; opt_offset := None; opt_orderBy := None |}.

(** A destructuring default [{ p = d } = options]: [d] is taken when the
    property is missing or [undefined]. *)
Definition or_default (d : value) (p : option value) : value :=
  match p with
  | None | Some VUndefined => d
  | Some v => v
  end.

(** The [params] built by the three list functions from [options]. *)
Definition list_params (fieldNames : list string) (defaultOrder : order_spec)
    (o : options) : fetch_params :=
  {| fields := fieldNames;
     pagingInfo := Some {| limit := or_default (VNum 50) (opt_limit o);
                           offset := or_default (VNum 0) (opt_offset o) |};
     orderBy := Some (default [defaultOrder] (opt_orderBy o));
     filters := default ∅ (opt_filters o) |}.

(** [response.data?.length > 0 ? response.data[0] : null] *)
Definition first_or_null (r : response (option (list obj))) : option obj :=
  match data r with
  | Some (x :: _) => Some x
  | Some [] => None
  | None => None
  end.

(** [response.data || []] *)
Definition data_or_empty (r : response (option (list obj))) : list obj :=
  default [] (data r).

(** The body shared by every gateway function after its request is built:
    [try { const response = await call; return k(response); }
     catch (error) { console.error(label, error); throw error; }] *)
Definition request {D A} (call : Eff gateway_state (response D))
    (k : response D → A) (label : string) : Eff gateway_state A :=
  try_catch
    (response ← call; mret (k response))
    (λ error, console_error label;; throw error).

(** ** services/taskService.js *)
Module taskService.

Definition fetchTasks (o : options) : Eff gateway_state (option (list obj)) :=
  apperClient ← getApperClient;
  match apperClient with
  | None => throw not_initialized
  | Some apperClient =>
      let params :=
        list_params FieldNames.TASK.values
          {| field := FieldNames.TASK.DUE_DATE; direction := "asc" |} o in
      request (await_fetchRecords apperClient TableNames.TASK params)
        data "Error fetching tasks:"
  end.

Definition fetchTaskById (taskId : value) : Eff gateway_state (option obj) :=
  apperClient ← getApperClient;
  match apperClient with
  | None => throw not_initialized
  | Some apperClient =>
      let params :=
        {| fields := FieldNames.TASK.values; pagingInfo := None; orderBy := None;
           filters := {[ FieldNames.TASK.ID := CEq taskId ]} |} in
      request (await_fetchRecords apperClient TableNames.TASK params)
        first_or_null
        ("Error fetching task with ID " +:+ to_string taskId +:+ ":")
  end.

Definition createTask (taskData : obj) : Eff gateway_state obj :=
  apperClient ← getApperClient;
  match apperClient with
  | None => throw not_initialized
  | Some apperClient =>
      let params := {| record := taskData |} in
      request (await_createRecord apperClient TableNames.TASK params)
        data "Error creating task:"
  end.

Definition updateTask (taskId : value) (taskData : obj) : Eff gateway_state obj :=
  apperClient ← getApperClient;
  match apperClient with
  | None => throw not_initialized
  | Some apperClient =>
      let params := {| record := taskData |} in
      request (await_updateRecord apperClient TableNames.TASK taskId params)
        data
        ("Error updating task with ID " +:+ to_string taskId +:+ ":")
  end.

Definition deleteTask (taskId : value) : Eff gateway_state value :=
  apperClient ← getApperClient;
  match apperClient with
  | None => throw not_initialized
  | Some apperClient =>
      request (await_deleteRecord apperClient TableNames.TASK taskId)
        data
        ("Error deleting task with ID " +:+ to_string taskId +:+ ":")
  end.

Definition associateTaskWithProject (taskId projectId : value)
  : Eff gateway_state obj :=
  apperClient ← getApperClient;
  match apperClient with
  | None => throw not_initialized
  | Some apperClient =>
      let params :=
        {| record := {[ FieldNames.TASK_PROJECT.TASK_ID := taskId;
                        FieldNames.TASK_PROJECT.PROJECT_ID := projectId ]} |} in
      request (await_createRecord apperClient TableNames.TASK_PROJECT params)
        data
        ("Error associating task " +:+ to_string taskId +:+ " with project "
           +:+ to_string projectId +:+ ":")
  end.

End taskService.

(** ** services/projectService.js *)
Module projectService.

Definition fetchProjects (o : options) : Eff gateway_state (option (list obj)) :=
  apperClient ← getApperClient;
  match apperClient with
  | None => throw not_initialized
  | Some apperClient =>
      let params :=
        list_params FieldNames.PROJECT.values
          {| field := FieldNames.PROJECT.START_DATE; direction := "desc" |} o in
      request (await_fetchRecords apperClient TableNames.PROJECT params)
        data "Error fetching projects:"
  end.

Definition fetchProjectById (projectId : value) : Eff gateway_state (option obj) :=
  apperClient ← getApperClient;
  match apperClient with
  | None => throw not_initialized
  | Some apperClient =>
      let params :=
        {| fields := FieldNames.PROJECT.values; pagingInfo := None; orderBy := None;
           filters := {[ FieldNames.PROJECT.ID := CEq projectId ]} |} in
      request (await_fetchRecords apperClient TableNames.PROJECT params)
        first_or_null
        ("Error fetching project with ID " +:+ to_string projectId +:+ ":")
  end.

Definition createProject (projectData : obj) : Eff gateway_state obj :=
  apperClient ← getApperClient;
  match apperClient with
  | None => throw not_initialized
  | Some apperClient =>
      let params := {| record := projectData |} in
      request (await_createRecord apperClient TableNames.PROJECT params)
        data "Error creating project:"
  end.

Definition updateProject (projectId : value) (projectData : obj)
  : Eff gateway_state obj :=
  apperClient ← getApperClient;
  match apperClient with
  | None => throw not_initialized
  | Some apperClient =>
      let params := {| record := projectData |} in
      request (await_updateRecord apperClient TableNames.PROJECT projectId params)
        data
        ("Error updating project with ID " +:+ to_string projectId +:+ ":")
  end.

Definition deleteProject (projectId : value) : Eff gateway_state value :=
  apperClient ← getApperClient;
  match apperClient with
  | None => throw not_initialized
  | Some apperClient =>
      request (await_deleteRecord apperClient TableNames.PROJECT projectId)
        data
        ("Error deleting project with ID " +:+ to_string projectId +:+ ":")
  end.

(** The association query of [fetchTasksByProject]. *)
Definition associationParams (projectId : value) : fetch_params :=
  {| fields := [FieldNames.TASK_PROJECT.ID; FieldNames.TASK_PROJECT.TASK_ID];
     pagingInfo := None; orderBy := None;
     filters := {[ FieldNames.TASK_PROJECT.PROJECT_ID := CEq projectId ]} |}.

(** The batched task query of [fetchTasksByProject]. *)
Definition taskParams (taskIds : list value) : fetch_params :=
  {| fields := FieldNames.TASK.values; pagingInfo := None; orderBy := None;
     filters := {[ FieldNames.TASK.ID := CIn taskIds ]} |}.

Definition fetchTasksByProject (projectId : value) : Eff gateway_state (list obj) :=
  apperClient ← getApperClient;
  match apperClient with
  | None => throw not_initialized
  | Some apperClient =>
      try_catch
        (associationsResponse ←
           await_fetchRecords apperClient TableNames.TASK_PROJECT
             (associationParams projectId);
         let associations := data_or_empty associationsResponse in
         if decide (length associations = 0%nat) then mret []
         else
           let taskIds :=
             (λ assoc, get assoc FieldNames.TASK_PROJECT.TASK_ID) <$> associations in
           tasksResponse ←
             await_fetchRecords apperClient TableNames.TASK (taskParams taskIds);
           mret (data_or_empty tasksResponse))
        (λ error,
           console_error
             ("Error fetching tasks for project " +:+ to_string projectId +:+ ":");;
           throw error)
  end.

End projectService.

(** ** services/userService.js *)
Module userService.

Definition fetchUsers (o : options) : Eff gateway_state (option (list obj)) :=
  apperClient ← getApperClient;
  match apperClient with
  | None => throw not_initialized
  | Some apperClient =>
      let params :=
        list_params FieldNames.USER.values
          {| field := FieldNames.USER.NAME; direction := "asc" |} o in
      request (await_fetchRecords apperClient TableNames.USER params)
        data "Error fetching users:"
  end.

Definition fetchUserById (userId : value) : Eff gateway_state (option obj) :=
  apperClient ← getApperClient;
  match apperClient with
  | None => throw not_initialized
  | Some apperClient =>
      let params :=
        {| fields := FieldNames.USER.values; pagingInfo := None; orderBy := None;
           filters := {[ FieldNames.USER.ID := CEq userId ]} |} in
      request (await_fetchRecords apperClient TableNames.USER params)
        first_or_null
        ("Error fetching user with ID " +:+ to_string userId +:+ ":")
  end.

Definition createUser (userData : obj) : Eff gateway_state obj :=
  apperClient ← getApperClient;
  match apperClient with
  | None => throw not_initialized
  | Some apperClient =>
      let params := {| record := userData |} in
      request (await_createRecord apperClient TableNames.USER params)
        data "Error creating user:"
  end.

Definition updateUser (userId : value) (userData : obj) : Eff gateway_state obj :=
  apperClient ← getApperClient;
  match apperClient with
  | None => throw not_initialized
  | Some apperClient =>
      let params := {| record := userData |} in
      request (await_updateRecord apperClient TableNames.USER userId params)
        data
        ("Error updating user with ID " +:+ to_string userId +:+ ":")
  end.

Definition fetchTasksByUser (userId : value) : Eff gateway_state (list obj) :=
  apperClient ← getApperClient;
  match apperClient with
  | None => throw not_initialized
  | Some apperClient =>
      let params :=
        {| fields := FieldNames.TASK.values; pagingInfo := None; orderBy := None;
           filters := {[ FieldNames.TASK.ASSIGNED_TO := CEq userId ]} |} in
      request (await_fetchRecords apperClient TableNames.TASK params)
        data_or_empty
        ("Error fetching tasks for user " +:+ to_string userId +:+ ":")
  end.

End userService.

(** ** The gateway as a whole *)

(** Every function the three service modules export, with its arguments. *)
Inductive gateway_op :=
| Task_fetchTasks (o : options)
| Task_fetchTaskById (taskId : value)
| Task_createTask (taskData : obj)
| Task_updateTask (taskId : value) (taskData : obj)
| Task_deleteTask (taskId : value)
| Task_associateTaskWithProject (taskId projectId : value)
| Project_fetchProjects (o : options)
| Project_fetchProjectById (projectId : value)
| Project_createProject (projectData : obj)
| Project_updateProject (projectId : value) (projectData : obj)
| Project_deleteProject (projectId : value)
| Project_fetchTasksByProject (projectId : value)
| User_fetchUsers (o : options)
| User_fetchUserById (userId : value)
| User_createUser (userData : obj)
| User_updateUser (userId : value) (userData : obj)
| User_fetchTasksByUser (userId : value).

(** The returned JavaScript value of each result type. *)
Definition of_rows (l : option (list obj)) : jsval :=
  match l with Some l => Array l | None => Prim VUndefined end.
Definition of_row (o : option obj) : jsval :=
  match o with Some o => Object o | None => Prim VNull end.

Definition run_gateway_op (op : gateway_op) : Eff gateway_state jsval :=
  match op with
  | Task_fetchTasks o => of_rows <$> taskService.fetchTasks o
  | Task_fetchTaskById i => of_row <$> taskService.fetchTaskById i
  | Task_createTask d => Object <$> taskService.createTask d
  | Task_updateTask i d => Object <$> taskService.updateTask i d
  | Task_deleteTask i => Prim <$> taskService.deleteTask i
  | Task_associateTaskWithProject t p =>
      Object <$> taskService.associateTaskWithProject t p
  | Project_fetchProjects o => of_rows <$> projectService.fetchProjects o
  | Project_fetchProjectById i => of_row <$> projectService.fetchProjectById i
  | Project_createProject d => Object <$> projectService.createProject d
  | Project_updateProject i d => Object <$> projectService.updateProject i d
  | Project_deleteProject i => Prim <$> projectService.deleteProject i
  | Project_fetchTasksByProject i => Array <$> projectService.fetchTasksByProject i
  | User_fetchUsers o => of_rows <$> userService.fetchUsers o
  | User_fetchUserById i => of_row <$> userService.fetchUserById i
  | User_createUser d => Object <$> userService.createUser d
  | User_updateUser i d => Object <$> userService.updateUser i d
  | User_fetchTasksByUser i => Array <$> userService.fetchTasksByUser i
  end.

(** ** Entity state containers *)

(** What a container runs in: its React state [st], the trace [calls] of
    the gateway functions it awaited, and the lines it wrote with
    [console.error]. *)
Record world (St C : Type) := World {
  st : St;
  calls : list C;
  errlog : list string
}.
Arguments World {St C} st calls errlog.
Arguments st {St C} w.
Arguments calls {St C} w.
Arguments errlog {St C} w.

Definition set_state {St C} (f : St → St) : Eff (world St C) () :=
  modify (λ w, World (f (st w)) (calls w) (errlog w)).
Definition log_error {St C} (line : string) : Eff (world St C) () :=
  modify (λ w, World (st w) (calls w) (errlog w ++ [line])).
(** [await service.f(args)]: the call [c] is recorded and its outcome [r]
    is what the awaited promise settles to. *)
Definition await {St C A} (c : C) (r : result A) : Eff (world St C) A :=
  λ w, (r, World (st w) (calls w ++ [c]) (errlog w)).
(** The two moments of an [await] taken apart: the call, and the promise
    settling. *)
Definition calling {St C} (c : C) : Eff (world St C) () :=
  modify (λ w, World (st w) (calls w ++ [c]) (errlog w)).
Definition settled {St C A} (r : result A) : Eff (world St C) A :=
  λ w, (r, w).

(** [!!user] *)
Definition truthy (user : option obj) : bool :=
  match user with Some _ => true | None => false end.

(** [current && current.Id === id] *)
Definition is_current (current : option obj) (id : value) : bool :=
  match current with
  | Some c => bool_decide (get c "Id" = id)
  | None => false
  end.

(** *** context/TaskContext.jsx *)
Module TaskContext.

Record state := {
  tasks : list obj;
  currentTask : option obj;
  loading : bool;
  error : option string
}.

(** The four [useState] initial values. *)
Definition initial : state :=
  {| tasks := []; currentTask := None; loading := false; error := None |}.

(** The imported [taskService] module, as the container sees it: each
    function settles to a value of the gateway contract or rejects.  A
    listing settles to an array of records, which the container keeps as
    its [tasks]. *)
Record service := {
  service_fetchTasks : options → result (list obj);
  service_fetchTaskById : value → result (option obj);
  service_createTask : obj → result obj;
  service_updateTask : value → obj → result obj;
  service_deleteTask : value → result value;
  service_associateTaskWithProject : value → value → result obj
}.

Inductive call :=
  | Call_fetchTasks (o : options)
  | Call_fetchTaskById (taskId : value)
  | Call_createTask (taskData : obj)
  | Call_updateTask (taskId : value) (taskData : obj)
  | Call_deleteTask (taskId : value)
  | Call_associateTaskWithProject (taskId projectId : value).

Abbreviation W := (world state call).

Definition setTasks (f : list obj → list obj) : Eff W () :=
  set_state (λ s, {| tasks := f (tasks s); currentTask := currentTask s;
                     loading := loading s; error := error s |}).
Definition setCurrentTask (c : option obj) : Eff W () :=
  set_state (λ s, {| tasks := tasks s; currentTask := c;
                     loading := loading s; error := error s |}).
Definition setLoading (b : bool) : Eff W () :=
  set_state (λ s, {| tasks := tasks s; currentTask := currentTask s;
                     loading := b; error := error s |}).
Definition setError (e : option string) : Eff W () :=
  set_state (λ s, {| tasks := tasks s; currentTask := currentTask s;
                     loading := loading s; error := e |}).

(** [fetchTasks] and [createTask] cut at their [await].  [before_await c]
    is what runs up to the call of the gateway function; the [_settled]
    functions are what runs once its promise has settled with [r].  The
    scheduler may run other operations of the container in between. *)
Definition before_await (c : call) : Eff W () :=
  setLoading true;;
  setError None;;
  calling c.

Definition fetchTasks_settled (r : result (list obj)) : Eff W jsval :=
  finally
    (try_catch
       (fetchedTasks ← settled r;
        setTasks (λ _, fetchedTasks);;
        mret (Prim VUndefined))
       (λ err,
          message ← message err;
          setError (Some (or_else message "Failed to fetch tasks"));;
          log_error "Error fetching tasks:";;
          mret (Prim VUndefined)))
    (setLoading false).

Definition createTask_settled (r : result obj) : Eff W jsval :=
  finally
    (try_catch
       (newTask ← settled r;
        setTasks (λ prevTasks, prevTasks ++ [newTask]);;
        mret (Object newTask))
       (λ err,
          message ← message err;
          setError (Some (or_else message "Failed to create task"));;
          log_error "Error creating task:";;
          mret (Prim VNull)))
    (setLoading false).

(** The operations of the context value, with their arguments. *)
Inductive op :=
  | FetchTasks (o : options)
  | FetchTaskById (taskId : value)
  | CreateTask (taskData : obj)
  | UpdateTask (taskId : value) (taskData : obj)
  | DeleteTask (taskId : value)
  | AssociateWithProject (taskId projectId : value).

Section provider.
Variable taskService : service.
(** [const { user } = useAuth()] *)
Variable user : option obj.

Definition fetchTasks (o : options) : Eff W jsval :=
  if negb (truthy user) then mret (Prim VUndefined) else
  setLoading true;;
  setError None;;
  finally
    (try_catch
       (fetchedTasks ← await (Call_fetchTasks o) (service_fetchTasks taskService o);
        setTasks (λ _, fetchedTasks);;
        mret (Prim VUndefined))
       (λ err,
          message ← message err;
          setError (Some (or_else message "Failed to fetch tasks"));;
          log_error "Error fetching tasks:";;
          mret (Prim VUndefined)))
    (setLoading false).

Definition fetchTaskById (taskId : value) : Eff W jsval :=
  if negb (truthy user) then mret (Prim VUndefined) else
  setLoading true;;
  setError None;;
  finally
    (try_catch
       (task ← await (Call_fetchTaskById taskId)
                 (service_fetchTaskById taskService taskId);
        setCurrentTask task;;
        mret (of_row task))
       (λ err,
          message ← message err;
          setError (Some (or_else message
            ("Failed to fetch task with ID " +:+ to_string taskId)));;
          log_error ("Error fetching task " +:+ to_string taskId +:+ ":");;
          mret (Prim VNull)))
    (setLoading false).

Definition createTask (taskData : obj) : Eff W jsval :=
  if negb (truthy user) then mret (Prim VNull) else
  setLoading true;;
  setError None;;
  finally
    (try_catch
       (newTask ← await (Call_createTask taskData)
                    (service_createTask taskService taskData);
        setTasks (λ prevTasks, prevTasks ++ [newTask]);;
        mret (Object newTask))
       (λ err,
          message ← message err;
          setError (Some (or_else message "Failed to create task"));;
          log_error "Error creating task:";;
          mret (Prim VNull)))
    (setLoading false).

Definition updateTask (taskId : value) (taskData : obj) : Eff W jsval :=
  if negb (truthy user) then mret (Prim VNull) else
  currentTask ← gets (λ w, currentTask (st w));
  setLoading true;;
  setError None;;
  finally
    (try_catch
       (updatedTask ← await (Call_updateTask taskId taskData)
                        (service_updateTask taskService taskId taskData);
        setTasks (λ prevTasks,
          (λ task, if decide (get task "Id" = taskId) then updatedTask else task)
            <$> prevTasks);;
        (if is_current currentTask taskId
         then setCurrentTask (Some updatedTask) else mret ());;
        mret (Object updatedTask))
       (λ err,
          message ← message err;
          setError (Some (or_else message
            ("Failed to update task with ID " +:+ to_string taskId)));;
          log_error ("Error updating task " +:+ to_string taskId +:+ ":");;
          mret (Prim VNull)))
    (setLoading false).

Definition deleteTask (taskId : value) : Eff W jsval :=
  if negb (truthy user) then mret (Prim (VBool false)) else
  currentTask ← gets (λ w, currentTask (st w));
  setLoading true;;
  setError None;;
  finally
    (try_catch
       (await (Call_deleteTask taskId) (service_deleteTask taskService taskId);;
        setTasks (λ prevTasks,
          filter (λ task, get task "Id" ≠ taskId) prevTasks);;
        (if is_current currentTask taskId
         then setCurrentTask None else mret ());;
        mret (Prim (VBool true)))
       (λ err,
          message ← message err;
          setError (Some (or_else message
            ("Failed to delete task with ID " +:+ to_string taskId)));;
          log_error ("Error deleting task " +:+ to_string taskId +:+ ":");;
          mret (Prim (VBool false))))
    (setLoading false).

Definition associateWithProject (taskId projectId : value) : Eff W jsval :=
  if negb (truthy user) then mret (Prim VNull) else
  setLoading true;;
  setError None;;
  finally
    (try_catch
       (association ← await (Call_associateTaskWithProject taskId projectId)
                        (service_associateTaskWithProject taskService taskId projectId);
        mret (Object association))
       (λ err,
          message ← message err;
          setError (Some (or_else message
            ("Failed to associate task " +:+ to_string taskId
               +:+ " with project " +:+ to_string projectId)));;
          log_error ("Error associating task " +:+ to_string taskId
                       +:+ " with project " +:+ to_string projectId +:+ ":");;
          mret (Prim VNull)))
    (setLoading false).

Definition run (o : op) : Eff W jsval :=
  match o with
  | FetchTasks o => fetchTasks o
  | FetchTaskById i => fetchTaskById i
  | CreateTask d => createTask d
  | UpdateTask i d => updateTask i d
  | DeleteTask i => deleteTask i
  | AssociateWithProject t p => associateWithProject t p
  end.

(** What the awaited gateway function of an operation settles to. *)
Definition settles (o : op) : result () :=
  let forget {A} (r : result A) : result () :=
    match r with Resolved _ => Resolved () | Rejected e => Rejected e end in
  match o with
  | FetchTasks o => forget (service_fetchTasks taskService o)
  | FetchTaskById i => forget (service_fetchTaskById taskService i)
  | CreateTask d => forget (service_createTask taskService d)
  | UpdateTask i d => forget (service_updateTask taskService i d)
  | DeleteTask i => forget (service_deleteTask taskService i)
  | AssociateWithProject t p =>
      forget (service_associateTaskWithProject taskService t p)
  end.
End provider.

End TaskContext.

(** *** context/ProjectContext.jsx *)
Module ProjectContext.

Record state := {
  projects : list obj;
  currentProject : option obj;
  projectTasks : list obj;
  loading : bool;
  error : option string
}.

Definition initial : state :=
  {| projects := []; currentProject := None; projectTasks := [];
     loading := false; error := None |}.

(** The imported [projectService] module, as the container sees it. *)
Record service := {
  service_fetchProjects : options → result (list obj);
  service_fetchProjectById : value → result (option obj);
  service_createProject : obj → result obj;
  service_updateProject : value → obj → result obj;
  service_deleteProject : value → result value;
  service_fetchTasksByProject : value → result (list obj)
}.

Inductive call :=
  | Call_fetchProjects (o : options)
  | Call_fetchProjectById (projectId : value)
  | Call_createProject (projectData : obj)
  | Call_updateProject (projectId : value) (projectData : obj)
  | Call_deleteProject (projectId : value)
  | Call_fetchTasksByProject (projectId : value).

Abbreviation W := (world state call).

Definition setProjects (f : list obj → list obj) : Eff W () :=
  set_state (λ s, {| projects := f (projects s); currentProject := currentProject s;
                     projectTasks := projectTasks s;
                     loading := loading s; error := error s |}).
Definition setCurrentProject (c : option obj) : Eff W () :=
  set_state (λ s, {| projects := projects s; currentProject := c;
                     projectTasks := projectTasks s;
                     loading := loading s; error := error s |}).
Definition setProjectTasks (l : list obj) : Eff W () :=
  set_state (λ s, {| projects := projects s; currentProject := currentProject s;
                     projectTasks := l;
                     loading := loading s; error := error s |}).
Definition setLoading (b : bool) : Eff W () :=
  set_state (λ s, {| projects := projects s; currentProject := currentProject s;
                     projectTasks := projectTasks s;
                     loading := b; error := error s |}).
Definition setError (e : option string) : Eff W () :=
  set_state (λ s, {| projects := projects s; currentProject := currentProject s;
                     projectTasks := projectTasks s;
                     loading := loading s; error := e |}).

(** [createProject] cut at its [await], as [createTask] is: what runs up
    to the call of the gateway function, and what runs once its promise has
    settled with [r]. *)
Definition before_await (c : call) : Eff W () :=
  setLoading true;;
  setError None;;
  calling c.

Definition createProject_settled (r : result obj) : Eff W jsval :=
  finally
    (try_catch
       (newProject ← settled r;
        setProjects (λ prevProjects, prevProjects ++ [newProject]);;
        mret (Object newProject))
       (λ err,
          message ← message err;
          setError (Some (or_else message "Failed to create project"));;
          log_error "Error creating project:";;
          mret (Prim VNull)))
    (setLoading false).

(** The operations of the context value, with their arguments. *)
Inductive op :=
  | FetchProjects (o : options)
  | FetchProjectById (projectId : value)
  | CreateProject (projectData : obj)
  | UpdateProject (projectId : value) (projectData : obj)
  | DeleteProject (projectId : value)
  | FetchTasksByProject (projectId : value).

Section provider.
Variable projectService : service.
Variable user : option obj.

Definition fetchProjects (o : options) : Eff W jsval :=
  if negb (truthy user) then mret (Prim VUndefined) else
  setLoading true;;
  setError None;;
  finally
    (try_catch
       (fetchedProjects ← await (Call_fetchProjects o)
                            (service_fetchProjects projectService o);
        setProjects (λ _, fetchedProjects);;
        mret (Prim VUndefined))
       (λ err,
          message ← message err;
          setError (Some (or_else message "Failed to fetch projects"));;
          log_error "Error fetching projects:";;
          mret (Prim VUndefined)))
    (setLoading false).

Definition fetchProjectById (projectId : value) : Eff W jsval :=
  if negb (truthy user) then mret (Prim VUndefined) else
  setLoading true;;
  setError None;;
  finally
    (try_catch
       (project ← await (Call_fetchProjectById projectId)
                    (service_fetchProjectById projectService projectId);
        setCurrentProject project;;
        mret (of_row project))
       (λ err,
          message ← message err;
          setError (Some (or_else message
            ("Failed to fetch project with ID " +:+ to_string projectId)));;
          log_error ("Error fetching project " +:+ to_string projectId +:+ ":");;
          mret (Prim VNull)))
    (setLoading false).

Definition createProject (projectData : obj) : Eff W jsval :=
  if negb (truthy user) then mret (Prim VNull) else
  setLoading true;;
  setError None;;
  finally
    (try_catch
       (newProject ← await (Call_createProject projectData)
                       (service_createProject projectService projectData);
        setProjects (λ prevProjects, prevProjects ++ [newProject]);;
        mret (Object newProject))
       (λ err,
          message ← message err;
          setError (Some (or_else message "Failed to create project"));;
          log_error "Error creating project:";;
          mret (Prim VNull)))
    (setLoading false).

Definition updateProject (projectId : value) (projectData : obj) : Eff W jsval :=
  if negb (truthy user) then mret (Prim VNull) else
  currentProject ← gets (λ w, currentProject (st w));
  setLoading true;;
  setError None;;
  finally
    (try_catch
       (updatedProject ← await (Call_updateProject projectId projectData)
                           (service_updateProject projectService projectId projectData);
        setProjects (λ prevProjects,
          (λ project,
             if decide (get project "Id" = projectId) then updatedProject else project)
            <$> prevProjects);;
        (if is_current currentProject projectId
         then setCurrentProject (Some updatedProject) else mret ());;
        mret (Object updatedProject))
       (λ err,
          message ← message err;
          setError (Some (or_else message
            ("Failed to update project with ID " +:+ to_string projectId)));;
          log_error ("Error updating project " +:+ to_string projectId +:+ ":");;
          mret (Prim VNull)))
    (setLoading false).

Definition deleteProject (projectId : value) : Eff W jsval :=
  if negb (truthy user) then mret (Prim (VBool false)) else
  currentProject ← gets (λ w, currentProject (st w));
  setLoading true;;
  setError None;;
  finally
    (try_catch
       (await (Call_deleteProject projectId)
          (service_deleteProject projectService projectId);;
        setProjects (λ prevProjects,
          filter (λ project, get project "Id" ≠ projectId) prevProjects);;
        (if is_current currentProject projectId
         then setCurrentProject None else mret ());;
        mret (Prim (VBool true)))
       (λ err,
          message ← message err;
          setError (Some (or_else message
            ("Failed to delete project with ID " +:+ to_string projectId)));;
          log_error ("Error deleting project " +:+ to_string projectId +:+ ":");;
          mret (Prim (VBool false))))
    (setLoading false).

Definition fetchTasksByProject (projectId : value) : Eff W jsval :=
  if negb (truthy user) then mret (Prim VUndefined) else
  setLoading true;;
  setError None;;
  finally
    (try_catch
       (tasks ← await (Call_fetchTasksByProject projectId)
                  (service_fetchTasksByProject projectService projectId);
        setProjectTasks tasks;;
        mret (Array tasks))
       (λ err,
          message ← message err;
          setError (Some (or_else message
            ("Failed to fetch tasks for project with ID " +:+ to_string projectId)));;
          log_error ("Error fetching tasks for project " +:+ to_string projectId +:+ ":");;
          mret (Array [])))
    (setLoading false).

Definition run (o : op) : Eff W jsval :=
  match o with
  | FetchProjects o => fetchProjects o
  | FetchProjectById i => fetchProjectById i
  | CreateProject d => createProject d
  | UpdateProject i d => updateProject i d
  | DeleteProject i => deleteProject i
  | FetchTasksByProject i => fetchTasksByProject i
  end.

Definition settles (o : op) : result () :=
  let forget {A} (r : result A) : result () :=
    match r with Resolved _ => Resolved () | Rejected e => Rejected e end in
  match o with
  | FetchProjects o => forget (service_fetchProjects projectService o)
  | FetchProjectById i => forget (service_fetchProjectById projectService i)
  | CreateProject d => forget (service_createProject projectService d)
  | UpdateProject i d => forget (service_updateProject projectService i d)
  | DeleteProject i => forget (service_deleteProject projectService i)
  | FetchTasksByProject i => forget (service_fetchTasksByProject projectService i)
  end.
End provider.

End ProjectContext.

(** ** The local-only task list *)

(** A task of the local list, as [handleSubmit] builds it:
    [{ id, ...formData, createdAt, isCompleted, completedAt }]. *)
Record Task := {
  id : string;
  title : string;
  description : string;
  dueDate : string;
  priority : string;
  category : string;
  categoryColor : string;
  createdAt : string;
  isCompleted : bool;
  completedAt : option string
}.

(** *** pages/Home.jsx *)
Module Home.

(** [setTasks([...tasks, newTask])] *)
Definition addTask (newTask : Task) (tasks : list Task) : list Task :=
  tasks ++ [newTask].

(** [{ ...task, isCompleted: !task.isCompleted,
       completedAt: !task.isCompleted ? new Date().toISOString() : null }] *)
Definition toggled (now : string) (task : Task) : Task :=
  {| id := id task; title := title task; description := description task;
     dueDate := dueDate task; priority := priority task; category := category task;
     categoryColor := categoryColor task; createdAt := createdAt task;
     isCompleted := negb (isCompleted task);
     completedAt := if negb (isCompleted task) then Some now else None |}.

(** [toggleTaskCompletion].  [now_ISO i] is what [new Date().toISOString()]
    reads while the callback of [map] visits index [i]. *)
Definition toggleTaskCompletion (now_ISO : nat → string) (taskId : string)
    (tasks : list Task) : list Task :=
  imap (λ i task, if decide (id task = taskId) then toggled (now_ISO i) task else task)
       tasks.

(** [setTasks(tasks.filter(task => task.id !== taskId))] *)
Definition deleteTask (taskId : string) (tasks : list Task) : list Task :=
  filter (λ task, id task ≠ taskId) tasks.

(** The callback of [filteredTasks]: which tasks the filter lets through.
    A filter other than the three of the select lets every task through. *)
Definition shows (filter : string) (task : Task) : bool :=
  if decide (filter = "all") then true
  else if decide (filter = "active") then negb (isCompleted task)
  else if decide (filter = "completed") then isCompleted task
  else true.

(** [tasks.filter(task => ...)] *)
Definition filteredTasks (selected : string) (tasks : list Task) : list Task :=
  filter (λ task, shows selected task = true) tasks.

(** [tasks.filter(task => task.isCompleted).length] and [tasks.length] *)
Definition completedCount (tasks : list Task) : nat :=
  length (filter (λ task, isCompleted task = true) tasks).
Definition totalCount (tasks : list Task) : nat := length tasks.

Section sorting.
(** [new Date(s)] as a time value; [None] for an invalid date (NaN). *)
Variable Date_parse : string → option Z.

(** The comparator of [sortedTasks]:
    [sortDirection === 'desc' ? dateB - dateA : dateA - dateB], NaN when a
    date is invalid. *)
Definition comparator (sortDirection : string) (a b : Task) : option Z :=
  dateA ← Date_parse (createdAt a);
  dateB ← Date_parse (createdAt b);
  Some (if decide (sortDirection = "desc") then dateB - dateA else dateA - dateB).

(** [Array.prototype.sort] with a comparator: the sort is stable, so with a
    consistent comparator its result is the one of a stable insertion
    sort.  An element goes before the first one it does not compare
    greater than. *)
Fixpoint insert_sorted (comparefn : Task → Task → Z) (x : Task) (l : list Task)
    : list Task :=
  match l with
  | [] => [x]
  | y :: l' =>
      if decide (comparefn x y ≤ 0) then x :: y :: l'
      else y :: insert_sorted comparefn x l'
  end.

Definition sort (comparefn : Task → Task → Z) (l : list Task) : list Task :=
  foldr (insert_sorted comparefn) [] l.

(** [[...filteredTasks].sort(...)].  When a [createdAt] does not parse the
    comparator yields NaN, is not consistent, and the order is left to the
    engine: [None]. *)
Definition sortedTasks (sortDirection : string) (filteredTasks : list Task)
    : option (list Task) :=
  if decide (Forall (λ task, is_Some (Date_parse (createdAt task))) filteredTasks)
  then Some (sort (λ a b, default 0 (comparator sortDirection a b)) filteredTasks)
  else None.
End sorting.

(** [JSON.stringify] and [JSON.parse] on task lists; parsing throws on a
    text that is not JSON. *)
Record TasksJSON := {
  tasks_stringify : list Task → string;
  tasks_parse : string → exn + list Task
}.

Section persistence.
Variable json : TasksJSON.

(** The initial state of the page:
    [savedTasks ? JSON.parse(savedTasks) : []].  The parse is not guarded:
    a text that does not parse makes the page throw while it mounts. *)
Definition savedTasks (storage : gmap string string) : result (list Task) :=
  match storage !! "tasks" with
  | Some text =>
      if decide (text = "") then Resolved []
      else match tasks_parse json text with
           | inl e => Rejected e
           | inr tasks => Resolved tasks
           end
  | None => Resolved []
  end.

(** The effect that follows every change of [tasks]:
    [localStorage.setItem('tasks', JSON.stringify(tasks))]. *)
Definition persist (tasks : list Task) (storage : gmap string string)
    : gmap string string :=
  <["tasks" := tasks_stringify json tasks]> storage.
End persistence.

End Home.

(** *** components/MainFeature.jsx *)
Module MainFeature.

Record form_data := {
  f_title : string;
  f_description : string;
  f_dueDate : string;
  f_priority : string;
  f_category : string;
  f_categoryColor : string
}.

(** The three [useState] cells of the component; [errors] is an object
    keyed by field name. *)
Record state := {
  isFormOpen : bool;
  formData : form_data;
  errors : gmap string string
}.

(** The initial and the reset value of [formData]. *)
Definition blank : form_data :=
  {| f_title := ""; f_description := ""; f_dueDate := ""; f_priority := "Medium";
     f_category := ""; f_categoryColor := "#6366f1" |}.

(** White space and line terminators of [String.prototype.trim] among the
    code units below 256: TAB, LF, VT, FF, CR, SP and NBSP. *)
Definition is_white_space (c : ascii) : bool :=
  bool_decide (N_of_ascii c ∈ [9; 10; 11; 12; 13; 32; 160]%N).

Fixpoint trimStart (s : list ascii) : list ascii :=
  match s with
  | c :: s' => if is_white_space c then trimStart s' else s
  | [] => []
  end.

(** [s.trim()]: the white space at both ends is dropped. *)
Definition trim (s : string) : string :=
  string_of_list_ascii
    (reverse (trimStart (reverse (trimStart (list_ascii_of_string s))))).

(** The clock and the date parser, as one submission reads them. *)
Record dates := {
(** [new Date(s)] as a time value; [None] for an invalid date (NaN). *)
  Date_parse : string → option Z;
  (** [new Date().setHours(0, 0, 0, 0)]: local midnight of the current day. *)
  startOfToday : Z;
  (** [Date.now()] *)
  Date_now : Z;
  (** [new Date().toISOString()] *)
  now_ISO : string
}.

(** [new Date(dueDate) < new Date().setHours(0, 0, 0, 0)]: a comparison
    with NaN is false. *)
Definition before_today (env : dates) (dueDate : string) : bool :=
  match Date_parse env dueDate with
  | Some t => bool_decide (t < startOfToday env)
  | None => false
  end.

(** The [newErrors] object of [validateForm]. *)
Definition newErrors (env : dates) (d : form_data) : gmap string string :=
  let e0 : gmap string string := ∅ in
  let e1 := if decide (trim (f_title d) = "")
            then <["title" := "Title is required"]> e0 else e0 in
  if bool_decide (f_dueDate d ≠ "") && before_today env (f_dueDate d)
  then <["dueDate" := "Due date cannot be in the past"]> e1 else e1.

(** [validateForm]: stores the errors and tells whether there are none. *)
Definition validateForm (env : dates) (s : state) : bool * state :=
  let e := newErrors env (formData s) in
  (bool_decide (size e = 0%nat),
   {| isFormOpen := isFormOpen s; formData := formData s; errors := e |}).

Section submit.
(** The state of the parent component and its [onAddTask] callback. *)
Context {P : Type} (onAddTask : Task → P → P).

Definition handleSubmit (env : dates) (s : state) (parent : P) : state * P :=
  let '(valid, s) := validateForm env s in
  if negb valid then (s, parent)
  else
    let d := formData s in
    let newTask :=
      {| id := pretty (Date_now env);
         title := f_title d; description := f_description d; dueDate := f_dueDate d;
         priority := f_priority d; category := f_category d;
         categoryColor := f_categoryColor d;
         createdAt := now_ISO env;
         isCompleted := false;
         completedAt := None |} in
    ({| isFormOpen := false; formData := blank; errors := errors s |},
     onAddTask newTask parent).
End submit.

End MainFeature.

(** [<MainFeature onAddTask={addTask} />] inside [Home]: a submission of the
    form acts on the task list of the page. *)
Definition submit_task (env : MainFeature.dates) (s : MainFeature.state)
    (tasks : list Task) : MainFeature.state * list Task :=
  MainFeature.handleSubmit Home.addTask env s tasks.

(** ** Authentication *)

(** What [JSON.parse] makes of a stored session text: it throws, or yields
    [null], or yields the object that was stored. *)
Inductive parsed :=
| SyntaxError (e : exn)
| JsonNull
| JsonObject (o : obj).

(** [JSON.stringify] and [JSON.parse] on session objects. *)
Record JSON := {
  JSON_stringify : obj → string;
  JSON_parse : string → parsed
}.

(** The user object the identity widget passes to [onSuccess]; its [data]
    may be missing. *)
Record widget_user := { user_data : option obj }.

(** The authentication state of the page: the three [useState] cells of
    [AuthProvider], the local storage of the browser, and the lines
    written by [console.error]. *)
Record session := {
  user : option obj;
  auth_loading : bool;
  auth_error : option string;
  localStorage : gmap string string;
  session_console : list string
}.

Definition setUser (u : option obj) : Eff session () :=
  modify (λ s, {| user := u; auth_loading := auth_loading s;
                  auth_error := auth_error s; localStorage := localStorage s;
                  session_console := session_console s |}).
Definition setAuthLoading (b : bool) : Eff session () :=
  modify (λ s, {| user := user s; auth_loading := b;
                  auth_error := auth_error s; localStorage := localStorage s;
                  session_console := session_console s |}).
Definition setAuthError (e : option string) : Eff session () :=
  modify (λ s, {| user := user s; auth_loading := auth_loading s;
                  auth_error := e; localStorage := localStorage s;
                  session_console := session_console s |}).
Definition setStorage (f : gmap string string → gmap string string)
  : Eff session () :=
  modify (λ s, {| user := user s; auth_loading := auth_loading s;
                  auth_error := auth_error s; localStorage := f (localStorage s);
                  session_console := session_console s |}).
Definition session_error (line : string) : Eff session () :=
  modify (λ s, {| user := user s; auth_loading := auth_loading s;
                  auth_error := auth_error s; localStorage := localStorage s;
                  session_console := session_console s ++ [line] |}).

(** *** services/authService.js *)
Module authService.
Section json.
Variable json : JSON.

(** [if (userData) localStorage.setItem('apperUser', JSON.stringify(userData))] *)
Definition storeUserData (userData : option obj) : Eff session () :=
  match userData with
  | Some userData => setStorage (<["apperUser" := JSON_stringify json userData]>)
  | None => mret ()
  end.

(** [getUserData]: the stored text is parsed when there is one and it is
    not empty; a parse error is caught, written to the console and answered
    with [null]. *)
Definition getUserData : Eff session (option obj) :=
  userData ← gets (λ s, localStorage s !! "apperUser");
  match userData with
  | Some text =>
      if decide (text = "") then mret None
      else
        try_catch
          (match JSON_parse json text with
           | SyntaxError e => throw e
           | JsonNull => mret None
           | JsonObject o => mret (Some o)
           end)
          (λ error, session_error "Error parsing user data:";; mret None)
  | None => mret None
  end.

(** [!!getUserData()] *)
Definition isAuthenticated : Eff session bool :=
  userData ← getUserData;
  mret (truthy userData).

(** [localStorage.removeItem('apperUser')] *)
Definition logout : Eff session () := setStorage (delete "apperUser").

(** The two handlers [setupAuthUI] gives to the widget. *)
Definition onSuccess (onSuccessCallback : option (widget_user → Eff session ()))
    (user : widget_user) : Eff session () :=
  storeUserData (user_data user);;
  match onSuccessCallback with
  | Some callback => callback user
  | None => mret ()
  end.

Definition onError (onErrorCallback : option (exn → Eff session ()))
    (error : exn) : Eff session () :=
  session_error "Authentication error:";;
  match onErrorCallback with
  | Some callback => callback error
  | None => mret ()
  end.
End json.
End authService.

(** *** context/AuthContext.jsx *)
Module AuthContext.

(** The three [useState] initial values, over a given browser storage. *)
Definition initial (storage : gmap string string) : session :=
  {| user := None; auth_loading := true; auth_error := None;
     localStorage := storage; session_console := [] |}.

Section provider.
Variable json : JSON.

(** The effect that runs when the provider mounts. *)
Definition loadUserData : Eff session () :=
  finally
    (try_catch
       (userData ← authService.getUserData json;
        if truthy userData then setUser userData else mret ())
       (λ err, message ← message err; setAuthError message))
    (setAuthLoading false).

Definition handleAuthSuccess (userData : widget_user) : Eff session () :=
  setUser (user_data userData);;
  setAuthError None.

Definition handleAuthError (err : exn) : Eff session () :=
  message ← message err;
  setAuthError (Some (or_else message "Authentication failed"));;
  setUser None.

Definition logout : Eff session () :=
  authService.logout;;
  setUser None.

(** [!!user] *)
Definition isAuthenticated (s : session) : bool := truthy (user s).

(** What the widget calls once [setupAuth] has handed it the two handlers
    of the provider. *)
Definition signed_in_by_widget (u : widget_user) : Eff session () :=
  authService.onSuccess json (Some handleAuthSuccess) u.
Definition refused_by_widget (e : exn) : Eff session () :=
  authService.onError (Some handleAuthError) e.
End provider.

End AuthContext.

(** *** App.jsx *)

(** What [ProtectedRoute] renders. *)
Inductive route_view :=
| LoadingIndicator
| RedirectToLogin
| Children.

Definition ProtectedRoute (s : session) : route_view :=
  if auth_loading s then LoadingIndicator
  else if negb (AuthContext.isAuthenticated s) then RedirectToLogin
  else Children.

(** * Vocabulary of the properties *)

(** The task left by two toggles of an open task: the original with its
    completion timestamp cleared. *)
Definition reopened (task : Task) : Task :=
  {| id := id task; title := title task; description := description task;
     dueDate := dueDate task; priority := priority task; category := category task;
     categoryColor := categoryColor task; createdAt := createdAt task;
     isCompleted := false; completedAt := None |}.

(** Milliseconds in a day, for time values. *)
Definition msPerDay : Z := 86400000.

(** The values an operation hands back when it did not do its work. *)
Definition neutral (v : jsval) : Prop :=
  v = Prim VUndefined ∨ v = Prim VNull ∨ v = Prim (VBool false) ∨ v = Array [].

(** How many records of a list carry the identifier [i]. *)
Definition count_id (i : value) (records : list obj) : nat :=
  length (filter (λ r, get r "Id" = i) records).

(** The create property as the specification words it, for one call of
    [createTask]: after a successful create the identifier of the returned
    record is in the records exactly once, and the record was appended. *)
Definition created_exactly_once (svc : TaskContext.service) (user : option obj)
    (taskData : obj) (w : TaskContext.W) : Prop :=
  ∀ newTask,
    TaskContext.service_createTask svc taskData = Resolved newTask →
    let w' := (TaskContext.createTask svc user taskData w).2 in
    count_id (get newTask "Id") (TaskContext.tasks (st w')) = 1%nat
    ∧ TaskContext.tasks (st w') = TaskContext.tasks (st w) ++ [newTask].


(** The reason is [null] or [undefined], the two values that have no
    properties. *)
Definition nullish (e : exn) : bool :=
  match e with
  | Primitive VNull | Primitive VUndefined => true
  | _ => false
  end.

(** The [message] property of a reason that has properties: the message
    of an object, nothing for a primitive. *)
Definition message_property (e : exn) : option string :=
  match e with
  | Error m => m
  | Primitive _ => None
  end.



(** The client [getApperClient] hands out: the module variable when it is
    set, else a new client when the SDK is loaded, else [null]. *)
Definition client_of (s : gateway_state) : option ApperClient :=
  match apperClient s with
  | Some c => Some c
  | None => (λ sdk, new_ApperClient sdk CANVAS_ID) <$> window_ApperSDK s
  end.

(** The request [r] is a query on the table [t]. *)
Definition is_query_on (t : string) (r : net_call) : Prop :=
  match r with
  | NetFetch t' _ => t' = t
  | _ => False
  end.

#[global] Instance is_query_on_dec (t : string) (r : net_call) :
  Decision (is_query_on t r).
Proof. destruct r; simpl; apply _. Defined.

(** How many of the requests in a trace are queries on the table [t]. *)
Definition queries_on (t : string) (trace : list net_call) : nat :=
  length (filter (is_query_on t) trace).

(** The three single-record lookups, each with the table it queries. *)
Definition getById_functions : list (string * (value → gateway_op)) :=
  [ (TableNames.TASK, Task_fetchTaskById);
    (TableNames.PROJECT, Project_fetchProjectById);
    (TableNames.USER, User_fetchUserById) ].

(** ** Sample data *)

Definition milk : Task :=
  {| id := "1700000000000"; title := "Buy milk"; description := ""; dueDate := "";
     priority := "Low"; category := ""; categoryColor := "#6366f1";
     createdAt := "2023-11-14T22:13:20.000Z"; isCompleted := false;
     completedAt := None |}.

(** A submission on 14 November 2023, in a time zone without offset; the
    parser knows the day before. *)
Definition sample_dates : MainFeature.dates :=
  {| MainFeature.Date_parse :=
       λ s, if decide (s = "2023-11-13") then Some 1699833600000 else None;
     MainFeature.startOfToday := 1699920000000;
     MainFeature.Date_now := 1699956800000;
     MainFeature.now_ISO := "2023-11-14T10:13:20.000Z" |}.

(** The same day seen five hours west of UTC: local midnight is 05:00 UTC,
    and the parser knows the day itself. *)
Definition sample_dates_west : MainFeature.dates :=
  {| MainFeature.Date_parse :=
       λ s, if decide (s = "2023-11-14") then Some 1699920000000 else None;
     MainFeature.startOfToday := 1699938000000;
     MainFeature.Date_now := 1699974800000;
     MainFeature.now_ISO := "2023-11-14T15:13:20.000Z" |}.

Definition form_with (title dueDate : string) : MainFeature.state :=
  {| MainFeature.isFormOpen := true;
     MainFeature.formData :=
       {| MainFeature.f_title := title; MainFeature.f_description := "";
          MainFeature.f_dueDate := dueDate; MainFeature.f_priority := "Low";
          MainFeature.f_category := ""; MainFeature.f_categoryColor := "#6366f1" |};
     MainFeature.errors := ∅ |}.

Definition signed_in : option obj := Some {[ "userId" := VNum 9 ]}.
Definition first_record : obj := {[ "Id" := VNum 1; "Name" := VStr "first" ]}.

(** A gateway whose listing and whose update, delete and associate are
    rejected, and whose create answers with the data under identifier 1. *)
Definition sample_tasks : TaskContext.service :=
  {| TaskContext.service_fetchTasks := λ _, Rejected (Error (Some "Network down"));
     TaskContext.service_fetchTaskById := λ _, Resolved None;
     TaskContext.service_createTask := λ d, Resolved (<["Id" := VNum 1]> d);
     TaskContext.service_updateTask := λ _ _, Rejected (Error (Some "boom"));
     TaskContext.service_deleteTask := λ _, Rejected (Error (Some ""));
     TaskContext.service_associateTaskWithProject := λ _ _, Rejected (Error None) |}.

Definition sample_projects : ProjectContext.service :=
  {| ProjectContext.service_fetchProjects := λ _, Rejected (Error (Some "Network down"));
     ProjectContext.service_fetchProjectById := λ _, Resolved None;
     ProjectContext.service_createProject := λ d, Resolved (<["Id" := VNum 1]> d);
     ProjectContext.service_updateProject := λ _ _, Rejected (Error (Some "boom"));
     ProjectContext.service_deleteProject := λ _, Rejected (Error (Some ""));
     ProjectContext.service_fetchTasksByProject := λ _, Rejected (Error None) |}.



(** The task container while a create is in flight, after a listing asked
    for in the meantime has been answered with the new record. *)
Definition listed_in_flight : TaskContext.W :=
  World {| TaskContext.tasks := [first_record]; TaskContext.currentTask := None;
           TaskContext.loading := false; TaskContext.error := None |}
        [TaskContext.Call_createTask {[ "Name" := VStr "first" ]};
         TaskContext.Call_fetchTasks no_options] [].

(** A task container that holds [first_record]. *)
Definition one_task : TaskContext.W :=
  World {| TaskContext.tasks := [first_record]; TaskContext.currentTask := None;
           TaskContext.loading := false; TaskContext.error := None |} [] [].

Definition one_project : ProjectContext.W :=
  World {| ProjectContext.projects := [first_record];
           ProjectContext.currentProject := None; ProjectContext.projectTasks := [];
           ProjectContext.loading := false; ProjectContext.error := None |} [] [].

(** The gateway before the SDK script has loaded. *)
Definition cold_start : gateway_state :=
  {| apperClient := None; window_ApperSDK := None; net := []; console := [] |}.

(** A store that answers a query on the association table with
    [associations], a query on any other table with [rows], and rejects
    every write. *)
Definition store_with (associations rows : list obj) : ApperClient :=
  {| canvasId := CANVAS_ID;
     fetchRecords := λ t _,
       if decide (t = TableNames.TASK_PROJECT)
       then Resolved {| data := Some associations |}
       else Resolved {| data := Some rows |};
     createRecord := λ _ _, Rejected (Error (Some "read only"));
     updateRecord := λ _ _ _, Rejected (Error (Some "read only"));
     deleteRecord := λ _ _, Rejected (Error (Some "read only")) |}.

(** A store that answers a query on the association table with
    [associations] and rejects every other request with [e]. *)
Definition store_without_tasks (associations : list obj) (e : exn) : ApperClient :=
  {| canvasId := CANVAS_ID;
     fetchRecords := λ t _,
       if decide (t = TableNames.TASK_PROJECT)
       then Resolved {| data := Some associations |}
       else Rejected e;
     createRecord := λ _ _, Rejected e;
     updateRecord := λ _ _ _, Rejected e;
     deleteRecord := λ _ _, Rejected e |}.

(** Two associations of one project, with the tasks 1 and 2. *)
Definition two_associations : list obj :=
  [ {[ "Id" := VNum 100; "task_id" := VNum 1 ]};
    {[ "Id" := VNum 101; "task_id" := VNum 2 ]} ].

(** The gateway with its client [c] in place. *)
Definition warm (c : ApperClient) : gateway_state :=
  {| apperClient := Some c; window_ApperSDK := None; net := []; console := [] |}.

(** The gateway with the SDK loaded and no client built yet. *)
Definition loaded (c : ApperClient) : gateway_state :=
  {| apperClient := None; window_ApperSDK := Some {| new_ApperClient := λ _, c |};
     net := []; console := [] |}.

(** ** Vocabulary of the further properties *)

(** The identifiers of a list of records, in order. *)
Definition ids (records : list obj) : list value := (λ r, get r "Id") <$> records.

(** [prev.map(r => r.Id === id ? updated : r)] *)
Definition replaced (id : value) (updated : obj) (records : list obj) : list obj :=
  (λ r, if decide (get r "Id" = id) then updated else r) <$> records.


Definition second_record : obj := {[ "Id" := VNum 2; "Name" := VStr "second" ]}.

(** A gateway that answers every call: a listing with two records, a
    lookup with the first of them, a create under identifier 3, an update
    with the data under the identifier asked for. *)
Definition working_tasks : TaskContext.service :=
  {| TaskContext.service_fetchTasks := λ _, Resolved [first_record; second_record];
     TaskContext.service_fetchTaskById := λ _, Resolved (Some first_record);
     TaskContext.service_createTask := λ d, Resolved (<["Id" := VNum 3]> d);
     TaskContext.service_updateTask := λ i d, Resolved (<["Id" := i]> d);
     TaskContext.service_deleteTask := λ _, Resolved VNull;
     TaskContext.service_associateTaskWithProject := λ t p,
       Resolved {[ "Id" := VNum 50; "task_id" := t; "project_id" := p ]} |}.

Definition working_projects : ProjectContext.service :=
  {| ProjectContext.service_fetchProjects := λ _, Resolved [first_record; second_record];
     ProjectContext.service_fetchProjectById := λ _, Resolved (Some first_record);
     ProjectContext.service_createProject := λ d, Resolved (<["Id" := VNum 3]> d);
     ProjectContext.service_updateProject := λ i d, Resolved (<["Id" := i]> d);
     ProjectContext.service_deleteProject := λ _, Resolved VNull;
     ProjectContext.service_fetchTasksByProject := λ _, Resolved [second_record] |}.

(** A task container that holds two records and has the first in focus. *)
Definition two_tasks : TaskContext.W :=
  World {| TaskContext.tasks := [first_record; second_record];
           TaskContext.currentTask := Some first_record;
           TaskContext.loading := false; TaskContext.error := Some "stale" |} [] [].

Definition two_projects : ProjectContext.W :=
  World {| ProjectContext.projects := [first_record; second_record];
           ProjectContext.currentProject := Some first_record;
           ProjectContext.projectTasks := [];
           ProjectContext.loading := false; ProjectContext.error := Some "stale" |} [] [].

(** The request [r] reads from the store. *)
Definition is_fetch (r : net_call) : Prop :=
  match r with
  | NetFetch _ _ => True
  | _ => False
  end.

(** The gateway functions that create, update or delete a record. *)
Definition writes (op : gateway_op) : bool :=
  match op with
  | Task_createTask _ | Task_updateTask _ _ | Task_deleteTask _
  | Task_associateTaskWithProject _ _
  | Project_createProject _ | Project_updateProject _ _ | Project_deleteProject _
  | User_createUser _ | User_updateUser _ _ => true
  | _ => false
  end.

(** The form passes [validateForm]: its title has a character that is not
    white space, and its due date is not supplied or is not before local
    midnight of the current day. *)
Definition valid_form (env : MainFeature.dates) (d : MainFeature.form_data) : Prop :=
  MainFeature.trim (MainFeature.f_title d) ≠ ""
  ∧ (MainFeature.f_dueDate d = ""
     ∨ MainFeature.before_today env (MainFeature.f_dueDate d) = false).

Definition done_milk : Task :=
  {| id := "1700000000001"; title := "Drink milk"; description := ""; dueDate := "";
     priority := "Low"; category := ""; categoryColor := "#6366f1";
     createdAt := "2023-11-14T22:13:20.001Z"; isCompleted := true;
     completedAt := Some "2023-11-15T08:00:00.000Z" |}.

(** Two tasks stand in the order of the sorted view: both creation
    timestamps parse, and the first is not older than the second when the
    newest come first ([desc]), not newer otherwise. *)
Definition in_order (Date_parse : string → option Z) (sortDirection : string)
    (a b : Task) : Prop :=
  ∃ ta tb,
    Date_parse (createdAt a) = Some ta
    ∧ Date_parse (createdAt b) = Some tb
    ∧ if decide (sortDirection = "desc") then tb ≤ ta else ta ≤ tb.

(** A parser for the examples: the two creation timestamps of the sample
    tasks, a millisecond apart. *)
Definition sample_parse (s : string) : option Z :=
  if decide (s = "2023-11-14T22:13:20.000Z") then Some 1700000000000
  else if decide (s = "2023-11-14T22:13:20.001Z") then Some 1700000000001
  else None.

(** The stored session of the examples, and a [JSON] that knows its text. *)
Definition the_user : obj := {[ "userId" := VNum 9 ]}.

Definition sample_json : JSON :=
  {| JSON_stringify := λ o, if decide (o = the_user) then "{userId:9}" else "{}";
     JSON_parse := λ text,
       if decide (text = "{userId:9}") then JsonObject the_user
       else if decide (text = "null") then JsonNull
       else SyntaxError (Error (Some "Unexpected token")) |}.

(** A page with a user in memory and in storage, beside the stored local
    task list. *)
Definition signed_in_page : session :=
  {| user := Some the_user; auth_loading := false; auth_error := None;
     localStorage := {[ "apperUser" := "{userId:9}"; "tasks" := "[]" ]};
     session_console := [] |}.

#[global] Instance Task_eq_dec : EqDecision Task.
Proof. solve_decision. Defined.

(** A [JSON] on task lists that knows the text of the list holding [milk]. *)
Definition sample_tasks_json : Home.TasksJSON :=
  {| Home.tasks_stringify := λ l, if decide (l = [milk]) then "[milk]" else "[]";
     Home.tasks_parse := λ text,
       if decide (text = "[milk]") then inr [milk]
       else if decide (text = "[]") then inr []
       else inl (Error (Some "Unexpected token")) |}.

(** A store whose every query resolves without data, and which rejects
    every write. *)
Definition no_data_store : ApperClient :=
  {| canvasId := CANVAS_ID;
     fetchRecords := λ _ _, Resolved {| data := None |};
     createRecord := λ _ _, Rejected (Error (Some "read only"));
     updateRecord := λ _ _ _, Rejected (Error (Some "read only"));
     deleteRecord := λ _ _, Rejected (Error (Some "read only")) |}.

(** ** Proof steps *)

(** Unfolds the effect combinators down to state passing. *)
Ltac eff :=
  unfold message, mbind, mret, fmap, Eff_bind, Eff_ret, Eff_fmap, ebind, eret,
    finally, try_catch, await, calling, settled, set_state, log_error,
    console_error, modify, gets, throw in *;
  simpl in *.

Ltac task_ops :=
  unfold TaskContext.run, TaskContext.settles, TaskContext.fetchTasks,
    TaskContext.fetchTaskById, TaskContext.createTask, TaskContext.updateTask,
    TaskContext.deleteTask, TaskContext.associateWithProject,
    TaskContext.before_await, TaskContext.fetchTasks_settled,
    TaskContext.createTask_settled,
    TaskContext.setTasks, TaskContext.setCurrentTask, TaskContext.setLoading,
    TaskContext.setError in *.

Ltac project_ops :=
  unfold ProjectContext.run, ProjectContext.settles, ProjectContext.fetchProjects,
    ProjectContext.fetchProjectById, ProjectContext.createProject,
    ProjectContext.updateProject, ProjectContext.deleteProject,
    ProjectContext.fetchTasksByProject, ProjectContext.before_await,
    ProjectContext.createProject_settled, ProjectContext.setProjects,
    ProjectContext.setCurrentProject, ProjectContext.setProjectTasks,
    ProjectContext.setLoading, ProjectContext.setError in *.

Ltac gateway_ops :=
  unfold run_gateway_op,
    taskService.fetchTasks, taskService.fetchTaskById, taskService.createTask,
    taskService.updateTask, taskService.deleteTask,
    taskService.associateTaskWithProject,
    projectService.fetchProjects, projectService.fetchProjectById,
    projectService.createProject, projectService.updateProject,
    projectService.deleteProject, projectService.fetchTasksByProject,
    userService.fetchUsers, userService.fetchUserById, userService.createUser,
    userService.updateUser, userService.fetchTasksByUser, request,
    await_fetchRecords, await_createRecord, await_updateRecord, await_deleteRecord
    in *.

(** From one hypothesis on what a gateway function settles to, the case
    where it rejected. *)
Ltac rejected_case H :=
  match type of H with
  | context [match ?r with _ => _ end] =>
      let Hr := fresh "Hr" in
      destruct r eqn:Hr; [discriminate|]; inversion H; subst; rewrite ?Hr
  end.

(** * Properties *)

(** ** The local-only task list *)

Section local_list.
Implicit Types (tasks : list Task) (taskId : string) (now_ISO : nat → string).

Lemma toggle_lookup now_ISO taskId tasks i :
  Home.toggleTaskCompletion now_ISO taskId tasks !! i =
    (λ task, if decide (id task = taskId)
             then Home.toggled (now_ISO i) task else task) <$> tasks !! i.
Proof. unfold Home.toggleTaskCompletion. apply list_lookup_imap. Qed.

Lemma toggle_length now_ISO taskId tasks :
  length (Home.toggleTaskCompletion now_ISO taskId tasks) = length tasks.
Proof. unfold Home.toggleTaskCompletion. apply length_imap. Qed.

Lemma toggle_absent now_ISO taskId tasks :
  taskId ∉ id <$> tasks →
  Home.toggleTaskCompletion now_ISO taskId tasks = tasks.
Proof.
  intros Hnot. apply list_eq. intros i. rewrite toggle_lookup.
  destruct (tasks !! i) as [task|] eqn:Hi; simpl; [|done].
  case_decide as Hid; [|done].
  exfalso. apply Hnot. rewrite <- Hid.
  apply list_elem_of_fmap. exists task. split; [done|].
  by eapply list_elem_of_lookup_2.
Qed.

Lemma delete_absent taskId tasks :
  taskId ∉ id <$> tasks → Home.deleteTask taskId tasks = tasks.
Proof.
  unfold Home.deleteTask. induction tasks as [|task tasks IH]; intros Hnot; [done|].
  rewrite fmap_cons, not_elem_of_cons in Hnot. destruct Hnot as [Hne Hnot].
  rewrite filter_cons_True by congruence. by rewrite IH.
Qed.

(** Tasks with another identifier are not touched by a toggle. *)
Lemma toggle_other now_ISO taskId tasks i task :
  tasks !! i = Some task → id task ≠ taskId →
  Home.toggleTaskCompletion now_ISO taskId tasks !! i = Some task.
Proof.
  intros Hi Hne. rewrite toggle_lookup, Hi. simpl. by rewrite decide_False.
Qed.
End local_list.

(** C7. For a task of the local list with [isCompleted = false], sitting at
    index [i], [toggleTaskCompletion] with its identifier makes it completed
    with a non-null completion timestamp (the clock reading of that visit)
    and changes none of its other fields; a second toggle brings
    [isCompleted] back to [false] and [completedAt] back to [null], so the
    task is the original one again whenever the original had no completion
    timestamp. *)
Theorem toggle_round_trip (now1 now2 : nat → string) (tasks : list Task)
    (i : nat) (task : Task) :
  tasks !! i = Some task →
  isCompleted task = false →
  let once := Home.toggleTaskCompletion now1 (id task) tasks in
  let twice := Home.toggleTaskCompletion now2 (id task) once in
  (∃ done_task,
      once !! i = Some done_task
      ∧ isCompleted done_task = true
      ∧ completedAt done_task = Some (now1 i)
      ∧ completedAt done_task ≠ None
      ∧ reopened done_task = reopened task)
  ∧ (∃ back,
      twice !! i = Some back
      ∧ isCompleted back = false
      ∧ completedAt back = None
      ∧ back = reopened task
      ∧ (completedAt task = None → back = task)).
Proof.
  intros Hi Hopen once twice. split.
  - exists (Home.toggled (now1 i) task).
    subst once. rewrite toggle_lookup, Hi. simpl.
    rewrite decide_True by done.
    unfold Home.toggled, reopened. rewrite Hopen. simpl. repeat split; done.
  - exists (reopened task).
    subst twice once. rewrite !toggle_lookup, Hi. simpl.
    destruct (decide (id task = id task)) as [_|]; [|done]. simpl.
    rewrite decide_True by done.
    unfold Home.toggled, reopened. simpl. rewrite Hopen. simpl.
    repeat split; try done.
    intros Hnull. destruct task; simpl in *. by subst.
Qed.

Lemma toggle_round_trip_witness :
  [milk] !! O = Some milk
  ∧ isCompleted milk = false
  ∧ ∃ back,
      Home.toggleTaskCompletion (λ _, "2023-11-16T08:00:00.000Z") (id milk)
        (Home.toggleTaskCompletion (λ _, "2023-11-15T08:00:00.000Z") (id milk) [milk])
        !! O = Some back
      ∧ back = milk.
Proof.
  split; [reflexivity|]. split; [reflexivity|].
  destruct (toggle_round_trip (λ _, "2023-11-15T08:00:00.000Z")
              (λ _, "2023-11-16T08:00:00.000Z") [milk] O milk eq_refl eq_refl)
    as [_ (back & Hback & _ & _ & _ & Hsame)].
  exists back. split; [exact Hback | apply Hsame; reflexivity].
Defined.

(** C10. When no task of the local list carries the identifier,
    [toggleTaskCompletion] and [deleteTask] return the list as it was: the
    same tasks with the same fields in the same order.  Both are total, so
    no error is raised. *)
Theorem absent_id_is_noop (now_ISO : nat → string) (taskId : string)
    (tasks : list Task) :
  taskId ∉ id <$> tasks →
  Home.toggleTaskCompletion now_ISO taskId tasks = tasks
  ∧ Home.deleteTask taskId tasks = tasks.
Proof. intros Hnot. split; [by apply toggle_absent | by apply delete_absent]. Qed.

Lemma absent_id_is_noop_witness :
  ("42" ∉ id <$> [milk])
  ∧ Home.toggleTaskCompletion (λ _, "2023-11-15T08:00:00.000Z") "42" [milk] = [milk]
  ∧ Home.deleteTask "42" [milk] = [milk].
Proof.
  assert (Hnot : "42" ∉ id <$> [milk]).
  { simpl. intros Hin. apply list_elem_of_singleton in Hin. discriminate Hin. }
  split; [exact Hnot|].
  exact (absent_id_is_noop (λ _, "2023-11-15T08:00:00.000Z") "42" [milk] Hnot).
Defined.

(** ** The task form *)

Section form.
Import MainFeature.
Implicit Types (env : dates) (s : state) (tasks : list Task).

Lemma trimStart_nil_iff (l : list ascii) :
  trimStart l = [] ↔ Forall (λ c, is_white_space c = true) l.
Proof.
  induction l as [|c l IH]; simpl; [by split|].
  destruct (is_white_space c) eqn:Hc.
  - rewrite IH. split; [by constructor|]. by inversion 1.
  - split; [done|]. inversion 1; congruence.
Qed.

(** What [trimStart] leaves does not start with white space. *)
Lemma trimStart_all_white (l : list ascii) :
  Forall (λ c, is_white_space c = true) (trimStart l) → trimStart l = [].
Proof.
  induction l as [|c l IH]; simpl; [done|].
  destruct (is_white_space c) eqn:Hc; [done|]. inversion 1; congruence.
Qed.

(** The title is empty after [trim] exactly when it consists of white
    space only. *)
Lemma trim_empty_iff (t : string) :
  trim t = "" ↔ Forall (λ c, is_white_space c = true) (list_ascii_of_string t).
Proof.
  unfold trim. split.
  - intros H. apply trimStart_nil_iff, trimStart_all_white.
    rewrite <- (reverse_involutive (trimStart _)). apply Forall_reverse.
    apply trimStart_nil_iff.
    destruct (trimStart (reverse _)) as [|c l]; [done|].
    rewrite reverse_cons in H. destruct (reverse l); discriminate H.
  - intros H. apply trimStart_nil_iff in H. by rewrite H.
Qed.

Lemma newErrors_title env d :
  trim (f_title d) = "" → newErrors env d !! "title" = Some "Title is required".
Proof.
  intros Ht. unfold newErrors. rewrite decide_True by done.
  destruct (_ && _); [rewrite lookup_insert_ne by done|]; by rewrite lookup_insert_eq.
Qed.

Lemma newErrors_dueDate env d t :
  f_dueDate d ≠ "" → Date_parse env (f_dueDate d) = Some t → t < startOfToday env →
  newErrors env d !! "dueDate" = Some "Due date cannot be in the past".
Proof.
  intros Hd Hp Hlt. unfold newErrors, before_today. rewrite Hp.
  rewrite !bool_decide_eq_true_2 by done. simpl. by rewrite lookup_insert_eq.
Qed.

(** The due date read as a calendar day.  A date-only string is parsed as
    midnight UTC of its day; local midnight of the current day is midnight
    UTC of that day less the zone offset, which is shorter than a day.  A
    due day before the current day is then before local midnight. *)
Lemma earlier_day_is_before_today env dueDate (day today offset : Z) :
  Date_parse env dueDate = Some (day * msPerDay) →
  startOfToday env = today * msPerDay - offset →
  - msPerDay < offset < msPerDay →
  day < today →
  before_today env dueDate = true.
Proof.
  intros Hparse Hstart Hoff Hday. unfold before_today. rewrite Hparse, Hstart.
  apply bool_decide_eq_true_2. unfold msPerDay in *. lia.
Qed.

Lemma submit_blocked env s tasks f msg :
  newErrors env (formData s) !! f = Some msg →
  submit_task env s tasks =
    ({| isFormOpen := isFormOpen s; formData := formData s;
        errors := newErrors env (formData s) |}, tasks).
Proof.
  intros He. unfold submit_task, handleSubmit, validateForm.
  rewrite bool_decide_eq_false_2; [done|].
  intros Hsize. apply map_size_empty_iff in Hsize. rewrite Hsize in He.
  by rewrite lookup_empty in He.
Qed.
End form.

(** C3. A submission of the task form whose title is empty after
    [trim] is blocked: the task list of the page is returned unchanged, the
    form keeps its data and the field error "Title is required" is stored
    under [title].  A submission with a due date that is supplied and whose
    time value is strictly before local midnight of the current day is
    blocked in the same way with "Due date cannot be in the past" under
    [dueDate].  [submit_task] is total: neither case raises. *)
Theorem invalid_submission_is_blocked (env : MainFeature.dates)
    (s : MainFeature.state) (tasks : list Task) :
  let d := MainFeature.formData s in
  let after := submit_task env s tasks in
  (MainFeature.trim (MainFeature.f_title d) = "" →
     after.2 = tasks
     ∧ MainFeature.formData after.1 = d
     ∧ MainFeature.errors after.1 !! "title" = Some "Title is required")
  ∧ (∀ t : Z,
       MainFeature.f_dueDate d ≠ "" →
       MainFeature.Date_parse env (MainFeature.f_dueDate d) = Some t →
       t < MainFeature.startOfToday env →
       after.2 = tasks
       ∧ MainFeature.formData after.1 = d
       ∧ MainFeature.errors after.1 !! "dueDate" = Some "Due date cannot be in the past").
Proof.
  intros d after. split.
  - intros Ht. pose proof (newErrors_title env d Ht) as He.
    subst after. rewrite (submit_blocked _ _ _ _ _ He). simpl. done.
  - intros t Hd Hp Hlt. pose proof (newErrors_dueDate env d t Hd Hp Hlt) as He.
    subst after. rewrite (submit_blocked _ _ _ _ _ He). simpl. done.
Qed.

Lemma invalid_submission_is_blocked_witness :
  MainFeature.trim "  " = ""
  ∧ "2023-11-13" ≠ ""
  ∧ MainFeature.Date_parse sample_dates "2023-11-13" = Some 1699833600000
  ∧ 1699833600000 < MainFeature.startOfToday sample_dates
  ∧ (submit_task sample_dates (form_with "  " "2023-11-13") [milk]).2 = [milk]
  ∧ MainFeature.errors (submit_task sample_dates (form_with "  " "2023-11-13") [milk]).1
      !! "title" = Some "Title is required"
  ∧ MainFeature.errors (submit_task sample_dates (form_with "  " "2023-11-13") [milk]).1
      !! "dueDate" = Some "Due date cannot be in the past".
Proof.
  destruct (invalid_submission_is_blocked sample_dates
              (form_with "  " "2023-11-13") [milk]) as [Htitle Hdue].
  assert (H1 : MainFeature.trim "  " = "") by reflexivity.
  assert (H2 : "2023-11-13" ≠ "") by discriminate.
  assert (H3 : MainFeature.Date_parse sample_dates "2023-11-13" = Some 1699833600000)
    by reflexivity.
  assert (H4 : 1699833600000 < MainFeature.startOfToday sample_dates) by (simpl; lia).
  destruct (Htitle H1) as (Hsame & _ & Het).
  destruct (Hdue _ H2 H3 H4) as (_ & _ & Hed).
  repeat split; assumption.
Defined.

(** A valid submission, for comparison: the new task is appended, open, with
    the clock reading as identifier, and the form is reset and closed. *)
Example valid_submission_appends :
  submit_task sample_dates (form_with " Buy milk " "") []
  = ({| MainFeature.isFormOpen := false; MainFeature.formData := MainFeature.blank;
        MainFeature.errors := ∅ |},
     [ {| id := "1699956800000"; title := " Buy milk "; description := ""; dueDate := "";
          priority := "Low"; category := ""; categoryColor := "#6366f1";
          createdAt := "2023-11-14T10:13:20.000Z"; isCompleted := false;
          completedAt := None |} ]).
Proof. vm_compute. reflexivity. Qed.

(** The current day itself is refused west of UTC, where local midnight is
    later than midnight UTC: the check is on time values, not on days. *)
Example today_is_refused_west_of_utc :
  (submit_task sample_dates_west (form_with "Buy milk" "2023-11-14") []).2 = []
  ∧ MainFeature.errors
      (submit_task sample_dates_west (form_with "Buy milk" "2023-11-14") []).1
      !! "dueDate" = Some "Due date cannot be in the past".
Proof. split; vm_compute; reflexivity. Qed.

(** A due date that does not parse is not an error: the comparison with NaN
    is false. *)
Example unparsable_due_date_passes :
  (submit_task sample_dates (form_with "Buy milk" "soon") []).1
  = {| MainFeature.isFormOpen := false; MainFeature.formData := MainFeature.blank;
       MainFeature.errors := ∅ |}.
Proof. vm_compute. reflexivity. Qed.

(** ** Entity state containers *)

(** Without a user every operation returns at once. *)
Lemma task_no_user (svc : TaskContext.service) (o : TaskContext.op)
    (w : TaskContext.W) :
  ∃ v, TaskContext.run svc None o w = (Resolved v, w) ∧ neutral v.
Proof. destruct o; simpl; eexists; (split; [reflexivity|]); unfold neutral; auto. Qed.

Lemma project_no_user (svc : ProjectContext.service) (o : ProjectContext.op)
    (w : ProjectContext.W) :
  ∃ v, ProjectContext.run svc None o w = (Resolved v, w) ∧ neutral v.
Proof. destruct o; simpl; eexists; (split; [reflexivity|]); unfold neutral; auto. Qed.

(** C4. With no authenticated user ([user] is [null]), every operation of
    the task container and of the project container returns a neutral value
    ([undefined], [null] or [false]) and leaves the whole world as it was:
    no state cell is written, so [error] keeps its value, and the trace of
    awaited gateway functions is unchanged, so no gateway call is made. *)
Theorem unauthenticated_is_neutral :
  (∀ (svc : TaskContext.service) (o : TaskContext.op) (w : TaskContext.W),
     ∃ v, TaskContext.run svc None o w = (Resolved v, w) ∧ neutral v)
  ∧ (∀ (svc : ProjectContext.service) (o : ProjectContext.op) (w : ProjectContext.W),
       ∃ v, ProjectContext.run svc None o w = (Resolved v, w) ∧ neutral v).
Proof. split; [apply task_no_user | apply project_no_user]. Qed.

(** What each operation hands back without a user. *)
Example unauthenticated_values :
  (TaskContext.run sample_tasks None (TaskContext.FetchTasks no_options) one_task).1
    = Resolved (Prim VUndefined)
  ∧ (TaskContext.run sample_tasks None (TaskContext.CreateTask ∅) one_task).1
    = Resolved (Prim VNull)
  ∧ (ProjectContext.run sample_projects None (ProjectContext.DeleteProject (VNum 1))
       one_project).1 = Resolved (Prim (VBool false))
  ∧ (ProjectContext.run sample_projects None
       (ProjectContext.FetchTasksByProject (VNum 1)) one_project).1
    = Resolved (Prim VUndefined).
Proof. repeat split. Qed.

(** A rejected gateway call, seen from the task container, when the
    reason has properties: the state keeps its records and its current
    record, the message (or a fallback text) is stored, loading is cleared,
    a neutral value is returned, and the gateway function was awaited
    once. *)
Lemma task_rejection (svc : TaskContext.service) (u : obj) (o : TaskContext.op)
    (w : TaskContext.W) (e : exn) :
  TaskContext.settles svc o = Rejected e →
  nullish e = false →
  ∃ v fallback c line,
    TaskContext.run svc (Some u) o w =
      (Resolved v,
       World {| TaskContext.tasks := TaskContext.tasks (st w);
                TaskContext.currentTask := TaskContext.currentTask (st w);
                TaskContext.loading := false;
                TaskContext.error := Some (or_else (message_property e) fallback) |}
             (calls w ++ [c]) (errlog w ++ [line]))
    ∧ neutral v.
Proof.
  intros Hrej Hobj.
  destruct o; task_ops; simpl in *; rejected_case Hrej; eff; rewrite ?Hr;
    destruct e as [m|[]]; try discriminate Hobj; simpl;
    do 4 eexists; (split; [reflexivity|]); unfold neutral; auto.
Qed.

(** The same call when the reason is [null] or [undefined]: reading its
    [message] throws inside the [catch] block, so no error is stored and
    nothing is written to the console; the [finally] block still clears
    loading, and the operation rejects with the [TypeError]. *)
Lemma task_rejection_nullish (svc : TaskContext.service) (u : obj)
    (o : TaskContext.op) (w : TaskContext.W) (v : value) :
  TaskContext.settles svc o = Rejected (Primitive v) →
  nullish (Primitive v) = true →
  ∃ c,
    TaskContext.run svc (Some u) o w =
      (Rejected (TypeError_reading "message" v),
       World {| TaskContext.tasks := TaskContext.tasks (st w);
                TaskContext.currentTask := TaskContext.currentTask (st w);
                TaskContext.loading := false;
                TaskContext.error := None |}
             (calls w ++ [c]) (errlog w)).
Proof.
  intros Hrej Hnull.
  destruct o; task_ops; simpl in *; rejected_case Hrej; eff; rewrite ?Hr;
    destruct v; try discriminate Hnull; simpl; eexists; reflexivity.
Qed.

Lemma project_rejection (svc : ProjectContext.service) (u : obj)
    (o : ProjectContext.op) (w : ProjectContext.W) (e : exn) :
  ProjectContext.settles svc o = Rejected e →
  nullish e = false →
  ∃ v fallback c line,
    ProjectContext.run svc (Some u) o w =
      (Resolved v,
       World {| ProjectContext.projects := ProjectContext.projects (st w);
                ProjectContext.currentProject := ProjectContext.currentProject (st w);
                ProjectContext.projectTasks := ProjectContext.projectTasks (st w);
                ProjectContext.loading := false;
                ProjectContext.error := Some (or_else (message_property e) fallback) |}
             (calls w ++ [c]) (errlog w ++ [line]))
    ∧ neutral v.
Proof.
  intros Hrej Hobj.
  destruct o; project_ops; simpl in *; rejected_case Hrej; eff; rewrite ?Hr;
    destruct e as [m|[]]; try discriminate Hobj; simpl;
    do 4 eexists; (split; [reflexivity|]); unfold neutral; auto.
Qed.

Lemma project_rejection_nullish (svc : ProjectContext.service) (u : obj)
    (o : ProjectContext.op) (w : ProjectContext.W) (v : value) :
  ProjectContext.settles svc o = Rejected (Primitive v) →
  nullish (Primitive v) = true →
  ∃ c,
    ProjectContext.run svc (Some u) o w =
      (Rejected (TypeError_reading "message" v),
       World {| ProjectContext.projects := ProjectContext.projects (st w);
                ProjectContext.currentProject := ProjectContext.currentProject (st w);
                ProjectContext.projectTasks := ProjectContext.projectTasks (st w);
                ProjectContext.loading := false;
                ProjectContext.error := None |}
             (calls w ++ [c]) (errlog w)).
Proof.
  intros Hrej Hnull.
  destruct o; project_ops; simpl in *; rejected_case Hrej; eff; rewrite ?Hr;
    destruct v; try discriminate Hnull; simpl; eexists; reflexivity.
Qed.

(** A reason is [null] or [undefined], or it has properties. *)
Lemma nullish_cases (e : exn) :
  (∃ v, e = Primitive v ∧ nullish e = true) ∨ nullish e = false.
Proof. destruct e as [m|[]]; simpl; eauto. Qed.




(** What the failing list call leaves behind, in full. *)
Example fetchTasks_failure_run :
  TaskContext.run sample_tasks signed_in (TaskContext.FetchTasks no_options) one_task
  = (Resolved (Prim VUndefined),
     World {| TaskContext.tasks := [first_record]; TaskContext.currentTask := None;
              TaskContext.loading := false; TaskContext.error := Some "Network down" |}
           [TaskContext.Call_fetchTasks no_options] ["Error fetching tasks:"]).
Proof. reflexivity. Qed.

(** *** Create *)

Lemma count_id_snoc (records : list obj) (r : obj) :
  count_id (get r "Id") (records ++ [r]) = S (count_id (get r "Id") records).
Proof.
  unfold count_id. rewrite filter_app, length_app.
  rewrite filter_cons_True by done. simpl. lia.
Qed.

Lemma count_id_zero (i : value) (records : list obj) :
  count_id i records = 0%nat ↔ i ∉ (λ r, get r "Id") <$> records.
Proof.
  unfold count_id. induction records as [|r records IH]; simpl.
  - split; [|done]. intros _ Hin. by apply elem_of_nil in Hin.
  - rewrite not_elem_of_cons. destruct (decide (get r "Id" = i)) as [Heq|Hne].
    + rewrite filter_cons_True by done. simpl. split; [done|]. intros [Hne _]. done.
    + rewrite filter_cons_False by done. rewrite IH. split; [|tauto].
      intros H. split; [congruence|done].
Qed.

Lemma task_create_run (svc : TaskContext.service) (u : obj) (taskData newTask : obj)
    (w : TaskContext.W) :
  TaskContext.service_createTask svc taskData = Resolved newTask →
  TaskContext.createTask svc (Some u) taskData w =
    (Resolved (Object newTask),
     World {| TaskContext.tasks := TaskContext.tasks (st w) ++ [newTask];
              TaskContext.currentTask := TaskContext.currentTask (st w);
              TaskContext.loading := false; TaskContext.error := None |}
           (calls w ++ [TaskContext.Call_createTask taskData]) (errlog w)).
Proof. intros Hok. task_ops. eff. by rewrite Hok. Qed.

Lemma project_create_run (svc : ProjectContext.service) (u : obj)
    (projectData newProject : obj) (w : ProjectContext.W) :
  ProjectContext.service_createProject svc projectData = Resolved newProject →
  ProjectContext.createProject svc (Some u) projectData w =
    (Resolved (Object newProject),
     World {| ProjectContext.projects := ProjectContext.projects (st w) ++ [newProject];
              ProjectContext.currentProject := ProjectContext.currentProject (st w);
              ProjectContext.projectTasks := ProjectContext.projectTasks (st w);
              ProjectContext.loading := false; ProjectContext.error := None |}
           (calls w ++ [ProjectContext.Call_createProject projectData]) (errlog w)).
Proof. intros Hok. project_ops. eff. by rewrite Hok. Qed.

(** The two halves of [fetchTasks] and of [createTask] make up the whole. *)
Lemma fetchTasks_cut (svc : TaskContext.service) (u : obj) (o : options)
    (w : TaskContext.W) :
  TaskContext.fetchTasks svc (Some u) o w =
    (TaskContext.before_await (TaskContext.Call_fetchTasks o);;
     TaskContext.fetchTasks_settled (TaskContext.service_fetchTasks svc o)) w.
Proof. task_ops. eff. by destruct (TaskContext.service_fetchTasks svc o). Qed.

Lemma createTask_cut (svc : TaskContext.service) (u : obj) (taskData : obj)
    (w : TaskContext.W) :
  TaskContext.createTask svc (Some u) taskData w =
    (TaskContext.before_await (TaskContext.Call_createTask taskData);;
     TaskContext.createTask_settled (TaskContext.service_createTask svc taskData)) w.
Proof. task_ops. eff. by destruct (TaskContext.service_createTask svc taskData). Qed.

(** C1, as worded, fails.  The container appends without looking at what
    it holds: when the gateway answers a create with an identifier that is
    already cached, the identifier is in the records twice. *)
Lemma create_duplicates_cached_id :
  TaskContext.service_createTask sample_tasks {[ "Name" := VStr "first" ]}
    = Resolved first_record
  ∧ TaskContext.tasks
      (st (TaskContext.createTask sample_tasks signed_in
             {[ "Name" := VStr "first" ]} one_task).2)
    = [first_record; first_record]
  ∧ ¬ created_exactly_once sample_tasks signed_in {[ "Name" := VStr "first" ]} one_task.
Proof.
  split; [reflexivity|]. split; [reflexivity|].
  intros H. destruct (H first_record eq_refl) as [Hcount _].
  vm_compute in Hcount. discriminate Hcount.
Qed.

(** How a store that creates the record once leads there: a listing is
    asked for while the create is in flight and is answered first, with
    the new record in it; the answer of the create then appends the record
    to the list that already holds it. *)
Example create_races_with_fetch :
  (TaskContext.before_await (TaskContext.Call_createTask {[ "Name" := VStr "first" ]});;
   TaskContext.before_await (TaskContext.Call_fetchTasks no_options);;
   TaskContext.fetchTasks_settled (Resolved [first_record]);;
   TaskContext.createTask_settled (Resolved first_record))
    (World TaskContext.initial [] [])
  = (Resolved (Object first_record),
     World {| TaskContext.tasks := [first_record; first_record];
              TaskContext.currentTask := None;
              TaskContext.loading := false; TaskContext.error := None |}
           [TaskContext.Call_createTask {[ "Name" := VStr "first" ]};
            TaskContext.Call_fetchTasks no_options] []).
Proof. reflexivity. Qed.

Lemma createProject_cut (svc : ProjectContext.service) (u : obj)
    (projectData : obj) (w : ProjectContext.W) :
  ProjectContext.createProject svc (Some u) projectData w =
    (ProjectContext.before_await (ProjectContext.Call_createProject projectData);;
     ProjectContext.createProject_settled
       (ProjectContext.service_createProject svc projectData)) w.
Proof.
  project_ops. eff. by destruct (ProjectContext.service_createProject svc projectData).
Qed.

(** C1 (amended). A create appends when its gateway call settles, and to
    the records the container holds at that moment, whatever other
    operations have done to them while the call was in flight: the
    operation returns the record of the gateway and puts it at the end of
    those records, which are otherwise kept in their order.  The identifier
    of the record therefore occurs once more than it did at that moment:
    exactly once if and only if no record held then carried it.  The call
    as a whole is its part before the [await], which leaves the records
    alone, followed by this; when nothing else runs in between, the
    records held at that moment are those before the call. *)
Theorem create_appends :
  (∀ (newTask : obj) (w : TaskContext.W),
     let out := TaskContext.createTask_settled (Resolved newTask) w in
     let held := TaskContext.tasks (st w) in
     let after := TaskContext.tasks (st out.2) in
     out.1 = Resolved (Object newTask)
     ∧ after = held ++ [newTask]
     ∧ count_id (get newTask "Id") after = S (count_id (get newTask "Id") held)
     ∧ (count_id (get newTask "Id") after = 1%nat
        ↔ get newTask "Id" ∉ (λ r, get r "Id") <$> held))
  ∧ (∀ (svc : TaskContext.service) (u : obj) (taskData : obj) (w : TaskContext.W),
       let c := TaskContext.Call_createTask taskData in
       TaskContext.createTask svc (Some u) taskData w
       = (TaskContext.before_await c;;
          TaskContext.createTask_settled (TaskContext.service_createTask svc taskData)) w
       ∧ TaskContext.tasks (st (TaskContext.before_await c w).2)
         = TaskContext.tasks (st w)
       ∧ (∀ newTask,
            TaskContext.service_createTask svc taskData = Resolved newTask →
            let out := TaskContext.createTask svc (Some u) taskData w in
            out.1 = Resolved (Object newTask)
            ∧ TaskContext.tasks (st out.2) = TaskContext.tasks (st w) ++ [newTask]))
  ∧ (∀ (newProject : obj) (w : ProjectContext.W),
       let out := ProjectContext.createProject_settled (Resolved newProject) w in
       let held := ProjectContext.projects (st w) in
       let after := ProjectContext.projects (st out.2) in
       out.1 = Resolved (Object newProject)
       ∧ after = held ++ [newProject]
       ∧ count_id (get newProject "Id") after
         = S (count_id (get newProject "Id") held)
       ∧ (count_id (get newProject "Id") after = 1%nat
          ↔ get newProject "Id" ∉ (λ r, get r "Id") <$> held))
  ∧ (∀ (svc : ProjectContext.service) (u : obj) (projectData : obj)
       (w : ProjectContext.W),
       let c := ProjectContext.Call_createProject projectData in
       ProjectContext.createProject svc (Some u) projectData w
       = (ProjectContext.before_await c;;
          ProjectContext.createProject_settled
            (ProjectContext.service_createProject svc projectData)) w
       ∧ ProjectContext.projects (st (ProjectContext.before_await c w).2)
         = ProjectContext.projects (st w)
       ∧ (∀ newProject,
            ProjectContext.service_createProject svc projectData = Resolved newProject →
            let out := ProjectContext.createProject svc (Some u) projectData w in
            out.1 = Resolved (Object newProject)
            ∧ ProjectContext.projects (st out.2)
              = ProjectContext.projects (st w) ++ [newProject])).
Proof.
  split; [|split; [|split]].
  - intros newTask w out held after. subst out held after.
    task_ops. eff. rewrite count_id_snoc, <- count_id_zero.
    repeat split; try done; lia.
  - intros svc u taskData w c. subst c.
    split; [apply createTask_cut|]. split; [reflexivity|].
    intros newTask Hok out. subst out.
    by rewrite (task_create_run _ _ _ _ _ Hok).
  - intros newProject w out held after. subst out held after.
    project_ops. eff. rewrite count_id_snoc, <- count_id_zero.
    repeat split; try done; lia.
  - intros svc u projectData w c. subst c.
    split; [apply createProject_cut|]. split; [reflexivity|].
    intros newProject Hok out. subst out.
    by rewrite (project_create_run _ _ _ _ _ Hok).
Qed.

(** The create that settles after the listing of [create_races_with_fetch]
    doubles the record; a project container that does nothing else in
    between appends to the records it had before the call. *)
Lemma create_appends_witness :
  TaskContext.tasks
    (st (TaskContext.createTask_settled (Resolved first_record) listed_in_flight).2)
    = [first_record] ++ [first_record]
  ∧ count_id (VNum 1)
      (TaskContext.tasks
         (st (TaskContext.createTask_settled (Resolved first_record) listed_in_flight).2))
    = 2%nat
  ∧ ProjectContext.service_createProject sample_projects {[ "Name" := VStr "second" ]}
    = Resolved {[ "Id" := VNum 1; "Name" := VStr "second" ]}
  ∧ ProjectContext.projects
      (st (ProjectContext.createProject sample_projects signed_in
             {[ "Name" := VStr "second" ]} (World ProjectContext.initial [] [])).2)
    = [] ++ [ {[ "Id" := VNum 1; "Name" := VStr "second" ]} ].
Proof.
  destruct create_appends as (Hsettled & _ & _ & Hproject).
  destruct (Hsettled first_record listed_in_flight) as (_ & Hafter & Hcount & _).
  assert (Hp : ProjectContext.service_createProject sample_projects
                 {[ "Name" := VStr "second" ]}
               = Resolved {[ "Id" := VNum 1; "Name" := VStr "second" ]})
    by (vm_compute; reflexivity).
  destruct (Hproject sample_projects {[ "userId" := VNum 9 ]}
              {[ "Name" := VStr "second" ]} (World ProjectContext.initial [] []))
    as (_ & _ & Hwhole).
  destruct (Hwhole _ Hp) as (_ & Hpa).
  split; [exact Hafter|]. split; [exact Hcount|]. split; [exact Hp|]. exact Hpa.
Defined.

(** *** Rejections *)

Lemma getApperClient_spec (s : gateway_state) :
  getApperClient s = (Resolved (client_of s), set_apperClient (client_of s) s).
Proof.
  unfold getApperClient, client_of, set_apperClient.
  destruct s as [[c|] [sdk|] n l]; reflexivity.
Qed.

Lemma getApperClient_uninitialized (s : gateway_state) :
  apperClient s = None → window_ApperSDK s = None →
  getApperClient s = (Resolved None, s).
Proof.
  destruct s as [c sdk n l]. simpl. intros -> ->. reflexivity.
Qed.

(** Runs a gateway function with its client at hand down to the answers of
    the store. *)
Ltac gateway_cases c Hclient :=
  gateway_ops; eff; rewrite getApperClient_spec, Hclient; simpl;
  repeat match goal with
         | |- context [match fetchRecords c ?t ?p with _ => _ end] =>
             destruct (fetchRecords c t p) as [?resp|?e] eqn:?Hstore; simpl
         | |- context [match createRecord c ?t ?p with _ => _ end] =>
             destruct (createRecord c t p) as [?resp|?e] eqn:?Hstore; simpl
         | |- context [match updateRecord c ?t ?i ?p with _ => _ end] =>
             destruct (updateRecord c t i p) as [?resp|?e] eqn:?Hstore; simpl
         | |- context [match deleteRecord c ?t ?i with _ => _ end] =>
             destruct (deleteRecord c t i) as [?resp|?e] eqn:?Hstore; simpl
         | |- context [decide (length ?l = 0%nat)] =>
             destruct (decide (length l = 0%nat)); simpl
         end.





(** The same run in full: two requests, the second rejected, one line on
    the console. *)
Example second_query_rejected :
  let out := projectService.fetchTasksByProject (VNum 7)
               (warm (store_without_tasks two_associations (Error (Some "offline")))) in
  out.1 = Rejected (Error (Some "offline"))
  ∧ net out.2 = [ NetFetch "task_project" (projectService.associationParams (VNum 7));
                  NetFetch "task1" (projectService.taskParams [VNum 1; VNum 2]) ]
  ∧ console out.2 = ["Error fetching tasks for project 7:"].
Proof. repeat split; vm_compute; reflexivity. Qed.

(** ** The gateway *)

(** C8. When the client is not initialized, that is when the module
    variable [apperClient] is [null] and the SDK is not loaded, so that
    [getApperClient] returns [null], every function of the three service
    modules rejects with the error "ApperClient not initialized" and leaves
    the gateway state as it was: in particular its trace [net] of requests
    to the store is unchanged, so nothing was sent. *)
Theorem uninitialized_fails_fast (op : gateway_op) (s : gateway_state) :
  apperClient s = None →
  window_ApperSDK s = None →
  run_gateway_op op s = (Rejected (Error (Some "ApperClient not initialized")), s)
  ∧ net (run_gateway_op op s).2 = net s.
Proof.
  intros Hc Hsdk.
  assert (run_gateway_op op s = (Rejected not_initialized, s)) as ->; [|done].
  destruct op; gateway_ops; eff;
    rewrite (getApperClient_uninitialized s Hc Hsdk); reflexivity.
Qed.

Lemma uninitialized_fails_fast_witness :
  apperClient cold_start = None
  ∧ window_ApperSDK cold_start = None
  ∧ run_gateway_op (Task_fetchTasks no_options) cold_start
    = (Rejected (Error (Some "ApperClient not initialized")), cold_start).
Proof.
  split; [reflexivity|]. split; [reflexivity|].
  exact (proj1 (uninitialized_fails_fast (Task_fetchTasks no_options) cold_start
                  eq_refl eq_refl)).
Defined.

(** With the SDK loaded the first call builds the client and goes on: a
    module variable that is still [null] is no failure by itself. *)
Example first_call_builds_the_client :
  let out := taskService.fetchTaskById (VNum 1) (loaded (store_with [] [first_record])) in
  out.1 = Resolved (Some first_record)
  ∧ apperClient out.2 = Some (store_with [] [first_record])
  ∧ length (net out.2) = 1%nat.
Proof. repeat split. Qed.

Lemma queries_on_app (t : string) (l1 l2 : list net_call) :
  queries_on t (l1 ++ l2) = (queries_on t l1 + queries_on t l2)%nat.
Proof. unfold queries_on. by rewrite filter_app, length_app. Qed.

(** C6. With a client at hand, [fetchTasksByProject] first sends the query
    on the association table filtered by the project identifier.  When the
    store answers that query with no association (its [data] is an empty
    array, or is absent) the function resolves with the empty list and has
    sent nothing else: no query on the task table.  When the store answers
    with associations, the function sends exactly one more request, the
    query on the task table whose filter is membership of [Id] in the
    [task_id] values of all the associations, in their order, and resolves
    with the tasks the store answers (none when that answer has no
    [data]).  A rejection of either query is the rejection of the
    function. *)
Theorem fetchTasksByProject_queries (s : gateway_state) (c : ApperClient)
    (projectId : value) :
  client_of s = Some c →
  let out := projectService.fetchTasksByProject projectId s in
  let association_query :=
    NetFetch "task_project"
      {| fields := ["Id"; "task_id"]; pagingInfo := None; orderBy := None;
         filters := {[ "project_id" := CEq projectId ]} |} in
  match fetchRecords c "task_project"
          {| fields := ["Id"; "task_id"]; pagingInfo := None; orderBy := None;
             filters := {[ "project_id" := CEq projectId ]} |} with
  | Rejected e =>
      out.1 = Rejected e ∧ net out.2 = net s ++ [association_query]
  | Resolved associationsResponse =>
      match data associationsResponse with
      | None | Some [] =>
          out.1 = Resolved []
          ∧ net out.2 = net s ++ [association_query]
          ∧ queries_on "task1" (net out.2) = queries_on "task1" (net s)
      | Some (first :: rest) =>
          let taskIds := (λ assoc, get assoc "task_id") <$> first :: rest in
          let task_params :=
            {| fields := ["Id"; "Name"; "title"; "description"; "due_date"; "status";
                          "priority"; "assigned_to"];
               pagingInfo := None; orderBy := None;
               filters := {[ "Id" := CIn taskIds ]} |} in
          net out.2 = net s ++ [association_query; NetFetch "task1" task_params]
          ∧ queries_on "task1" (net out.2) = S (queries_on "task1" (net s))
          ∧ match fetchRecords c "task1" task_params with
            | Resolved tasksResponse =>
                match data tasksResponse with
                | Some tasks => out.1 = Resolved tasks
                | None => out.1 = Resolved []
                end
            | Rejected e => out.1 = Rejected e
            end
      end
  end.
Proof.
  intros Hclient out association_query. subst out association_query.
  gateway_ops. eff. rewrite getApperClient_spec, Hclient. simpl.
  change (projectService.associationParams projectId)
    with {| fields := ["Id"; "task_id"]; pagingInfo := None; orderBy := None;
            filters := {[ "project_id" := CEq projectId ]} |}.
  change TableNames.TASK_PROJECT with "task_project".
  destruct (fetchRecords c "task_project" _) as [[[[|first rest]|]]|e]; simpl;
    [| | |done].
  - split; [done|]. split; [done|].
    rewrite queries_on_app. change (queries_on "task1" [_]) with 0%nat. lia.
  - unfold projectService.taskParams.
    change TableNames.TASK with "task1".
    change FieldNames.TASK.values
      with ["Id"; "Name"; "title"; "description"; "due_date"; "status";
            "priority"; "assigned_to"].
    change FieldNames.TASK.ID with "Id".
    change FieldNames.TASK_PROJECT.TASK_ID with "task_id".
    destruct (fetchRecords c "task1" _) as [[[tasks|]]|e]; simpl;
      rewrite <- app_assoc; simpl;
      (split; [done|]); (split; [|done]);
      rewrite queries_on_app;
      change (queries_on "task1" [_; _]) with 1%nat; lia.
  - split; [done|]. split; [done|].
    rewrite queries_on_app. change (queries_on "task1" [_]) with 0%nat. lia.
Qed.

(** A project with two associations, whose tasks are asked for in one
    query; and a project without association, for which the task table is
    not queried. *)
Lemma fetchTasksByProject_queries_witness :
  client_of (warm (store_with two_associations [first_record; second_record]))
    = Some (store_with two_associations [first_record; second_record])
  ∧ (projectService.fetchTasksByProject (VNum 7)
       (warm (store_with two_associations [first_record; second_record]))).1
    = Resolved [first_record; second_record]
  ∧ net (projectService.fetchTasksByProject (VNum 7)
           (warm (store_with two_associations [first_record; second_record]))).2
    = [] ++
      [ NetFetch "task_project"
          {| fields := ["Id"; "task_id"]; pagingInfo := None; orderBy := None;
             filters := {[ "project_id" := CEq (VNum 7) ]} |};
        NetFetch "task1"
          {| fields := ["Id"; "Name"; "title"; "description"; "due_date"; "status";
                        "priority"; "assigned_to"];
             pagingInfo := None; orderBy := None;
             filters := {[ "Id" := CIn [VNum 1; VNum 2] ]} |} ]
  ∧ client_of (warm (store_with [] [first_record])) = Some (store_with [] [first_record])
  ∧ (projectService.fetchTasksByProject (VNum 7)
       (warm (store_with [] [first_record]))).1 = Resolved []
  ∧ net (projectService.fetchTasksByProject (VNum 7)
           (warm (store_with [] [first_record]))).2
    = [] ++
      [ NetFetch "task_project"
          {| fields := ["Id"; "task_id"]; pagingInfo := None; orderBy := None;
             filters := {[ "project_id" := CEq (VNum 7) ]} |} ].
Proof.
  destruct (fetchTasksByProject_queries
              (warm (store_with two_associations [first_record; second_record]))
              (store_with two_associations [first_record; second_record])
              (VNum 7) eq_refl) as (Hnet & _ & Hout).
  destruct (fetchTasksByProject_queries (warm (store_with [] [first_record]))
              (store_with [] [first_record]) (VNum 7) eq_refl)
    as (Hnone & Hsent & _).
  split; [reflexivity|]. split; [exact Hout|]. split; [exact Hnet|].
  split; [reflexivity|]. split; [exact Hnone | exact Hsent].
Defined.

(** A store that answers the association query without [data] is read as
    one without association. *)
Example fetchTasksByProject_without_data :
  let out := projectService.fetchTasksByProject (VNum 7) (warm no_data_store) in
  out.1 = Resolved []
  ∧ net out.2 = [NetFetch "task_project" (projectService.associationParams (VNum 7))].
Proof. split; vm_compute; reflexivity. Qed.

(** C9. With a client at hand, each of [fetchTaskById], [fetchProjectById]
    and [fetchUserById] sends one query on its table, filtered by equality
    of [Id] with the identifier.  When the store answers with no record
    (an empty or absent [data]) the function resolves with [null]: it does
    not reject.  When the store answers with records it resolves with the
    first of them.  Only a rejection of the store makes it reject. *)
Theorem getById_null_or_first (t : string) (getById : value → gateway_op)
    (s : gateway_state) (c : ApperClient) (id : value) :
  (t, getById) ∈ getById_functions →
  client_of s = Some c →
  let out := run_gateway_op (getById id) s in
  ∃ params,
    net out.2 = net s ++ [NetFetch t params]
    ∧ filters params = {[ "Id" := CEq id ]}
    ∧ match fetchRecords c t params with
      | Resolved response =>
          match data response with
          | Some (first :: _) => out.1 = Resolved (Object first)
          | Some [] | None => out.1 = Resolved (Prim VNull)
          end
      | Rejected e => out.1 = Rejected e
      end.
Proof.
  intros Hin Hclient out. subst out. unfold getById_functions in Hin.
  rewrite !elem_of_cons, elem_of_nil in Hin.
  destruct Hin as [Heq|[Heq|[Heq|[]]]]; inversion Heq; subst; clear Heq;
    gateway_ops; eff; rewrite getApperClient_spec, Hclient; simpl;
    match goal with
    | |- context [fetchRecords c ?t ?p] =>
        exists p; destruct (fetchRecords c t p) as [[[[|first rest]|]]|e]
    end; simpl; repeat split.
Qed.

Lemma getById_null_or_first_witness :
  ((TableNames.TASK, Task_fetchTaskById) ∈ getById_functions)
  ∧ client_of (warm (store_with [] [])) = Some (store_with [] [])
  ∧ (run_gateway_op (Task_fetchTaskById (VNum 42)) (warm (store_with [] []))).1
    = Resolved (Prim VNull).
Proof.
  assert (Hin : (TableNames.TASK, Task_fetchTaskById) ∈ getById_functions)
    by (unfold getById_functions; apply elem_of_cons; left; reflexivity).
  split; [exact Hin|]. split; [reflexivity|].
  destruct (getById_null_or_first _ _ (warm (store_with [] [])) (store_with [] [])
              (VNum 42) Hin eq_refl) as (params & _ & _ & Hout).
  exact Hout.
Defined.

(** A lookup that finds two records hands back the first. *)
Example fetchProjectById_first :
  (projectService.fetchProjectById (VNum 1)
     (warm (store_with [] [first_record; ∅]))).1 = Resolved (Some first_record).
Proof. vm_compute. reflexivity. Qed.

(** * Further properties *)

(** ** Entity state containers: the successful paths *)

Lemma task_update_run (svc : TaskContext.service) (u : obj) (taskId : value)
    (taskData updatedTask : obj) (w : TaskContext.W) :
  TaskContext.service_updateTask svc taskId taskData = Resolved updatedTask →
  TaskContext.updateTask svc (Some u) taskId taskData w =
    (Resolved (Object updatedTask),
     World {| TaskContext.tasks := replaced taskId updatedTask (TaskContext.tasks (st w));
              TaskContext.currentTask :=
                if is_current (TaskContext.currentTask (st w)) taskId
                then Some updatedTask else TaskContext.currentTask (st w);
              TaskContext.loading := false; TaskContext.error := None |}
           (calls w ++ [TaskContext.Call_updateTask taskId taskData]) (errlog w)).
Proof.
  intros Hok. task_ops. eff. rewrite Hok.
  by destruct (is_current (TaskContext.currentTask (st w)) taskId).
Qed.

Lemma project_update_run (svc : ProjectContext.service) (u : obj) (projectId : value)
    (projectData updatedProject : obj) (w : ProjectContext.W) :
  ProjectContext.service_updateProject svc projectId projectData
    = Resolved updatedProject →
  ProjectContext.updateProject svc (Some u) projectId projectData w =
    (Resolved (Object updatedProject),
     World {| ProjectContext.projects :=
                replaced projectId updatedProject (ProjectContext.projects (st w));
              ProjectContext.currentProject :=
                if is_current (ProjectContext.currentProject (st w)) projectId
                then Some updatedProject else ProjectContext.currentProject (st w);
              ProjectContext.projectTasks := ProjectContext.projectTasks (st w);
              ProjectContext.loading := false; ProjectContext.error := None |}
           (calls w ++ [ProjectContext.Call_updateProject projectId projectData])
           (errlog w)).
Proof.
  intros Hok. project_ops. eff. rewrite Hok.
  by destruct (is_current (ProjectContext.currentProject (st w)) projectId).
Qed.

Lemma task_delete_run (svc : TaskContext.service) (u : obj) (taskId ack : value)
    (w : TaskContext.W) :
  TaskContext.service_deleteTask svc taskId = Resolved ack →
  TaskContext.deleteTask svc (Some u) taskId w =
    (Resolved (Prim (VBool true)),
     World {| TaskContext.tasks :=
                filter (λ r, get r "Id" ≠ taskId) (TaskContext.tasks (st w));
              TaskContext.currentTask :=
                if is_current (TaskContext.currentTask (st w)) taskId
                then None else TaskContext.currentTask (st w);
              TaskContext.loading := false; TaskContext.error := None |}
           (calls w ++ [TaskContext.Call_deleteTask taskId]) (errlog w)).
Proof.
  intros Hok. task_ops. eff. rewrite Hok.
  by destruct (is_current (TaskContext.currentTask (st w)) taskId).
Qed.

Lemma project_delete_run (svc : ProjectContext.service) (u : obj)
    (projectId ack : value) (w : ProjectContext.W) :
  ProjectContext.service_deleteProject svc projectId = Resolved ack →
  ProjectContext.deleteProject svc (Some u) projectId w =
    (Resolved (Prim (VBool true)),
     World {| ProjectContext.projects :=
                filter (λ r, get r "Id" ≠ projectId) (ProjectContext.projects (st w));
              ProjectContext.currentProject :=
                if is_current (ProjectContext.currentProject (st w)) projectId
                then None else ProjectContext.currentProject (st w);
              ProjectContext.projectTasks := ProjectContext.projectTasks (st w);
              ProjectContext.loading := false; ProjectContext.error := None |}
           (calls w ++ [ProjectContext.Call_deleteProject projectId]) (errlog w)).
Proof.
  intros Hok. project_ops. eff. rewrite Hok.
  by destruct (is_current (ProjectContext.currentProject (st w)) projectId).
Qed.

Lemma task_fetch_run (svc : TaskContext.service) (u : obj) (o : options)
    (fetched : list obj) (w : TaskContext.W) :
  TaskContext.service_fetchTasks svc o = Resolved fetched →
  TaskContext.fetchTasks svc (Some u) o w =
    (Resolved (Prim VUndefined),
     World {| TaskContext.tasks := fetched;
              TaskContext.currentTask := TaskContext.currentTask (st w);
              TaskContext.loading := false; TaskContext.error := None |}
           (calls w ++ [TaskContext.Call_fetchTasks o]) (errlog w)).
Proof. intros Hok. task_ops. eff. by rewrite Hok. Qed.

Lemma project_fetch_run (svc : ProjectContext.service) (u : obj) (o : options)
    (fetched : list obj) (w : ProjectContext.W) :
  ProjectContext.service_fetchProjects svc o = Resolved fetched →
  ProjectContext.fetchProjects svc (Some u) o w =
    (Resolved (Prim VUndefined),
     World {| ProjectContext.projects := fetched;
              ProjectContext.currentProject := ProjectContext.currentProject (st w);
              ProjectContext.projectTasks := ProjectContext.projectTasks (st w);
              ProjectContext.loading := false; ProjectContext.error := None |}
           (calls w ++ [ProjectContext.Call_fetchProjects o]) (errlog w)).
Proof. intros Hok. project_ops. eff. by rewrite Hok. Qed.

(** Facts on [replaced] and on the filter of a delete. *)
Lemma replaced_lookup (id : value) (updated : obj) (records : list obj) (i : nat) :
  replaced id updated records !! i =
    (λ r, if decide (get r "Id" = id) then updated else r) <$> records !! i.
Proof. unfold replaced. apply list_lookup_fmap. Qed.

Lemma replaced_absent (id : value) (updated : obj) (records : list obj) :
  id ∉ ids records → replaced id updated records = records.
Proof.
  unfold replaced, ids. induction records as [|r records IH]; intros Hnot; [done|].
  rewrite fmap_cons, not_elem_of_cons in Hnot. destruct Hnot as [Hne Hnot].
  rewrite fmap_cons, decide_False by congruence. by rewrite IH.
Qed.

Lemma replaced_twice (id : value) (updated : obj) (records : list obj) :
  replaced id updated (replaced id updated records) = replaced id updated records.
Proof.
  unfold replaced. rewrite <- list_fmap_compose. apply list_fmap_ext.
  intros i r _. simpl. destruct (decide (get r "Id" = id)) as [Hr|Hr].
  - by destruct (decide (get updated "Id" = id)).
  - by rewrite decide_False.
Qed.

Lemma replaced_ids (id : value) (updated : obj) (records : list obj) :
  get updated "Id" = id → ids (replaced id updated records) = ids records.
Proof.
  intros Hid. unfold ids, replaced. rewrite <- list_fmap_compose.
  apply list_fmap_ext. intros i r _. simpl.
  destruct (decide (get r "Id" = id)); congruence.
Qed.

Lemma removed_absent (id : value) (records : list obj) :
  id ∉ ids records → filter (λ r, get r "Id" ≠ id) records = records.
Proof.
  unfold ids. induction records as [|r records IH]; intros Hnot; [done|].
  rewrite fmap_cons, not_elem_of_cons in Hnot. destruct Hnot as [Hne Hnot].
  rewrite filter_cons_True by congruence. by rewrite IH.
Qed.

Lemma removed_ids (id : value) (records : list obj) :
  ids (filter (λ r, get r "Id" ≠ id) records) = filter (λ i, i ≠ id) (ids records).
Proof.
  unfold ids. induction records as [|r records IH]; [done|].
  rewrite fmap_cons. destruct (decide (get r "Id" = id)) as [Heq|Hne].
  - rewrite !filter_cons_False by (intros H; by apply H). done.
  - rewrite !filter_cons_True by done. rewrite fmap_cons. by rewrite IH.
Qed.

(** X1. A successful update replaces, at their positions, the cached
    records that carry the identifier by the record of the gateway and
    changes no other entry, so the list keeps its length.  When no cached
    record carries the identifier the records are unchanged and the
    updated record is returned all the same.  The record in focus is
    refreshed when it carries the identifier and kept otherwise. *)
Theorem update_replaces_by_id :
  (∀ (svc : TaskContext.service) (u : obj) (taskId : value)
     (taskData updatedTask : obj) (w : TaskContext.W),
     TaskContext.service_updateTask svc taskId taskData = Resolved updatedTask →
     let out := TaskContext.updateTask svc (Some u) taskId taskData w in
     let before := TaskContext.tasks (st w) in
     let after := TaskContext.tasks (st out.2) in
     out.1 = Resolved (Object updatedTask)
     ∧ length after = length before
     ∧ (∀ i r, before !! i = Some r →
          after !! i = Some (if decide (get r "Id" = taskId) then updatedTask else r))
     ∧ (taskId ∉ ids before → after = before)
     ∧ TaskContext.currentTask (st out.2)
       = (if is_current (TaskContext.currentTask (st w)) taskId
          then Some updatedTask else TaskContext.currentTask (st w)))
  ∧ (∀ (svc : ProjectContext.service) (u : obj) (projectId : value)
       (projectData updatedProject : obj) (w : ProjectContext.W),
       ProjectContext.service_updateProject svc projectId projectData
         = Resolved updatedProject →
       let out := ProjectContext.updateProject svc (Some u) projectId projectData w in
       let before := ProjectContext.projects (st w) in
       let after := ProjectContext.projects (st out.2) in
       out.1 = Resolved (Object updatedProject)
       ∧ length after = length before
       ∧ (∀ i r, before !! i = Some r →
            after !! i
            = Some (if decide (get r "Id" = projectId) then updatedProject else r))
       ∧ (projectId ∉ ids before → after = before)
       ∧ ProjectContext.currentProject (st out.2)
         = (if is_current (ProjectContext.currentProject (st w)) projectId
            then Some updatedProject else ProjectContext.currentProject (st w))).
Proof.
  split.
  - intros svc u taskId taskData updatedTask w Hok out before after.
    subst out before after. rewrite (task_update_run _ _ _ _ _ _ Hok). simpl.
    split; [done|]. split; [unfold replaced; apply length_fmap|].
    split; [|split; [apply replaced_absent | done]].
    intros i r Hi. by rewrite replaced_lookup, Hi.
  - intros svc u projectId projectData updatedProject w Hok out before after.
    subst out before after. rewrite (project_update_run _ _ _ _ _ _ Hok). simpl.
    split; [done|]. split; [unfold replaced; apply length_fmap|].
    split; [|split; [apply replaced_absent | done]].
    intros i r Hi. by rewrite replaced_lookup, Hi.
Qed.

Lemma update_replaces_by_id_witness :
  TaskContext.service_updateTask working_tasks (VNum 2) {[ "Name" := VStr "renamed" ]}
    = Resolved {[ "Id" := VNum 2; "Name" := VStr "renamed" ]}
  ∧ TaskContext.tasks
      (st (TaskContext.updateTask working_tasks signed_in (VNum 2)
             {[ "Name" := VStr "renamed" ]} two_tasks).2) !! 1%nat
    = Some {[ "Id" := VNum 2; "Name" := VStr "renamed" ]}
  ∧ ProjectContext.service_updateProject working_projects (VNum 7)
      {[ "Name" := VStr "renamed" ]}
    = Resolved {[ "Id" := VNum 7; "Name" := VStr "renamed" ]}
  ∧ ProjectContext.projects
      (st (ProjectContext.updateProject working_projects signed_in (VNum 7)
             {[ "Name" := VStr "renamed" ]} two_projects).2)
    = [first_record; second_record].
Proof.
  destruct update_replaces_by_id as [Htask Hproject].
  assert (Ht : TaskContext.service_updateTask working_tasks (VNum 2)
                 {[ "Name" := VStr "renamed" ]}
               = Resolved {[ "Id" := VNum 2; "Name" := VStr "renamed" ]})
    by (vm_compute; reflexivity).
  assert (Hp : ProjectContext.service_updateProject working_projects (VNum 7)
                 {[ "Name" := VStr "renamed" ]}
               = Resolved {[ "Id" := VNum 7; "Name" := VStr "renamed" ]})
    by (vm_compute; reflexivity).
  destruct (Htask working_tasks {[ "userId" := VNum 9 ]} _ _ _ two_tasks Ht)
    as (_ & _ & Hat & _).
  destruct (Hproject working_projects {[ "userId" := VNum 9 ]} _ _ _ two_projects Hp)
    as (_ & _ & _ & Habsent & _).
  split; [exact Ht|]. split.
  { exact (Hat 1%nat second_record eq_refl). }
  split; [exact Hp|]. apply Habsent.
  vm_compute. intros Hin. repeat (apply elem_of_cons in Hin as [Hin|Hin]; [discriminate Hin|]).
  by apply elem_of_nil in Hin.
Defined.

(** X2. A successful delete returns [true] and leaves no cached record with
    the identifier, however many carried it; the records that remain are
    exactly those with another identifier, in their order.  When no cached
    record carries the identifier the records are unchanged (and the
    answer is still [true]).  The record in focus is cleared when it
    carries the identifier and kept otherwise. *)
Theorem delete_removes_by_id :
  (∀ (svc : TaskContext.service) (u : obj) (taskId ack : value) (w : TaskContext.W),
     TaskContext.service_deleteTask svc taskId = Resolved ack →
     let out := TaskContext.deleteTask svc (Some u) taskId w in
     let before := TaskContext.tasks (st w) in
     let after := TaskContext.tasks (st out.2) in
     out.1 = Resolved (Prim (VBool true))
     ∧ (taskId ∉ ids after)
     ∧ (after `sublist_of` before)
     ∧ (∀ r, r ∈ after ↔ r ∈ before ∧ get r "Id" ≠ taskId)
     ∧ (taskId ∉ ids before → after = before)
     ∧ TaskContext.currentTask (st out.2)
       = (if is_current (TaskContext.currentTask (st w)) taskId
          then None else TaskContext.currentTask (st w)))
  ∧ (∀ (svc : ProjectContext.service) (u : obj) (projectId ack : value)
       (w : ProjectContext.W),
       ProjectContext.service_deleteProject svc projectId = Resolved ack →
       let out := ProjectContext.deleteProject svc (Some u) projectId w in
       let before := ProjectContext.projects (st w) in
       let after := ProjectContext.projects (st out.2) in
       out.1 = Resolved (Prim (VBool true))
       ∧ (projectId ∉ ids after)
       ∧ (after `sublist_of` before)
       ∧ (∀ r, r ∈ after ↔ r ∈ before ∧ get r "Id" ≠ projectId)
       ∧ (projectId ∉ ids before → after = before)
       ∧ ProjectContext.currentProject (st out.2)
         = (if is_current (ProjectContext.currentProject (st w)) projectId
            then None else ProjectContext.currentProject (st w))).
Proof.
  assert (Hgone : ∀ (i : value) (l : list obj),
             i ∉ ids (filter (λ r, get r "Id" ≠ i) l)).
  { intros i l. rewrite removed_ids. intros Hin.
    apply list_elem_of_filter in Hin as [Hne _]. by apply Hne. }
  assert (Hmem : ∀ (i : value) (l : list obj) r,
             r ∈ filter (λ r, get r "Id" ≠ i) l ↔ r ∈ l ∧ get r "Id" ≠ i).
  { intros i l r. rewrite list_elem_of_filter. tauto. }
  split.
  - intros svc u taskId ack w Hok out before after. subst out before after.
    rewrite (task_delete_run _ _ _ _ _ Hok). simpl.
    split; [done|]. split; [apply Hgone|]. split; [apply sublist_filter|].
    split; [apply Hmem|]. split; [apply removed_absent | done].
  - intros svc u projectId ack w Hok out before after. subst out before after.
    rewrite (project_delete_run _ _ _ _ _ Hok). simpl.
    split; [done|]. split; [apply Hgone|]. split; [apply sublist_filter|].
    split; [apply Hmem|]. split; [apply removed_absent | done].
Qed.

Lemma delete_removes_by_id_witness :
  TaskContext.service_deleteTask working_tasks (VNum 1) = Resolved VNull
  ∧ TaskContext.currentTask
      (st (TaskContext.deleteTask working_tasks signed_in (VNum 1) two_tasks).2) = None
  ∧ ProjectContext.service_deleteProject working_projects (VNum 7) = Resolved VNull
  ∧ ProjectContext.projects
      (st (ProjectContext.deleteProject working_projects signed_in (VNum 7)
             two_projects).2)
    = [first_record; second_record].
Proof.
  destruct delete_removes_by_id as [Htask Hproject].
  destruct (Htask working_tasks {[ "userId" := VNum 9 ]} (VNum 1) VNull two_tasks
              eq_refl) as (_ & _ & _ & _ & _ & Hcur).
  destruct (Hproject working_projects {[ "userId" := VNum 9 ]} (VNum 7) VNull
              two_projects eq_refl) as (_ & _ & _ & _ & Habsent & _).
  split; [reflexivity|]. split; [exact Hcur|]. split; [reflexivity|].
  apply Habsent.
  vm_compute. intros Hin.
  repeat (apply elem_of_cons in Hin as [Hin|Hin]; [discriminate Hin|]).
  by apply elem_of_nil in Hin.
Defined.

(** X3. A successful listing replaces the records wholesale by the answer
    of the gateway, whatever was cached, clears the error and [loading] and
    keeps the record in focus.  Listing twice with the same answer leaves
    the same state as listing once. *)
Theorem fetch_replaces_wholesale :
  (∀ (svc : TaskContext.service) (u : obj) (o : options) (fetched : list obj)
     (w : TaskContext.W),
     TaskContext.service_fetchTasks svc o = Resolved fetched →
     let once := TaskContext.fetchTasks svc (Some u) o w in
     let twice := TaskContext.fetchTasks svc (Some u) o once.2 in
     st once.2
     = {| TaskContext.tasks := fetched;
          TaskContext.currentTask := TaskContext.currentTask (st w);
          TaskContext.loading := false; TaskContext.error := None |}
     ∧ st twice.2 = st once.2)
  ∧ (∀ (svc : ProjectContext.service) (u : obj) (o : options) (fetched : list obj)
       (w : ProjectContext.W),
       ProjectContext.service_fetchProjects svc o = Resolved fetched →
       let once := ProjectContext.fetchProjects svc (Some u) o w in
       let twice := ProjectContext.fetchProjects svc (Some u) o once.2 in
       st once.2
       = {| ProjectContext.projects := fetched;
            ProjectContext.currentProject := ProjectContext.currentProject (st w);
            ProjectContext.projectTasks := ProjectContext.projectTasks (st w);
            ProjectContext.loading := false; ProjectContext.error := None |}
       ∧ st twice.2 = st once.2).
Proof.
  split.
  - intros svc u o fetched w Hok once twice. subst twice once.
    rewrite !(task_fetch_run _ _ _ _ _ Hok). simpl. done.
  - intros svc u o fetched w Hok once twice. subst twice once.
    rewrite !(project_fetch_run _ _ _ _ _ Hok). simpl. done.
Qed.

Lemma fetch_replaces_wholesale_witness :
  TaskContext.service_fetchTasks working_tasks no_options
    = Resolved [first_record; second_record]
  ∧ TaskContext.tasks
      (st (TaskContext.fetchTasks working_tasks signed_in no_options one_task).2)
    = [first_record; second_record]
  ∧ ProjectContext.service_fetchProjects working_projects no_options
    = Resolved [first_record; second_record]
  ∧ ProjectContext.error
      (st (ProjectContext.fetchProjects working_projects signed_in no_options
             two_projects).2) = None.
Proof.
  destruct fetch_replaces_wholesale as [Htask Hproject].
  destruct (Htask working_tasks {[ "userId" := VNum 9 ]} no_options _ one_task eq_refl)
    as [Ht _].
  destruct (Hproject working_projects {[ "userId" := VNum 9 ]} no_options _
              two_projects eq_refl) as [Hp _].
  split; [reflexivity|]. split; [exact (f_equal TaskContext.tasks Ht)|].
  split; [reflexivity|]. exact (f_equal ProjectContext.error Hp).
Defined.

(** X4. Looking a record up, associating a task with a project and
    listing the tasks of a project never touch the cached records,
    whatever the gateway answers and whether or not a user is signed in.
    A successful lookup puts its answer in focus, [null] included when
    nothing was found, and returns it; a successful listing of the tasks of
    a project stores them as the project tasks and returns them. *)
Theorem lookups_leave_records :
  (∀ (svc : TaskContext.service) (user : option obj) (taskId : value)
     (w : TaskContext.W),
     TaskContext.tasks (st (TaskContext.fetchTaskById svc user taskId w).2)
     = TaskContext.tasks (st w))
  ∧ (∀ (svc : TaskContext.service) (user : option obj) (taskId projectId : value)
       (w : TaskContext.W),
       let w' := (TaskContext.associateWithProject svc user taskId projectId w).2 in
       TaskContext.tasks (st w') = TaskContext.tasks (st w)
       ∧ TaskContext.currentTask (st w') = TaskContext.currentTask (st w))
  ∧ (∀ (svc : TaskContext.service) (u : obj) (taskId : value) (found : option obj)
       (w : TaskContext.W),
       TaskContext.service_fetchTaskById svc taskId = Resolved found →
       let out := TaskContext.fetchTaskById svc (Some u) taskId w in
       out.1 = Resolved (of_row found)
       ∧ TaskContext.currentTask (st out.2) = found)
  ∧ (∀ (svc : ProjectContext.service) (user : option obj) (projectId : value)
       (w : ProjectContext.W),
       ProjectContext.projects (st (ProjectContext.fetchProjectById svc user projectId w).2)
       = ProjectContext.projects (st w))
  ∧ (∀ (svc : ProjectContext.service) (user : option obj) (projectId : value)
       (w : ProjectContext.W),
       let w' := (ProjectContext.fetchTasksByProject svc user projectId w).2 in
       ProjectContext.projects (st w') = ProjectContext.projects (st w)
       ∧ ProjectContext.currentProject (st w') = ProjectContext.currentProject (st w))
  ∧ (∀ (svc : ProjectContext.service) (u : obj) (projectId : value)
       (found : option obj) (w : ProjectContext.W),
       ProjectContext.service_fetchProjectById svc projectId = Resolved found →
       let out := ProjectContext.fetchProjectById svc (Some u) projectId w in
       out.1 = Resolved (of_row found)
       ∧ ProjectContext.currentProject (st out.2) = found)
  ∧ (∀ (svc : ProjectContext.service) (u : obj) (projectId : value)
       (tasks : list obj) (w : ProjectContext.W),
       ProjectContext.service_fetchTasksByProject svc projectId = Resolved tasks →
       let out := ProjectContext.fetchTasksByProject svc (Some u) projectId w in
       out.1 = Resolved (Array tasks)
       ∧ ProjectContext.projectTasks (st out.2) = tasks).
Proof.
  split; [|split; [|split; [|split; [|split; [|split]]]]].
  - intros svc [u|] taskId w; task_ops; eff; [|done].
    by destruct (TaskContext.service_fetchTaskById svc taskId) as [?|[?|[]]].
  - intros svc [u|] taskId projectId w w'; subst w'; task_ops; eff; [|done].
    by destruct (TaskContext.service_associateTaskWithProject svc taskId projectId) as [?|[?|[]]].
  - intros svc u taskId found w Hok out; subst out. task_ops. eff. by rewrite Hok.
  - intros svc [u|] projectId w; project_ops; eff; [|done].
    by destruct (ProjectContext.service_fetchProjectById svc projectId) as [?|[?|[]]].
  - intros svc [u|] projectId w w'; subst w'; project_ops; eff; [|done].
    by destruct (ProjectContext.service_fetchTasksByProject svc projectId) as [?|[?|[]]].
  - intros svc u projectId found w Hok out; subst out. project_ops. eff.
    by rewrite Hok.
  - intros svc u projectId tasks w Hok out; subst out. project_ops. eff.
    by rewrite Hok.
Qed.

Lemma lookups_leave_records_witness :
  TaskContext.service_fetchTaskById sample_tasks (VNum 5) = Resolved None
  ∧ TaskContext.currentTask
      (st (TaskContext.fetchTaskById sample_tasks signed_in (VNum 5) two_tasks).2) = None
  ∧ ProjectContext.service_fetchProjectById working_projects (VNum 1)
    = Resolved (Some first_record)
  ∧ (ProjectContext.fetchProjectById working_projects signed_in (VNum 1)
       one_project).1 = Resolved (Object first_record)
  ∧ ProjectContext.service_fetchTasksByProject working_projects (VNum 1)
    = Resolved [second_record]
  ∧ ProjectContext.projectTasks
      (st (ProjectContext.fetchTasksByProject working_projects signed_in (VNum 1)
             one_project).2) = [second_record].
Proof.
  destruct lookups_leave_records as (_ & _ & Hlookup & _ & _ & Hplookup & Hptasks).
  destruct (Hlookup sample_tasks {[ "userId" := VNum 9 ]} (VNum 5) None two_tasks
              eq_refl) as [_ Hcur].
  destruct (Hplookup working_projects {[ "userId" := VNum 9 ]} (VNum 1) _ one_project
              eq_refl) as [Hret _].
  destruct (Hptasks working_projects {[ "userId" := VNum 9 ]} (VNum 1) _ one_project
              eq_refl) as [_ Hpt].
  repeat split; assumption.
Defined.

(** X5. With a user signed in, every operation of a container, whatever
    the gateway answers, has awaited exactly one gateway function and ends
    with [loading] cleared.  When the gateway call resolved it returns a
    value and its error is [null].  When the call rejected with a reason
    other than [null] and [undefined] it returns a neutral value and its
    error is set.  When the call rejected with [null] or [undefined] the
    operation itself rejects, with the [TypeError] of reading the message,
    and its error is [null]. *)
Theorem one_call_per_operation :
  (∀ (svc : TaskContext.service) (u : obj) (o : TaskContext.op) (w : TaskContext.W),
     let out := TaskContext.run svc (Some u) o w in
     (∃ c, calls out.2 = calls w ++ [c])
     ∧ TaskContext.loading (st out.2) = false
     ∧ match TaskContext.settles svc o with
       | Resolved _ =>
           (∃ v, out.1 = Resolved v) ∧ TaskContext.error (st out.2) = None
       | Rejected e =>
           if nullish e
           then (∃ v, e = Primitive v
                      ∧ out.1 = Rejected (TypeError_reading "message" v))
                ∧ TaskContext.error (st out.2) = None
           else (∃ v, out.1 = Resolved v ∧ neutral v)
                ∧ is_Some (TaskContext.error (st out.2))
       end)
  ∧ (∀ (svc : ProjectContext.service) (u : obj) (o : ProjectContext.op)
       (w : ProjectContext.W),
       let out := ProjectContext.run svc (Some u) o w in
       (∃ c, calls out.2 = calls w ++ [c])
       ∧ ProjectContext.loading (st out.2) = false
       ∧ match ProjectContext.settles svc o with
         | Resolved _ =>
             (∃ v, out.1 = Resolved v) ∧ ProjectContext.error (st out.2) = None
         | Rejected e =>
             if nullish e
             then (∃ v, e = Primitive v
                        ∧ out.1 = Rejected (TypeError_reading "message" v))
                  ∧ ProjectContext.error (st out.2) = None
             else (∃ v, out.1 = Resolved v ∧ neutral v)
                  ∧ is_Some (ProjectContext.error (st out.2))
         end).
Proof.
  split; intros svc u o w out; subst out.
  - destruct (TaskContext.settles svc o) as [[]|e] eqn:Hs.
    + destruct o; task_ops; simpl in Hs; eff;
        match goal with
        | |- context [match ?r with Resolved _ => _ | Rejected _ => _ end] =>
            destruct r as [a|e]; [|discriminate Hs]
        end; simpl;
        try match goal with
        | |- context [if ?b then _ else _] => destruct b
        end; simpl; repeat split; eauto.
    + destruct (nullish_cases e) as [(v & -> & Hnull)|Hobj].
      * destruct (task_rejection_nullish svc u o w v Hs Hnull) as (c & ->).
        rewrite Hnull. simpl. eauto 10.
      * destruct (task_rejection svc u o w e Hs Hobj) as (v & fb & c & line & -> & Hv).
        rewrite Hobj. simpl. eauto 10.
  - destruct (ProjectContext.settles svc o) as [[]|e] eqn:Hs.
    + destruct o; project_ops; simpl in Hs; eff;
        match goal with
        | |- context [match ?r with Resolved _ => _ | Rejected _ => _ end] =>
            destruct r as [a|e]; [|discriminate Hs]
        end; simpl;
        try match goal with
        | |- context [if ?b then _ else _] => destruct b
        end; simpl; repeat split; eauto.
    + destruct (nullish_cases e) as [(v & -> & Hnull)|Hobj].
      * destruct (project_rejection_nullish svc u o w v Hs Hnull) as (c & ->).
        rewrite Hnull. simpl. eauto 10.
      * destruct (project_rejection svc u o w e Hs Hobj)
          as (v & fb & c & line & -> & Hv).
        rewrite Hobj. simpl. eauto 10.
Qed.

Lemma ids_snoc (records : list obj) (r : obj) :
  ids (records ++ [r]) = ids records ++ [get r "Id"].
Proof. unfold ids. by rewrite fmap_app. Qed.

(** X6. The cache keeps its identifiers distinct under delete and update:
    after a successful delete distinct identifiers are still distinct, and
    a successful update whose record carries the identifier it was asked
    for leaves the list of identifiers as it was.  After a successful
    create they are distinct exactly when the new identifier was not
    cached. *)
Theorem distinct_ids_are_kept :
  (∀ (svc : TaskContext.service) (u : obj) (taskId ack : value) (w : TaskContext.W),
     TaskContext.service_deleteTask svc taskId = Resolved ack →
     NoDup (ids (TaskContext.tasks (st w))) →
     NoDup (ids (TaskContext.tasks
                   (st (TaskContext.deleteTask svc (Some u) taskId w).2))))
  ∧ (∀ (svc : TaskContext.service) (u : obj) (taskId : value)
       (taskData updatedTask : obj) (w : TaskContext.W),
       TaskContext.service_updateTask svc taskId taskData = Resolved updatedTask →
       get updatedTask "Id" = taskId →
       ids (TaskContext.tasks
              (st (TaskContext.updateTask svc (Some u) taskId taskData w).2))
       = ids (TaskContext.tasks (st w)))
  ∧ (∀ (svc : TaskContext.service) (u : obj) (taskData newTask : obj)
       (w : TaskContext.W),
       TaskContext.service_createTask svc taskData = Resolved newTask →
       NoDup (ids (TaskContext.tasks (st w))) →
       NoDup (ids (TaskContext.tasks
                     (st (TaskContext.createTask svc (Some u) taskData w).2)))
       ↔ get newTask "Id" ∉ ids (TaskContext.tasks (st w)))
  ∧ (∀ (svc : ProjectContext.service) (u : obj) (projectId ack : value)
       (w : ProjectContext.W),
       ProjectContext.service_deleteProject svc projectId = Resolved ack →
       NoDup (ids (ProjectContext.projects (st w))) →
       NoDup (ids (ProjectContext.projects
                     (st (ProjectContext.deleteProject svc (Some u) projectId w).2))))
  ∧ (∀ (svc : ProjectContext.service) (u : obj) (projectId : value)
       (projectData updatedProject : obj) (w : ProjectContext.W),
       ProjectContext.service_updateProject svc projectId projectData
         = Resolved updatedProject →
       get updatedProject "Id" = projectId →
       ids (ProjectContext.projects
              (st (ProjectContext.updateProject svc (Some u) projectId projectData w).2))
       = ids (ProjectContext.projects (st w)))
  ∧ (∀ (svc : ProjectContext.service) (u : obj) (projectData newProject : obj)
       (w : ProjectContext.W),
       ProjectContext.service_createProject svc projectData = Resolved newProject →
       NoDup (ids (ProjectContext.projects (st w))) →
       NoDup (ids (ProjectContext.projects
                     (st (ProjectContext.createProject svc (Some u) projectData w).2)))
       ↔ get newProject "Id" ∉ ids (ProjectContext.projects (st w))).
Proof.
  assert (Hsnoc : ∀ (l : list obj) (r : obj),
             NoDup (ids l) → NoDup (ids (l ++ [r])) ↔ get r "Id" ∉ ids l).
  { intros l r Hl. rewrite ids_snoc, NoDup_app. split.
    - intros (_ & Hdisj & _) Hin. apply (Hdisj _ Hin). by apply list_elem_of_singleton.
    - intros Hnot. split; [done|]. split; [|apply NoDup_singleton].
      intros x Hx Hin. apply list_elem_of_singleton in Hin. by subst. }
  split; [|split; [|split; [|split; [|split]]]].
  - intros svc u taskId ack w Hok Hnd. rewrite (task_delete_run _ _ _ _ _ Hok). simpl.
    rewrite removed_ids. by apply NoDup_filter.
  - intros svc u taskId taskData updatedTask w Hok Hid.
    rewrite (task_update_run _ _ _ _ _ _ Hok). simpl. by apply replaced_ids.
  - intros svc u taskData newTask w Hok Hnd.
    rewrite (task_create_run _ _ _ _ _ Hok). simpl. by apply Hsnoc.
  - intros svc u projectId ack w Hok Hnd.
    rewrite (project_delete_run _ _ _ _ _ Hok). simpl.
    rewrite removed_ids. by apply NoDup_filter.
  - intros svc u projectId projectData updatedProject w Hok Hid.
    rewrite (project_update_run _ _ _ _ _ _ Hok). simpl. by apply replaced_ids.
  - intros svc u projectData newProject w Hok Hnd.
    rewrite (project_create_run _ _ _ _ _ Hok). simpl. by apply Hsnoc.
Qed.

Lemma two_ids_distinct : NoDup (ids [first_record; second_record]).
Proof.
  vm_compute. apply NoDup_cons. split.
  - intros Hin. apply list_elem_of_singleton in Hin. discriminate Hin.
  - apply NoDup_singleton.
Qed.

Lemma distinct_ids_are_kept_witness :
  TaskContext.service_deleteTask working_tasks (VNum 1) = Resolved VNull
  ∧ NoDup (ids (TaskContext.tasks (st two_tasks)))
  ∧ NoDup (ids (TaskContext.tasks
                  (st (TaskContext.deleteTask working_tasks signed_in (VNum 1)
                         two_tasks).2)))
  ∧ ProjectContext.service_updateProject working_projects (VNum 2) ∅
    = Resolved {[ "Id" := VNum 2 ]}
  ∧ get ({[ "Id" := VNum 2 ]} : obj) "Id" = VNum 2
  ∧ ids (ProjectContext.projects
           (st (ProjectContext.updateProject working_projects signed_in (VNum 2) ∅
                  two_projects).2))
    = ids [first_record; second_record].
Proof.
  destruct distinct_ids_are_kept as (Hdel & _ & _ & _ & Hupd & _).
  assert (Hp : ProjectContext.service_updateProject working_projects (VNum 2) ∅
               = Resolved {[ "Id" := VNum 2 ]}) by (vm_compute; reflexivity).
  split; [reflexivity|]. split; [exact two_ids_distinct|].
  split; [exact (Hdel working_tasks {[ "userId" := VNum 9 ]} (VNum 1) VNull two_tasks
                   eq_refl two_ids_distinct)|].
  split; [exact Hp|]. split; [reflexivity|].
  exact (Hupd working_projects {[ "userId" := VNum 9 ]} (VNum 2) ∅ _ two_projects
           Hp eq_refl).
Defined.

(** X7. Create and delete compose to nothing on the records: when a
    successful create brought a new identifier, a successful delete of
    that identifier leaves the records as they were before the create. *)
Theorem create_then_delete_restores :
  (∀ (svc : TaskContext.service) (u : obj) (taskData newTask : obj) (ack : value)
     (w : TaskContext.W),
     TaskContext.service_createTask svc taskData = Resolved newTask →
     TaskContext.service_deleteTask svc (get newTask "Id") = Resolved ack →
     get newTask "Id" ∉ ids (TaskContext.tasks (st w)) →
     let created := (TaskContext.createTask svc (Some u) taskData w).2 in
     let deleted :=
       (TaskContext.deleteTask svc (Some u) (get newTask "Id") created).2 in
     TaskContext.tasks (st deleted) = TaskContext.tasks (st w))
  ∧ (∀ (svc : ProjectContext.service) (u : obj) (projectData newProject : obj)
       (ack : value) (w : ProjectContext.W),
       ProjectContext.service_createProject svc projectData = Resolved newProject →
       ProjectContext.service_deleteProject svc (get newProject "Id") = Resolved ack →
       get newProject "Id" ∉ ids (ProjectContext.projects (st w)) →
       let created := (ProjectContext.createProject svc (Some u) projectData w).2 in
       let deleted :=
         (ProjectContext.deleteProject svc (Some u) (get newProject "Id") created).2 in
       ProjectContext.projects (st deleted) = ProjectContext.projects (st w)).
Proof.
  assert (Hback : ∀ (l : list obj) (r : obj),
             get r "Id" ∉ ids l →
             filter (λ x, get x "Id" ≠ get r "Id") (l ++ [r]) = l).
  { intros l r Hnot. rewrite filter_app, removed_absent by done.
    rewrite filter_cons_False by (intros H; by apply H).
    by rewrite filter_nil, app_nil_r. }
  split.
  - intros svc u taskData newTask ack w Hc Hd Hnew created deleted.
    subst deleted created. rewrite (task_create_run _ _ _ _ _ Hc).
    rewrite (task_delete_run _ _ _ _ _ Hd). simpl. by apply Hback.
  - intros svc u projectData newProject ack w Hc Hd Hnew created deleted.
    subst deleted created. rewrite (project_create_run _ _ _ _ _ Hc).
    rewrite (project_delete_run _ _ _ _ _ Hd). simpl. by apply Hback.
Qed.

Lemma create_then_delete_restores_witness :
  TaskContext.service_createTask working_tasks ∅ = Resolved {[ "Id" := VNum 3 ]}
  ∧ TaskContext.service_deleteTask working_tasks (VNum 3) = Resolved VNull
  ∧ (VNum 3 ∉ ids (TaskContext.tasks (st two_tasks)))
  ∧ TaskContext.tasks
      (st (TaskContext.deleteTask working_tasks signed_in (VNum 3)
             (TaskContext.createTask working_tasks signed_in ∅ two_tasks).2).2)
    = [first_record; second_record].
Proof.
  destruct create_then_delete_restores as [Htask _].
  assert (Hc : TaskContext.service_createTask working_tasks ∅
               = Resolved {[ "Id" := VNum 3 ]}) by (vm_compute; reflexivity).
  assert (Hnew : VNum 3 ∉ ids (TaskContext.tasks (st two_tasks))).
  { vm_compute. intros Hin.
    repeat (apply elem_of_cons in Hin as [Hin|Hin]; [discriminate Hin|]).
    by apply elem_of_nil in Hin. }
  split; [exact Hc|]. split; [reflexivity|]. split; [exact Hnew|].
  exact (Htask working_tasks {[ "userId" := VNum 9 ]} ∅ {[ "Id" := VNum 3 ]} VNull
           two_tasks Hc eq_refl Hnew).
Defined.

(** X8. Update is idempotent on the container: the same successful update
    applied a second time leaves the state the first one left. *)
Theorem update_twice_is_update_once :
  (∀ (svc : TaskContext.service) (u : obj) (taskId : value)
     (taskData updatedTask : obj) (w : TaskContext.W),
     TaskContext.service_updateTask svc taskId taskData = Resolved updatedTask →
     let once := (TaskContext.updateTask svc (Some u) taskId taskData w).2 in
     let twice := (TaskContext.updateTask svc (Some u) taskId taskData once).2 in
     st twice = st once)
  ∧ (∀ (svc : ProjectContext.service) (u : obj) (projectId : value)
       (projectData updatedProject : obj) (w : ProjectContext.W),
       ProjectContext.service_updateProject svc projectId projectData
         = Resolved updatedProject →
       let once := (ProjectContext.updateProject svc (Some u) projectId projectData w).2 in
       let twice :=
         (ProjectContext.updateProject svc (Some u) projectId projectData once).2 in
       st twice = st once).
Proof.
  assert (Hcur : ∀ (c : option obj) (i : value) (x : obj),
             (if is_current (if is_current c i then Some x else c) i
              then Some x else (if is_current c i then Some x else c))
             = (if is_current c i then Some x else c)).
  { intros c i x. destruct (is_current c i) eqn:Hc; simpl.
    - by destruct (bool_decide _).
    - by rewrite Hc. }
  split.
  - intros svc u taskId taskData updatedTask w Hok once twice. subst twice once.
    rewrite !(task_update_run _ _ _ _ _ _ Hok). simpl.
    by rewrite replaced_twice, Hcur.
  - intros svc u projectId projectData updatedProject w Hok once twice.
    subst twice once. rewrite !(project_update_run _ _ _ _ _ _ Hok). simpl.
    by rewrite replaced_twice, Hcur.
Qed.

Lemma update_twice_is_update_once_witness :
  TaskContext.service_updateTask working_tasks (VNum 1) ∅ = Resolved {[ "Id" := VNum 1 ]}
  ∧ st (TaskContext.updateTask working_tasks signed_in (VNum 1) ∅
          (TaskContext.updateTask working_tasks signed_in (VNum 1) ∅ two_tasks).2).2
    = st (TaskContext.updateTask working_tasks signed_in (VNum 1) ∅ two_tasks).2.
Proof.
  destruct update_twice_is_update_once as [Htask _].
  assert (Hu : TaskContext.service_updateTask working_tasks (VNum 1) ∅
               = Resolved {[ "Id" := VNum 1 ]}) by (vm_compute; reflexivity).
  split; [exact Hu|].
  exact (Htask working_tasks {[ "userId" := VNum 9 ]} (VNum 1) ∅ _ two_tasks Hu).
Defined.

(** ** The gateway: client, requests and diagnostics *)

(** X9. The client is built at most once.  Whatever gateway function runs
    and whatever the store answers, the module variable holds afterwards
    the client that [getApperClient] handed out for this call (it stays
    [null] when the SDK is not loaded), so every later call gets the same
    client without building one. *)
Theorem client_is_built_once (op : gateway_op) (s : gateway_state) :
  let s' := (run_gateway_op op s).2 in
  apperClient s' = client_of s
  ∧ window_ApperSDK s' = window_ApperSDK s
  ∧ client_of s' = client_of s
  ∧ (getApperClient s').2 = s'.
Proof.
  intros s'.
  assert (Hvar : apperClient s' = client_of s ∧ window_ApperSDK s' = window_ApperSDK s).
  { subst s'. destruct (client_of s) as [c|] eqn:Hclient.
    - destruct op; gateway_cases c Hclient; done.
    - destruct op; gateway_ops; eff; rewrite getApperClient_spec, Hclient; done. }
  destruct Hvar as [Hvar Hsdk]. split; [done|]. split; [done|].
  assert (Hsame : client_of s' = client_of s).
  { unfold client_of at 1. rewrite Hvar, Hsdk.
    unfold client_of. by destruct (apperClient s), (window_ApperSDK s). }
  split; [done|].
  rewrite getApperClient_spec, Hsame, <- Hvar. by destruct s'.
Qed.

(** X10. With a client at hand, a gateway function that resolves writes
    nothing to the console, and one that rejects has written exactly one
    diagnostic line. *)
Theorem one_diagnostic_per_failure (op : gateway_op) (s : gateway_state)
    (c : ApperClient) :
  client_of s = Some c →
  let out := run_gateway_op op s in
  match out.1 with
  | Resolved _ => console out.2 = console s
  | Rejected _ => ∃ line, console out.2 = console s ++ [line]
  end.
Proof.
  intros Hclient out. subst out.
  destruct op; gateway_cases c Hclient; eauto.
Qed.

Lemma one_diagnostic_per_failure_witness :
  client_of (warm (store_with [] [])) = Some (store_with [] [])
  ∧ console (run_gateway_op (Task_createTask ∅) (warm (store_with [] []))).2
    = ["Error creating task:"]
  ∧ console (run_gateway_op (User_fetchUsers no_options) (warm (store_with [] []))).2
    = [].
Proof.
  split; [reflexivity|].
  pose proof (one_diagnostic_per_failure (Task_createTask ∅) (warm (store_with [] []))
                (store_with [] []) eq_refl) as [line Hline].
  pose proof (one_diagnostic_per_failure (User_fetchUsers no_options)
                (warm (store_with [] [])) (store_with [] []) eq_refl) as Hquiet.
  split; [reflexivity | exact Hquiet].
Defined.

(** X11. With a client at hand, a gateway function that writes sends
    exactly one request, a write, and no query before it: associating a
    task with a project does not look for an existing association.  A
    gateway function that reads sends queries only, one of them, or two
    in the case of [fetchTasksByProject]. *)
Theorem request_discipline (op : gateway_op) (s : gateway_state) (c : ApperClient) :
  client_of s = Some c →
  ∃ sent,
    net (run_gateway_op op s).2 = net s ++ sent
    ∧ if writes op
      then ∃ r, sent = [r] ∧ ¬ is_fetch r
      else Forall is_fetch sent
           ∧ (length sent = 1%nat
              ∨ (length sent = 2%nat ∧ ∃ projectId, op = Project_fetchTasksByProject projectId)).
Proof.
  intros Hclient.
  destruct op; gateway_cases c Hclient;
    rewrite <- ?app_assoc; simpl; eexists; (split; [reflexivity|]); simpl;
    first [ by eexists; split; [reflexivity | intros []]
          | split; [repeat constructor | eauto ] ].
Qed.

Lemma request_discipline_witness :
  client_of (warm (store_with [] [])) = Some (store_with [] [])
  ∧ ∃ r, net (run_gateway_op
                (Task_associateTaskWithProject (VNum 1) (VNum 7))
                (warm (store_with [] []))).2 = [r]
         ∧ ¬ is_fetch r.
Proof.
  split; [reflexivity|].
  destruct (request_discipline (Task_associateTaskWithProject (VNum 1) (VNum 7))
              (warm (store_with [] [])) (store_with [] []) eq_refl)
    as (sent & Hnet & r & -> & Hr).
  exists r. split; [exact Hnet | exact Hr].
Defined.

(** ** The local-only task list: views, counts and composition *)

(** X12. The filter views split the list: the filter [all], and any filter
    that is none of the three names, shows every task; the [active] and the
    [completed] view together hold every task exactly once, the active view
    exactly the open tasks; and the completed count is the size of the
    completed view, the two views adding up to the total count. *)
Theorem filter_views_partition (tasks : list Task) :
  Home.filteredTasks "all" tasks = tasks
  ∧ (∀ selected, selected ≠ "all" → selected ≠ "active" → selected ≠ "completed" →
       Home.filteredTasks selected tasks = tasks)
  ∧ Home.filteredTasks "active" tasks ++ Home.filteredTasks "completed" tasks ≡ₚ tasks
  ∧ (∀ task, task ∈ Home.filteredTasks "active" tasks
             ↔ task ∈ tasks ∧ isCompleted task = false)
  ∧ length (Home.filteredTasks "completed" tasks) = Home.completedCount tasks
  ∧ (Home.completedCount tasks + length (Home.filteredTasks "active" tasks))%nat
    = Home.totalCount tasks.
Proof.
  assert (Hall : ∀ selected, (∀ task, Home.shows selected task = true) →
                 Home.filteredTasks selected tasks = tasks).
  { intros selected Hshow. unfold Home.filteredTasks.
    induction tasks as [|t l IH]; [done|].
    rewrite filter_cons_True by apply Hshow. by rewrite IH. }
  assert (Hactive : Home.filteredTasks "active" tasks
                    = filter (λ task, ¬ isCompleted task = true) tasks).
  { unfold Home.filteredTasks. apply list_filter_iff. intros t.
    unfold Home.shows. simpl. by destruct (isCompleted t). }
  assert (Hcompleted : Home.filteredTasks "completed" tasks
                       = filter (λ task, isCompleted task = true) tasks).
  { unfold Home.filteredTasks. apply list_filter_iff. intros t.
    unfold Home.shows. simpl. by destruct (isCompleted t). }
  assert (Hperm : Home.filteredTasks "active" tasks
                  ++ Home.filteredTasks "completed" tasks ≡ₚ tasks).
  { rewrite Hactive, Hcompleted.
    rewrite (Permutation_app_comm (filter _ _)). apply filter_app_complement. }
  split; [by apply Hall|]. split.
  { intros selected H1 H2 H3. apply Hall. intros t. unfold Home.shows.
    by rewrite !decide_False. }
  split; [done|]. split.
  { intros t. rewrite Hactive, list_elem_of_filter.
    destruct (isCompleted t); split; intros []; split; congruence. }
  split; [by rewrite Hcompleted|].
  unfold Home.totalCount. rewrite <- (Permutation_length Hperm), length_app, Hcompleted.
  unfold Home.completedCount. lia.
Qed.

Lemma filter_views_partition_witness :
  "urgent" ≠ "all" ∧ "urgent" ≠ "active" ∧ "urgent" ≠ "completed"
  ∧ Home.filteredTasks "urgent" [milk; done_milk] = [milk; done_milk].
Proof.
  destruct (filter_views_partition [milk; done_milk]) as (_ & Hother & _).
  assert (H1 : "urgent" ≠ "all") by discriminate.
  assert (H2 : "urgent" ≠ "active") by discriminate.
  assert (H3 : "urgent" ≠ "completed") by discriminate.
  split; [exact H1|]. split; [exact H2|]. split; [exact H3|].
  exact (Hother "urgent" H1 H2 H3).
Defined.

Lemma toggle_cons (now_ISO : nat → string) (taskId : string) (task : Task)
    (tasks : list Task) :
  Home.toggleTaskCompletion now_ISO taskId (task :: tasks) =
    (if decide (id task = taskId) then Home.toggled (now_ISO O) task else task)
    :: Home.toggleTaskCompletion (now_ISO ∘ S) taskId tasks.
Proof. unfold Home.toggleTaskCompletion. by rewrite imap_cons. Qed.

Lemma completedCount_cons (task : Task) (tasks : list Task) :
  Home.completedCount (task :: tasks) =
    ((if isCompleted task then 1 else 0) + Home.completedCount tasks)%nat.
Proof.
  unfold Home.completedCount. destruct (isCompleted task) eqn:Hc.
  - by rewrite filter_cons_True.
  - rewrite filter_cons_False; [done|]. congruence.
Qed.

(** X13. A toggle keeps the identifiers of the list, in their order, and
    every task with another identifier as it is.  When the identifiers of
    the list are distinct it moves the completed count by exactly one: up
    when the task was open, down when it was completed. *)
Theorem toggle_moves_count_by_one (now_ISO : nat → string) (tasks : list Task)
    (i : nat) (task : Task) :
  NoDup (id <$> tasks) →
  tasks !! i = Some task →
  let after := Home.toggleTaskCompletion now_ISO (id task) tasks in
  id <$> after = id <$> tasks
  ∧ (∀ j other, tasks !! j = Some other → id other ≠ id task →
       after !! j = Some other)
  ∧ Home.completedCount after
    = (if isCompleted task
       then Home.completedCount tasks - 1
       else Home.completedCount tasks + 1)%nat
  ∧ (isCompleted task = true → (0 < Home.completedCount tasks)%nat).
Proof.
  intros Hnd Hi after. subst after. split; [|split].
  - apply list_eq. intros j. rewrite !list_lookup_fmap, toggle_lookup.
    destruct (tasks !! j) as [t|]; simpl; [|done]. by case_decide.
  - intros j other Hj Hne. by apply toggle_other.
  - revert now_ISO i Hnd Hi. induction tasks as [|t l IH]; intros now_ISO i Hnd Hi.
    { by rewrite lookup_nil in Hi. }
    rewrite fmap_cons in Hnd. apply NoDup_cons in Hnd as [Hhead Hnd].
    rewrite toggle_cons, !completedCount_cons. destruct i as [|i]; simpl in Hi.
    + inversion Hi; subst t. rewrite decide_True by done.
      rewrite toggle_absent by done.
      unfold Home.toggled. simpl. destruct (isCompleted task); simpl; split; lia.
    + assert (Hne : id t ≠ id task).
      { intros Heq. apply Hhead. rewrite Heq.
        apply list_elem_of_fmap. exists task. split; [done|].
        by eapply list_elem_of_lookup_2. }
      rewrite decide_False by done.
      destruct (IH (now_ISO ∘ S) i Hnd Hi) as [Hcount Hpos]. rewrite Hcount.
      destruct (isCompleted task) eqn:Hc.
      * specialize (Hpos eq_refl). destruct (isCompleted t); split; lia.
      * destruct (isCompleted t); split; (lia || discriminate).
Qed.

Lemma toggle_moves_count_by_one_witness :
  NoDup (id <$> [milk; done_milk])
  ∧ [milk; done_milk] !! 1%nat = Some done_milk
  ∧ Home.completedCount
      (Home.toggleTaskCompletion (λ _, "2023-11-16T08:00:00.000Z") (id done_milk)
         [milk; done_milk]) = 0%nat.
Proof.
  assert (Hnd : NoDup (id <$> [milk; done_milk])).
  { simpl. apply NoDup_cons. split; [|apply NoDup_singleton].
    intros Hin. apply list_elem_of_singleton in Hin. discriminate Hin. }
  split; [exact Hnd|]. split; [reflexivity|].
  destruct (toggle_moves_count_by_one (λ _, "2023-11-16T08:00:00.000Z")
              [milk; done_milk] 1%nat done_milk Hnd eq_refl) as (_ & _ & Hcount & _).
  exact Hcount.
Defined.

(** X14. Deleting removes every task that carries the identifier and keeps
    the others in their order.  Adding a task and deleting its identifier
    gives the list without any task of that identifier: the list as it
    was when the identifier is new, and a shorter one when an older task
    carried the same identifier. *)
Theorem local_delete_removes_all (taskId : string) (task : Task) (tasks : list Task) :
  (taskId ∉ id <$> Home.deleteTask taskId tasks)
  ∧ (Home.deleteTask taskId tasks `sublist_of` tasks)
  ∧ (∀ t, t ∈ Home.deleteTask taskId tasks ↔ t ∈ tasks ∧ id t ≠ taskId)
  ∧ Home.deleteTask (id task) (Home.addTask task tasks) = Home.deleteTask (id task) tasks
  ∧ (id task ∉ id <$> tasks →
       Home.deleteTask (id task) (Home.addTask task tasks) = tasks)
  ∧ (id task ∈ id <$> tasks →
       (length (Home.deleteTask (id task) (Home.addTask task tasks)) < length tasks)%nat).
Proof.
  assert (Hadd : Home.deleteTask (id task) (Home.addTask task tasks)
                 = Home.deleteTask (id task) tasks).
  { unfold Home.deleteTask, Home.addTask. rewrite filter_app.
    rewrite (filter_cons_False _ task) by (intros H; by apply H).
    by rewrite filter_nil, app_nil_r. }
  split.
  { intros Hin. apply list_elem_of_fmap in Hin as (t & Heq & Hin).
    apply list_elem_of_filter in Hin as [Hne _]. by apply Hne. }
  split; [apply sublist_filter|].
  split; [intros t; unfold Home.deleteTask; rewrite list_elem_of_filter; tauto|].
  split; [done|]. split.
  - intros Hnew. rewrite Hadd. by apply delete_absent.
  - intros Hold. rewrite Hadd.
    apply list_elem_of_fmap in Hold as (t & Heq & Hin).
    apply (length_filter_lt _ _ t); [done|]. intros Hne. by apply Hne.
Qed.

Lemma local_delete_removes_all_witness :
  (id milk ∉ id <$> [done_milk])
  ∧ Home.deleteTask (id milk) (Home.addTask milk [done_milk]) = [done_milk]
  ∧ (id milk ∈ id <$> [milk])
  ∧ (length (Home.deleteTask (id milk) (Home.addTask milk [milk])) < length [milk])%nat.
Proof.
  destruct (local_delete_removes_all "x" milk [done_milk]) as (_ & _ & _ & _ & Hnew & _).
  destruct (local_delete_removes_all "x" milk [milk]) as (_ & _ & _ & _ & _ & Hold).
  assert (H1 : id milk ∉ id <$> [done_milk]).
  { simpl. intros Hin. apply list_elem_of_singleton in Hin. discriminate Hin. }
  assert (H2 : id milk ∈ id <$> [milk]) by (simpl; apply list_elem_of_singleton; reflexivity).
  split; [exact H1|]. split; [exact (Hnew H1)|]. split; [exact H2|]. exact (Hold H2).
Defined.

(** ** The task form: the whole of a submission *)

Section form_whole.
Import MainFeature.
Implicit Types (env : dates) (d : form_data).

Lemma newErrors_lookup_title env d :
  newErrors env d !! "title" =
    if decide (trim (f_title d) = "") then Some "Title is required" else None.
Proof.
  unfold newErrors.
  destruct (decide (trim (f_title d) = "")), (_ && _);
    rewrite ?lookup_insert_ne by done; by rewrite ?lookup_insert_eq, ?lookup_empty.
Qed.

Lemma newErrors_lookup_dueDate env d :
  newErrors env d !! "dueDate" =
    if bool_decide (f_dueDate d ≠ "") && before_today env (f_dueDate d)
    then Some "Due date cannot be in the past" else None.
Proof.
  unfold newErrors.
  destruct (decide (trim (f_title d) = "")), (_ && _);
    rewrite ?lookup_insert_eq; try done;
    rewrite ?lookup_insert_ne by done; by rewrite ?lookup_empty.
Qed.

Lemma newErrors_lookup_other env d (k : string) :
  k ≠ "title" → k ≠ "dueDate" → newErrors env d !! k = None.
Proof.
  intros H1 H2. unfold newErrors.
  destruct (decide (trim (f_title d) = "")), (_ && _);
    rewrite ?lookup_insert_ne by done; by rewrite ?lookup_empty.
Qed.

Lemma newErrors_empty_iff env d : newErrors env d = ∅ ↔ valid_form env d.
Proof.
  unfold valid_form. split.
  - intros He.
    pose proof (newErrors_lookup_title env d) as Ht.
    pose proof (newErrors_lookup_dueDate env d) as Hd.
    rewrite He, lookup_empty in Ht, Hd. split.
    + by destruct (decide (trim (f_title d) = "")).
    + destruct (decide (f_dueDate d = "")) as [|Hne]; [by left|right].
      rewrite bool_decide_eq_true_2 in Hd by done. simpl in Hd.
      by destruct (before_today env (f_dueDate d)).
  - intros [Ht Hd]. apply map_eq. intros k. rewrite lookup_empty.
    destruct (decide (k = "title")) as [-> | H1].
    { rewrite newErrors_lookup_title. by rewrite decide_False. }
    destruct (decide (k = "dueDate")) as [-> | H2]; [|by apply newErrors_lookup_other].
    rewrite newErrors_lookup_dueDate. destruct Hd as [-> | ->]; [done|].
    by rewrite andb_false_r.
Qed.
End form_whole.

(** The two conditions of [validateForm], read off the characters of the
    title and off the parser and the clock. *)
Lemma white_space_codes (c : ascii) :
  MainFeature.is_white_space c = true
  ↔ N_of_ascii c ∈ [9; 10; 11; 12; 13; 32; 160]%N.
Proof. unfold MainFeature.is_white_space. apply bool_decide_eq_true. Qed.

Lemma blank_title_iff (t : string) :
  MainFeature.trim t = ""
  ↔ ∀ c, c ∈ list_ascii_of_string t → N_of_ascii c ∈ [9; 10; 11; 12; 13; 32; 160]%N.
Proof.
  rewrite trim_empty_iff, Forall_forall.
  split; intros H c Hc; apply white_space_codes, H, Hc.
Qed.

Lemma before_today_iff (env : MainFeature.dates) (dueDate : string) :
  MainFeature.before_today env dueDate = true
  ↔ ∃ t, MainFeature.Date_parse env dueDate = Some t ∧ t < MainFeature.startOfToday env.
Proof.
  unfold MainFeature.before_today.
  destruct (MainFeature.Date_parse env dueDate) as [t|].
  - rewrite bool_decide_eq_true. split; [eauto|]. by intros (t' & [= <-] & Hlt).
  - split; [done|]. by intros (t' & Hp & _).
Qed.

(** X15. [validateForm] reports each field on its own.  The errors hold
    "Title is required" under [title] exactly when every character of the
    title is white space (TAB, LF, VT, FF, CR, SP or NBSP; the empty title
    included), and "Due date cannot be in the past" under [dueDate] exactly
    when a due date is supplied, parses, and its time is strictly less
    than local midnight of the current day: a due date at that midnight,
    or one that does not parse, is no error.  Both are held at once when
    both fail, and nothing is held under any other key.  The function
    answers [true] exactly when neither condition holds, and leaves the
    data of the form and its open state as they are. *)
Theorem field_errors_are_exact (env : MainFeature.dates) (s : MainFeature.state) :
  let d := MainFeature.formData s in
  let checked := MainFeature.validateForm env s in
  let errors := MainFeature.errors checked.2 in
  let blank_title :=
    ∀ c, c ∈ list_ascii_of_string (MainFeature.f_title d) →
         N_of_ascii c ∈ [9; 10; 11; 12; 13; 32; 160]%N in
  let past_due_date :=
    MainFeature.f_dueDate d ≠ ""
    ∧ ∃ t, MainFeature.Date_parse env (MainFeature.f_dueDate d) = Some t
           ∧ t < MainFeature.startOfToday env in
  (errors !! "title" = Some "Title is required" ↔ blank_title)
  ∧ (errors !! "dueDate" = Some "Due date cannot be in the past" ↔ past_due_date)
  ∧ (∀ k, errors !! k = None
          ∨ (k = "title" ∧ errors !! k = Some "Title is required")
          ∨ (k = "dueDate" ∧ errors !! k = Some "Due date cannot be in the past"))
  ∧ (checked.1 = true ↔ ¬ blank_title ∧ ¬ past_due_date)
  ∧ MainFeature.formData checked.2 = d
  ∧ MainFeature.isFormOpen checked.2 = MainFeature.isFormOpen s.
Proof.
  intros d checked errors blank_title past_due_date.
  subst errors checked blank_title past_due_date. unfold MainFeature.validateForm.
  simpl. fold d.
  assert (Htitle : MainFeature.newErrors env d !! "title" = Some "Title is required"
                   ↔ MainFeature.trim (MainFeature.f_title d) = "").
  { rewrite newErrors_lookup_title. by destruct (decide _). }
  assert (Hdue : MainFeature.newErrors env d !! "dueDate" = Some "Due date cannot be in the past"
                 ↔ MainFeature.f_dueDate d ≠ ""
                   ∧ MainFeature.before_today env (MainFeature.f_dueDate d) = true).
  { rewrite newErrors_lookup_dueDate.
    destruct (decide (MainFeature.f_dueDate d = "")) as [He|Hne].
    - rewrite bool_decide_eq_false_2 by (intros H; by apply H). simpl.
      split; [done|]. intros [H _]. done.
    - rewrite bool_decide_eq_true_2 by done. simpl.
      destruct (MainFeature.before_today env _); split; try done.
      intros [_ H]. done. }
  split; [|split; [|split; [|split]]].
  - by rewrite Htitle, blank_title_iff.
  - by rewrite Hdue, before_today_iff.
  - intros k. destruct (decide (k = "title")) as [-> | H1].
    { rewrite newErrors_lookup_title. destruct (decide _); auto. }
    destruct (decide (k = "dueDate")) as [-> | H2].
    { rewrite newErrors_lookup_dueDate. destruct (_ && _); auto. }
    left. by apply newErrors_lookup_other.
  - rewrite bool_decide_eq_true, map_size_empty_iff, newErrors_empty_iff.
    unfold valid_form. rewrite <- blank_title_iff, <- before_today_iff.
    split; intros [Ht Hd]; (split; [done|]).
    + intros [Hne Hbefore]. destruct Hd as [He|Hfalse]; congruence.
    + destruct (decide (MainFeature.f_dueDate d = "")) as [He|Hne]; [by left|right].
      destruct (MainFeature.before_today env _) eqn:Hb; [|done].
      by destruct Hd.
  - done.
Qed.

(** Strictness of the comparison: a due date at local midnight of the
    current day passes, one a millisecond earlier does not. *)
Example midnight_is_not_in_the_past :
  let at_midnight : MainFeature.dates :=
    {| MainFeature.Date_parse := λ _, Some 1699920000000;
       MainFeature.startOfToday := 1699920000000;
       MainFeature.Date_now := 1699956800000;
       MainFeature.now_ISO := "2023-11-14T10:13:20.000Z" |} in
  let just_before : MainFeature.dates :=
    {| MainFeature.Date_parse := λ _, Some 1699919999999;
       MainFeature.startOfToday := 1699920000000;
       MainFeature.Date_now := 1699956800000;
       MainFeature.now_ISO := "2023-11-14T10:13:20.000Z" |} in
  (MainFeature.validateForm at_midnight (form_with "Buy milk" "2023-11-14")).1 = true
  ∧ (MainFeature.validateForm just_before (form_with "Buy milk" "2023-11-13")).1 = false.
Proof. split; vm_compute; reflexivity. Qed.

(** X16. What a submission does is decided by [validateForm] alone.  A
    valid form appends exactly one task to the list of the page: open, with
    no completion timestamp, with the clock reading as identifier and as
    creation timestamp, and with the fields of the form as they were typed
    (the title is not trimmed); the form is then reset and closed.  A form
    that is not valid leaves the list, the data of the form and its open
    state as they are, and stores at least one field error. *)
Theorem submission_is_decided_by_validation (env : MainFeature.dates)
    (s : MainFeature.state) (tasks : list Task) :
  let d := MainFeature.formData s in
  let after := submit_task env s tasks in
  (valid_form env d →
     after.2 = tasks ++
       [ {| id := pretty (MainFeature.Date_now env);
            title := MainFeature.f_title d;
            description := MainFeature.f_description d;
            dueDate := MainFeature.f_dueDate d;
            priority := MainFeature.f_priority d;
            category := MainFeature.f_category d;
            categoryColor := MainFeature.f_categoryColor d;
            createdAt := MainFeature.now_ISO env;
            isCompleted := false; completedAt := None |} ]
     ∧ after.1 = {| MainFeature.isFormOpen := false;
                    MainFeature.formData := MainFeature.blank;
                    MainFeature.errors := ∅ |})
  ∧ (¬ valid_form env d →
       after.2 = tasks
       ∧ MainFeature.formData after.1 = d
       ∧ MainFeature.isFormOpen after.1 = MainFeature.isFormOpen s
       ∧ MainFeature.errors after.1 ≠ ∅).
Proof.
  intros d after. subst after.
  unfold submit_task, MainFeature.handleSubmit, MainFeature.validateForm.
  fold d. split.
  - intros Hvalid. apply newErrors_empty_iff in Hvalid. rewrite Hvalid.
    rewrite bool_decide_eq_true_2 by apply map_size_empty. simpl. done.
  - intros Hinvalid.
    assert (Hne : MainFeature.newErrors env d ≠ ∅).
    { intros He. by apply Hinvalid, newErrors_empty_iff. }
    rewrite bool_decide_eq_false_2 by (by rewrite map_size_empty_iff). simpl. done.
Qed.

Lemma submission_is_decided_by_validation_witness :
  valid_form sample_dates (MainFeature.formData (form_with " Buy milk " ""))
  ∧ length (submit_task sample_dates (form_with " Buy milk " "") [milk]).2 = 2%nat
  ∧ ¬ valid_form sample_dates (MainFeature.formData (form_with "Buy milk" "2023-11-13"))
  ∧ (submit_task sample_dates (form_with "Buy milk" "2023-11-13") [milk]).2 = [milk].
Proof.
  assert (Hv : valid_form sample_dates (MainFeature.formData (form_with " Buy milk " ""))).
  { split; [vm_compute; discriminate | left; reflexivity]. }
  assert (Hi : ¬ valid_form sample_dates
                 (MainFeature.formData (form_with "Buy milk" "2023-11-13"))).
  { intros [_ [H|H]]; vm_compute in H; discriminate H. }
  destruct (submission_is_decided_by_validation sample_dates
              (form_with " Buy milk " "") [milk]) as [Hadd _].
  destruct (submission_is_decided_by_validation sample_dates
              (form_with "Buy milk" "2023-11-13") [milk]) as [_ Hblock].
  split; [exact Hv|]. split.
  { destruct (Hadd Hv) as [-> _]. reflexivity. }
  split; [exact Hi|]. exact (proj1 (Hblock Hi)).
Defined.

(** ** The sorted view *)

Section sorted_view.
Variable Date_parse : string → option Z.
Variable sortDirection : string.
Implicit Types (comparefn : Task → Task → Z) (l : list Task).

Lemma insert_sorted_perm comparefn x l :
  Home.insert_sorted comparefn x l ≡ₚ x :: l.
Proof.
  induction l as [|y l IH]; simpl; [done|].
  case_decide; [done|]. rewrite IH. apply Permutation_swap.
Qed.

Lemma sort_perm comparefn l : Home.sort comparefn l ≡ₚ l.
Proof.
  induction l as [|x l IH]; simpl; [done|].
  rewrite insert_sorted_perm. by rewrite IH.
Qed.

(** An element is never moved past one it does not compare greater than:
    elements of a class whose members compare equal keep their order. *)
Lemma insert_sorted_filter (P : Task → Prop) `{∀ t, Decision (P t)} comparefn x l :
  (∀ y, y ∈ l → P x → P y → comparefn x y ≤ 0) →
  filter P (Home.insert_sorted comparefn x l) = filter P (x :: l).
Proof.
  induction l as [|y l IH]; intros Hle; simpl; [done|].
  case_decide as Hxy; [done|].
  rewrite filter_cons. rewrite IH.
  2:{ intros z Hz. apply Hle. by apply elem_of_cons; right. }
  rewrite !(filter_cons _ x), !(filter_cons _ y).
  destruct (decide (P x)) as [Hx|Hx], (decide (P y)) as [Hy|Hy]; try done.
  exfalso. apply Hxy, Hle; [by apply elem_of_cons; left|done|done].
Qed.

Lemma sort_stable (P : Task → Prop) `{∀ t, Decision (P t)} comparefn l :
  (∀ x y, x ∈ l → y ∈ l → P x → P y → comparefn x y ≤ 0) →
  filter P (Home.sort comparefn l) = filter P l.
Proof.
  induction l as [|x l IH]; intros Hle; simpl; [done|].
  rewrite insert_sorted_filter.
  - rewrite !(filter_cons _ x). rewrite IH; [done|].
    intros a b Ha Hb. apply Hle; by apply elem_of_cons; right.
  - intros y Hy. apply Hle; [by apply elem_of_cons; left|].
    apply elem_of_cons; right. by rewrite <- (sort_perm comparefn l).
Qed.

Lemma in_order_trans a b c :
  in_order Date_parse sortDirection a b → in_order Date_parse sortDirection b c →
  in_order Date_parse sortDirection a c.
Proof.
  intros (ta & tb & Ha & Hb & Hab) (tb' & tc & Hb' & Hc & Hbc).
  rewrite Hb in Hb'. inversion Hb'; subst tb'.
  exists ta, tc. split; [done|]. split; [done|]. destruct (decide _); lia.
Qed.

Lemma insert_sorted_sorted comparefn x l :
  (∀ y, y ∈ l → comparefn x y ≤ 0 → in_order Date_parse sortDirection x y) →
  (∀ y, y ∈ l → ¬ comparefn x y ≤ 0 → in_order Date_parse sortDirection y x) →
  StronglySorted (in_order Date_parse sortDirection) l →
  StronglySorted (in_order Date_parse sortDirection) (Home.insert_sorted comparefn x l).
Proof.
  induction l as [|y l IH]; intros Hle Hgt Hsorted; simpl.
  { repeat constructor. }
  apply StronglySorted_inv in Hsorted as [Hl Hy].
  case_decide as Hxy.
  - assert (Hxy' : in_order Date_parse sortDirection x y).
    { apply Hle; [by apply elem_of_cons; left|done]. }
    constructor; [by constructor|]. constructor; [done|].
    eapply Forall_impl; [exact Hy|]. intros z Hz. by eapply in_order_trans.
  - constructor.
    + apply IH; [| |done]; intros z Hz; [apply Hle | apply Hgt];
        by apply elem_of_cons; right.
    + rewrite insert_sorted_perm. constructor; [|done].
      apply Hgt; [by apply elem_of_cons; left|done].
Qed.

(** The comparator on two tasks whose timestamps parse. *)
Lemma comparator_parsed a b ta tb :
  Date_parse (createdAt a) = Some ta → Date_parse (createdAt b) = Some tb →
  default 0 (Home.comparator Date_parse sortDirection a b)
  = if decide (sortDirection = "desc") then tb - ta else ta - tb.
Proof. intros Ha Hb. unfold Home.comparator. rewrite Ha, Hb. done. Qed.

Lemma sort_sorted l :
  Forall (λ task, is_Some (Date_parse (createdAt task))) l →
  StronglySorted (in_order Date_parse sortDirection)
    (Home.sort (λ a b, default 0 (Home.comparator Date_parse sortDirection a b)) l).
Proof.
  induction l as [|x l IH]; intros Hparse; simpl; [constructor|].
  apply Forall_cons in Hparse as [[tx Hx] Hl].
  assert (Hy : ∀ y, y ∈ Home.sort
                 (λ a b, default 0 (Home.comparator Date_parse sortDirection a b)) l →
               ∃ ty, Date_parse (createdAt y) = Some ty).
  { intros y Hin. rewrite sort_perm in Hin.
    rewrite Forall_forall in Hl. by apply Hl. }
  apply insert_sorted_sorted; [| |by apply IH].
  - intros y Hin Hle. destruct (Hy y Hin) as [ty Hty].
    rewrite (comparator_parsed x y tx ty) in Hle by done.
    exists tx, ty. split; [done|]. split; [done|]. destruct (decide _); lia.
  - intros y Hin Hgt. destruct (Hy y Hin) as [ty Hty].
    rewrite (comparator_parsed x y tx ty) in Hgt by done.
    exists ty, tx. split; [done|]. split; [done|]. destruct (decide _); lia.
Qed.
End sorted_view.

(** X17. When every creation timestamp of the filtered tasks parses, the
    sorted view holds the same tasks, each as often as the filtered view
    does; it is in order of creation time, newest first for [desc] and
    oldest first for any other direction; and tasks with the same creation
    time keep the order they have in the list.  When a timestamp does not
    parse the order is not determined. *)
Theorem sorted_view_is_a_stable_sort (Date_parse : string → option Z)
    (sortDirection : string) (filteredTasks : list Task) :
  (Forall (λ task, is_Some (Date_parse (createdAt task))) filteredTasks →
   ∃ sorted,
     Home.sortedTasks Date_parse sortDirection filteredTasks = Some sorted
     ∧ sorted ≡ₚ filteredTasks
     ∧ StronglySorted (in_order Date_parse sortDirection) sorted
     ∧ ∀ time,
         filter (λ task, Date_parse (createdAt task) = Some time) sorted
         = filter (λ task, Date_parse (createdAt task) = Some time) filteredTasks)
  ∧ (¬ Forall (λ task, is_Some (Date_parse (createdAt task))) filteredTasks →
     Home.sortedTasks Date_parse sortDirection filteredTasks = None).
Proof.
  unfold Home.sortedTasks. split.
  - intros Hparse. rewrite decide_True by done. eexists. split; [reflexivity|].
    split; [apply sort_perm|]. split; [by apply sort_sorted|].
    intros time. apply sort_stable. intros x y _ _ Hx Hy.
    rewrite (comparator_parsed _ _ x y time time) by done.
    destruct (decide _); lia.
  - intros Hnot. by rewrite decide_False.
Qed.

Lemma sorted_view_is_a_stable_sort_witness :
  Forall (λ task, is_Some (sample_parse (createdAt task))) [milk; done_milk]
  ∧ (∃ sorted,
       Home.sortedTasks sample_parse "desc" [milk; done_milk] = Some sorted
       ∧ sorted ≡ₚ [milk; done_milk])
  ∧ ¬ Forall (λ task, is_Some ((λ _, None) (createdAt task) : option Z)) [milk]
  ∧ Home.sortedTasks (λ _, None) "desc" [milk] = None.
Proof.
  assert (Hparse : Forall (λ task, is_Some (sample_parse (createdAt task)))
                     [milk; done_milk]).
  { repeat constructor; vm_compute; eauto. }
  assert (Hnot : ¬ Forall (λ task, is_Some ((λ _, None) (createdAt task) : option Z))
                     [milk]).
  { intros H. apply Forall_cons in H as [[t Ht] _]. discriminate Ht. }
  destruct (sorted_view_is_a_stable_sort sample_parse "desc" [milk; done_milk])
    as [Hsorted _].
  destruct (sorted_view_is_a_stable_sort (λ _, None) "desc" [milk]) as [_ Hnone].
  split; [exact Hparse|]. split.
  { destruct (Hsorted Hparse) as (sorted & Heq & Hperm & _).
    exists sorted. split; [exact Heq | exact Hperm]. }
  split; [exact Hnot | exact (Hnone Hnot)].
Defined.

(** The newest task comes first. *)
Example newest_first :
  Home.sortedTasks sample_parse "desc" [milk; done_milk] = Some [done_milk; milk]
  ∧ Home.sortedTasks sample_parse "asc" [done_milk; milk] = Some [milk; done_milk].
Proof. split; vm_compute; reflexivity. Qed.

(** ** Authentication *)

Section session_facts.
Variable json : JSON.

(** [getUserData], case by case. *)
Lemma getUserData_run (s : session) :
  authService.getUserData json s =
    match localStorage s !! "apperUser" with
    | Some text =>
        if decide (text = "") then (Resolved None, s)
        else match JSON_parse json text with
             | SyntaxError e => (Resolved None, (session_error "Error parsing user data:" s).2)
             | JsonNull => (Resolved None, s)
             | JsonObject o => (Resolved (Some o), s)
             end
    | None => (Resolved None, s)
    end.
Proof.
  unfold authService.getUserData. eff.
  destruct (localStorage s !! "apperUser") as [text|]; [|done].
  destruct (decide (text = "")); [done|]. by destruct (JSON_parse json text).
Qed.


(** The answer of [getUserData] depends on the storage alone. *)
Lemma getUserData_storage (s1 s2 : session) :
  localStorage s1 = localStorage s2 →
  (authService.getUserData json s1).1 = (authService.getUserData json s2).1.
Proof.
  intros Heq. rewrite !getUserData_run, Heq.
  destruct (localStorage s2 !! "apperUser") as [text|]; [|done].
  destruct (decide (text = "")); [done|]. by destruct (JSON_parse json text).
Qed.

End session_facts.


(** X19. The stored session is a round trip: when [JSON.parse] gives back
    the object that [JSON.stringify] wrote, and the written text is not
    empty, [getUserData] after [storeUserData] answers that object and
    [isAuthenticated] answers [true].  [storeUserData] without data writes
    nothing. *)
Theorem stored_session_round_trip (json : JSON) (userData : obj) (s : session) :
  JSON_stringify json userData ≠ "" →
  JSON_parse json (JSON_stringify json userData) = JsonObject userData →
  let stored := (authService.storeUserData json (Some userData) s).2 in
  (authService.getUserData json stored).1 = Resolved (Some userData)
  ∧ (authService.isAuthenticated json stored).1 = Resolved true
  ∧ (∀ k, k ≠ "apperUser" → localStorage stored !! k = localStorage s !! k)
  ∧ authService.storeUserData json None s = (Resolved (), s).
Proof.
  intros Hne Hparse stored. subst stored.
  assert (Hget : authService.getUserData json
                   (authService.storeUserData json (Some userData) s).2
                 = (Resolved (Some userData),
                    (authService.storeUserData json (Some userData) s).2)).
  { rewrite getUserData_run. unfold authService.storeUserData. eff.
    rewrite lookup_insert_eq. rewrite decide_False by done. by rewrite Hparse. }
  split; [by rewrite Hget|]. split.
  { unfold authService.isAuthenticated, mbind, Eff_bind, ebind. by rewrite Hget. }
  split; [|done].
  intros k Hk. unfold authService.storeUserData. eff. by rewrite lookup_insert_ne.
Qed.

Lemma stored_session_round_trip_witness :
  JSON_stringify sample_json the_user ≠ ""
  ∧ JSON_parse sample_json (JSON_stringify sample_json the_user) = JsonObject the_user
  ∧ (authService.getUserData sample_json
       (authService.storeUserData sample_json (Some the_user)
          (AuthContext.initial ∅)).2).1 = Resolved (Some the_user).
Proof.
  assert (H1 : JSON_stringify sample_json the_user ≠ "") by (vm_compute; discriminate).
  assert (H2 : JSON_parse sample_json (JSON_stringify sample_json the_user)
               = JsonObject the_user) by (vm_compute; reflexivity).
  split; [exact H1|]. split; [exact H2|].
  exact (proj1 (stored_session_round_trip sample_json the_user (AuthContext.initial ∅)
                  H1 H2)).
Defined.

Ltac auth_ops :=
  unfold AuthContext.logout, AuthContext.loadUserData, AuthContext.handleAuthSuccess,
    AuthContext.handleAuthError, AuthContext.signed_in_by_widget,
    AuthContext.refused_by_widget, AuthContext.isAuthenticated, AuthContext.initial,
    authService.logout, authService.onSuccess, authService.onError,
    authService.storeUserData, ProtectedRoute,
    setUser, setAuthLoading, setAuthError, setStorage, session_error in *.

(** X20. Signing out ends the session and nothing else.  After [logout]
    the page has no user, [getUserData] answers [null] and
    [isAuthenticated] answers [false], the protected route does not render
    its children, and every operation of the task and project containers
    returns a neutral value without a gateway call.  Every other key of the
    local storage, the local task list among them, is left as it was. *)
Theorem logout_ends_the_session (json : JSON) (s : session) :
  let out := (AuthContext.logout s).2 in
  user out = None
  ∧ AuthContext.isAuthenticated out = false
  ∧ (authService.getUserData json out).1 = Resolved None
  ∧ (authService.isAuthenticated json out).1 = Resolved false
  ∧ ProtectedRoute out ≠ Children
  ∧ (∀ k, k ≠ "apperUser" → localStorage out !! k = localStorage s !! k)
  ∧ (∀ (svc : TaskContext.service) (o : TaskContext.op) (w : TaskContext.W),
       ∃ v, TaskContext.run svc (user out) o w = (Resolved v, w) ∧ neutral v)
  ∧ (∀ (svc : ProjectContext.service) (o : ProjectContext.op) (w : ProjectContext.W),
       ∃ v, ProjectContext.run svc (user out) o w = (Resolved v, w) ∧ neutral v).
Proof.
  intros out.
  assert (Hget : authService.getUserData json out = (Resolved None, out)).
  { rewrite getUserData_run. subst out. auth_ops. eff. by rewrite lookup_delete_eq. }
  assert (Huser : user out = None) by done.
  split; [done|]. split; [done|]. split; [by rewrite Hget|]. split.
  { unfold authService.isAuthenticated, mbind, Eff_bind, ebind. by rewrite Hget. }
  split.
  { subst out. auth_ops. eff. by destruct (auth_loading s). }
  split.
  { intros k Hk. subst out. auth_ops. eff. by rewrite lookup_delete_ne. }
  rewrite Huser. split; [apply task_no_user | apply project_no_user].
Qed.


(** X22. A sign-in survives a reload of the page.  When the identity
    widget reports a user with data, and [JSON.parse] gives back what
    [JSON.stringify] wrote, the provider holds that user with no error,
    and a fresh provider mounted over the storage that was left holds the
    same user and lets the protected route render its children.  A report
    of a user without data leaves the page without user and the storage
    untouched. *)
Theorem sign_in_survives_reload (json : JSON) (userData : obj) (s : session) :
  JSON_stringify json userData ≠ "" →
  JSON_parse json (JSON_stringify json userData) = JsonObject userData →
  let signed := (AuthContext.signed_in_by_widget json {| user_data := Some userData |} s).2 in
  let reloaded :=
    (AuthContext.loadUserData json (AuthContext.initial (localStorage signed))).2 in
  let nodata := (AuthContext.signed_in_by_widget json {| user_data := None |} s).2 in
  user signed = Some userData
  ∧ auth_error signed = None
  ∧ user reloaded = Some userData
  ∧ ProtectedRoute reloaded = Children
  ∧ user nodata = None
  ∧ localStorage nodata = localStorage s.
Proof.
  intros Hne Hparse signed reloaded nodata.
  assert (Hstored : localStorage signed !! "apperUser"
                    = Some (JSON_stringify json userData)).
  { subst signed. auth_ops. eff. by rewrite lookup_insert_eq. }
  assert (Hreload : reloaded
                    = {| user := Some userData; auth_loading := false;
                         auth_error := None; localStorage := localStorage signed;
                         session_console := [] |}).
  { subst reloaded. unfold AuthContext.loadUserData. eff.
    rewrite getUserData_run. unfold AuthContext.initial. simpl.
    rewrite Hstored, decide_False, Hparse by done. done. }
  split; [done|]. split; [done|]. rewrite Hreload. done.
Qed.

Lemma sign_in_survives_reload_witness :
  JSON_stringify sample_json the_user ≠ ""
  ∧ JSON_parse sample_json (JSON_stringify sample_json the_user) = JsonObject the_user
  ∧ user (AuthContext.loadUserData sample_json
            (AuthContext.initial
               (localStorage
                  (AuthContext.signed_in_by_widget sample_json
                     {| user_data := Some the_user |} (AuthContext.initial ∅)).2))).2
    = Some the_user.
Proof.
  assert (H1 : JSON_stringify sample_json the_user ≠ "") by (vm_compute; discriminate).
  assert (H2 : JSON_parse sample_json (JSON_stringify sample_json the_user)
               = JsonObject the_user) by (vm_compute; reflexivity).
  split; [exact H1|]. split; [exact H2|].
  destruct (sign_in_survives_reload sample_json the_user (AuthContext.initial ∅) H1 H2)
    as (_ & _ & Hreloaded & _).
  exact Hreloaded.
Defined.

(** X23. A refusal by the identity widget never touches the local
    storage: it writes one line to the console, [getUserData] answers what
    it answered before, and a session that was stored is restored by the
    next mount.  When the error the widget hands over is anything but
    [null] or [undefined], the page is signed out in memory: the user is
    cleared and the message of the error, or "Authentication failed" when it
    has none, is stored.  When the widget hands over [null] or [undefined],
    [handleAuthError] throws on reading the message, before the user is
    cleared: the user and the error stay as they were. *)
Theorem refusal_keeps_the_stored_session (json : JSON) (e : exn) (s : session) :
  let out := AuthContext.refused_by_widget e s in
  let refused := out.2 in
  session_console refused = session_console s ++ ["Authentication error:"]
  ∧ localStorage refused = localStorage s
  ∧ (authService.getUserData json refused).1 = (authService.getUserData json s).1
  ∧ user (AuthContext.loadUserData json (AuthContext.initial (localStorage refused))).2
    = user (AuthContext.loadUserData json (AuthContext.initial (localStorage s))).2
  ∧ (nullish e = false →
     out.1 = Resolved ()
     ∧ user refused = None
     ∧ auth_error refused
       = Some (or_else (message_property e) "Authentication failed"))
  ∧ (nullish e = true →
     (∀ v, e = Primitive v → out.1 = Rejected (TypeError_reading "message" v))
     ∧ user refused = user s
     ∧ auth_error refused = auth_error s).
Proof.
  intros out refused.
  assert (Hs : localStorage refused = localStorage s)
    by (subst refused out; auth_ops; eff; by destruct e as [m|[]]).
  split; [subst refused out; auth_ops; eff; by destruct e as [m|[]]|].
  split; [done|]. split; [by apply getUserData_storage|].
  split; [by rewrite Hs|].
  subst refused out. auth_ops. eff.
  split; intros Hnull; destruct e as [m|[]]; try discriminate Hnull; simpl;
    repeat split; try done; by intros v [= <-].
Qed.

Lemma refusal_keeps_the_stored_session_witness :
  nullish (Primitive VUndefined) = true
  ∧ (AuthContext.refused_by_widget (Primitive VUndefined) signed_in_page).1
    = Rejected (TypeError_reading "message" VUndefined)
  ∧ user (AuthContext.refused_by_widget (Primitive VUndefined) signed_in_page).2
    = Some the_user
  ∧ nullish (Error (Some "Invalid credentials")) = false
  ∧ user (AuthContext.refused_by_widget (Error (Some "Invalid credentials"))
            signed_in_page).2 = None
  ∧ auth_error (AuthContext.refused_by_widget (Error (Some "Invalid credentials"))
                  signed_in_page).2 = Some "Invalid credentials".
Proof.
  destruct (refusal_keeps_the_stored_session sample_json (Primitive VUndefined)
              signed_in_page) as (_ & _ & _ & _ & _ & Hnull).
  destruct (Hnull eq_refl) as (Hthrown & Huser & _).
  destruct (refusal_keeps_the_stored_session sample_json
              (Error (Some "Invalid credentials")) signed_in_page)
    as (_ & _ & _ & _ & Hobj & _).
  destruct (Hobj eq_refl) as (_ & Hcleared & Herror).
  split; [reflexivity|]. split; [exact (Hthrown _ eq_refl)|].
  split; [exact Huser|]. split; [reflexivity|]. split; [exact Hcleared|].
  exact Herror.
Defined.

(** A stale session outlives a refusal. *)
Example refused_then_reloaded :
  let refused :=
    (AuthContext.refused_by_widget (Error None) signed_in_page).2 in
  user refused = None
  ∧ auth_error refused = Some "Authentication failed"
  ∧ user (AuthContext.loadUserData sample_json
            (AuthContext.initial (localStorage refused))).2 = Some the_user
  ∧ localStorage (AuthContext.logout signed_in_page).2 = {[ "tasks" := "[]" ]}.
Proof. repeat split; vm_compute; reflexivity. Qed.

(** ** The stored task list *)

(** X24. The local task list survives a reload: when [JSON.parse] gives
    back the list that [JSON.stringify] wrote, and the written text is not
    empty, the page that mounts over the storage left by the persisting
    effect starts with that list.  The effect writes the key of the task
    list only, so a stored session is untouched.  A page that finds
    nothing, or an empty text, under the key starts with the empty list;
    one that finds a text that does not parse throws while it mounts. *)
Theorem task_list_survives_reload (json : Home.TasksJSON) (tasks : list Task)
    (storage : gmap string string) :
  Home.tasks_stringify json tasks ≠ "" →
  Home.tasks_parse json (Home.tasks_stringify json tasks) = inr tasks →
  Home.savedTasks json (Home.persist json tasks storage) = Resolved tasks
  ∧ (∀ k, k ≠ "tasks" → Home.persist json tasks storage !! k = storage !! k)
  ∧ (storage !! "tasks" = None → Home.savedTasks json storage = Resolved [])
  ∧ (storage !! "tasks" = Some "" → Home.savedTasks json storage = Resolved [])
  ∧ (∀ text e, storage !! "tasks" = Some text → text ≠ "" →
       Home.tasks_parse json text = inl e →
       Home.savedTasks json storage = Rejected e).
Proof.
  intros Hne Hparse. unfold Home.savedTasks, Home.persist.
  split; [by rewrite lookup_insert_eq, decide_False, Hparse|].
  split; [intros k Hk; by rewrite lookup_insert_ne|].
  split; [by intros ->|]. split; [by intros ->|].
  intros text e -> Htext ->. by rewrite decide_False.
Qed.

Lemma task_list_survives_reload_witness :
  Home.tasks_stringify sample_tasks_json [milk] ≠ ""
  ∧ Home.tasks_parse sample_tasks_json (Home.tasks_stringify sample_tasks_json [milk])
    = inr [milk]
  ∧ Home.savedTasks sample_tasks_json
      (Home.persist sample_tasks_json [milk] (localStorage signed_in_page))
    = Resolved [milk]
  ∧ Home.persist sample_tasks_json [milk] (localStorage signed_in_page) !! "apperUser"
    = Some "{userId:9}".
Proof.
  assert (H1 : Home.tasks_stringify sample_tasks_json [milk] ≠ "")
    by (vm_compute; discriminate).
  assert (H2 : Home.tasks_parse sample_tasks_json
                 (Home.tasks_stringify sample_tasks_json [milk]) = inr [milk])
    by (vm_compute; reflexivity).
  destruct (task_list_survives_reload sample_tasks_json [milk]
              (localStorage signed_in_page) H1 H2) as (Hload & Hother & _).
  split; [exact H1|]. split; [exact H2|]. split; [exact Hload|].
  rewrite (Hother "apperUser") by discriminate. reflexivity.
Defined.

(** ** The gateway on a store that answers without data *)

(** X25. When the store resolves with no [data] at all, the functions of
    the gateway read it differently: the three listings resolve with
    [undefined], which they hand on as it is; the three lookups resolve
    with [null]; the tasks of a project and the tasks of a user resolve
    with an empty array. *)
Theorem absent_data_is_read_three_ways (s : gateway_state) (c : ApperClient) :
  client_of s = Some c →
  (∀ t p, fetchRecords c t p = Resolved {| data := None |}) →
  (∀ o, (run_gateway_op (Task_fetchTasks o) s).1 = Resolved (Prim VUndefined)
        ∧ (run_gateway_op (Project_fetchProjects o) s).1 = Resolved (Prim VUndefined)
        ∧ (run_gateway_op (User_fetchUsers o) s).1 = Resolved (Prim VUndefined))
  ∧ (∀ i, (run_gateway_op (Task_fetchTaskById i) s).1 = Resolved (Prim VNull)
          ∧ (run_gateway_op (Project_fetchProjectById i) s).1 = Resolved (Prim VNull)
          ∧ (run_gateway_op (User_fetchUserById i) s).1 = Resolved (Prim VNull))
  ∧ (∀ i, (run_gateway_op (Project_fetchTasksByProject i) s).1 = Resolved (Array [])
          ∧ (run_gateway_op (User_fetchTasksByUser i) s).1 = Resolved (Array [])).
Proof.
  intros Hclient Hnone.
  split; [|split]; intros x; repeat split;
    gateway_ops; eff; rewrite getApperClient_spec, Hclient; simpl;
    rewrite Hnone; reflexivity.
Qed.

(** A store whose every query resolves without data. *)
Lemma absent_data_is_read_three_ways_witness :
  client_of (warm (no_data_store)) = Some no_data_store
  ∧ (∀ t p, fetchRecords no_data_store t p = Resolved {| data := None |})
  ∧ (run_gateway_op (Task_fetchTasks no_options) (warm no_data_store)).1
    = Resolved (Prim VUndefined)
  ∧ (run_gateway_op (User_fetchTasksByUser (VNum 9)) (warm no_data_store)).1
    = Resolved (Array []).
Proof.
  assert (Hnone : ∀ t p, fetchRecords no_data_store t p = Resolved {| data := None |})
    by reflexivity.
  destruct (absent_data_is_read_three_ways (warm no_data_store) no_data_store
              eq_refl Hnone) as (Hlist & _ & Htasks).
  split; [reflexivity|]. split; [exact Hnone|].
  split; [exact (proj1 (Hlist no_options)) | exact (proj2 (Htasks (VNum 9)))].
Defined.
